(** * Sentiment chatbot core: classifier, response synthesizer, statistics

    A shallow embedding of [app/sentiment.py] ([SentimentAnalyzer],
    [SentimentStats]) and of the timeline route of [routes.py], with the
    properties the specification states about them.

    Conventions.
    - A Python [str] is a [string] holding its UTF-8 bytes.  The keywords
      the code searches for are ASCII, and UTF-8 is self-synchronising, so
      [word in s] on code points and on bytes agree.
    - A Python [float] is a binary64 [float] of the kernel ([PrimFloat]);
      comparisons are the IEEE ones.
    - A Python [dict] is a [gmap]; indexing a missing key raises [KeyError].
    - Code that draws random numbers or reads the clock runs in the monad
      [Py], which threads a [world] and may raise. *)

From Stdlib Require Import ZArith List Bool Lia Floats Ascii String.
From stdpp Require Import gmap strings list fin_maps.
Import ListNotations.

Local Open Scope string_scope.
Local Open Scope Z_scope.

Set Warnings "-inexact-float".

(** ** Exceptions and the [Py] monad *)

Inductive pyexn : Type :=
| KeyError (key : string)
| IndexError
| ZeroDivisionError.

Inductive pyresult (A : Type) : Type :=
| Ok (a : A)
| Raise (e : pyexn).
Arguments Ok {A} a.
Arguments Raise {A} e.

(** A naive [datetime] is the number of microseconds since
    0001-01-01T00:00:00 in the proleptic Gregorian calendar. *)
Definition datetime := Z.

(** The part of the interpreter state the modelled code touches: the
    generator behind [random.choice] (a stream of raw draws and a cursor)
    and the clock behind [datetime.utcnow] (a stream of readings). *)
Record world : Type := World {
  rand_draws : nat -> nat;
  rand_pos : nat;
  clock : nat -> datetime;
  clock_pos : nat
}.

Definition Py (A : Type) : Type := world -> pyresult A * world.

Definition ret {A} (a : A) : Py A := fun w => (Ok a, w).

Definition raise {A} (e : pyexn) : Py A := fun w => (Raise e, w).

Definition bind {A B} (c : Py A) (k : A -> Py B) : Py B :=
  fun w =>
    match c w with
    | (Ok a, w') => k a w'
    | (Raise e, w') => (Raise e, w')
    end.

Declare Scope py_scope.
Delimit Scope py_scope with py.
Notation "x <- c ;; k" := (bind c (fun x => k))
  (at level 100, c at next level, right associativity) : py_scope.

(** Lift a pure, possibly failing, computation. *)
Definition lift {A} (r : pyresult A) : Py A := fun w => (r, w).

(** [d[k]] on a dict. *)
Definition getitem {V} (d : gmap string V) (k : string) : pyresult V :=
  match d !! k with
  | Some v => Ok v
  | None => Raise (KeyError k)
  end.

(** [d.get(k, default)]. *)
Definition dict_get {V} (d : gmap string V) (k : string) (default : V) : V :=
  match d !! k with
  | Some v => v
  | None => default
  end.

(** [random.choice(seq)]: [IndexError] on an empty sequence, else the
    element at an index below [len(seq)] taken from the generator. *)
Definition random_choice {A} (seq : list A) : Py A :=
  fun w =>
    match seq with
    | [] => (Raise IndexError, w)
    | x :: _ =>
        (Ok (nth (rand_draws w (rand_pos w) mod length seq)%nat seq x),
         World (rand_draws w) (S (rand_pos w)) (clock w) (clock_pos w))
    end.

(** [datetime.utcnow()]. *)
Definition utcnow : Py datetime :=
  fun w =>
    (Ok (clock w (clock_pos w)),
     World (rand_draws w) (rand_pos w) (clock w) (S (clock_pos w))).

(** ** Floats: [round(x, ndigits)] and [int / int] *)

(** The integer nearest to [a / b] for [b > 0], ties to even. *)
Definition round_half_even_div (a b : Z) : Z :=
  let q := a / b in
  let r := a mod b in
  match 2 * r ?= b with
  | Lt => q
  | Gt => q + 1
  | Eq => if Z.even q then q else q + 1
  end.

(** The double nearest to [n / d] (ties to even), with sign [s]. *)
Definition nearest_double (s : bool) (n d : positive) : float :=
  SF2Prim (SFdiv prec emax (S754_finite s n 0) (S754_finite false d 0)).

(** The double written [k / 10^ndigits] in decimal, with sign [s]. *)
Definition decimal_float (s : bool) (k : Z) (ndigits : nat) : float :=
  match k with
  | Zpos p => nearest_double s p (Z.to_pos (10 ^ Z.of_nat ndigits))
  | _ => SF2Prim (S754_zero s)
  end.

(** [round(x, ndigits)] for [ndigits >= 0]: [x] is rounded, exactly and
    half to even, to a decimal with [ndigits] fractional digits, which is
    then read back as the nearest double.  Zeros, infinities and NaN round
    to themselves; the sign is kept. *)
Definition py_round (x : float) (ndigits : nat) : float :=
  match Prim2SF x with
  | S754_finite s m e =>
      let num := Zpos m * 2 ^ (Z.max e 0) * 10 ^ Z.of_nat ndigits in
      let den := 2 ^ (Z.max (- e) 0) in
      decimal_float s (round_half_even_div num den) ndigits
  | _ => x
  end.

(** [a / b] on non-negative ints: the correctly rounded quotient. *)
Definition py_truediv (a b : nat) : pyresult float :=
  match b, a with
  | O, _ => Raise ZeroDivisionError
  | _, O => Ok 0%float
  | _, _ => Ok (nearest_double false (Pos.of_nat a) (Pos.of_nat b))
  end.

(** Exact reading of a double: [x] is finite with [lo <= x <= hi] for
    integers [lo], [hi]. *)
Definition float_between (lo hi : Z) (x : float) : bool :=
  match Prim2SF x with
  | S754_zero _ => (lo <=? 0) && (0 <=? hi)
  | S754_finite s m e =>
      let v := if s then Zneg m else Zpos m in
      let up := 2 ^ (Z.max e 0) in
      let dn := 2 ^ (Z.max (- e) 0) in
      (lo * dn <=? v * up) && (v * up <=? hi * dn)
  | _ => false
  end.

(** ** Strings: [word in s] *)

Fixpoint starts_with (s w : string) {struct w} : bool :=
  match w, s with
  | EmptyString, _ => true
  | String _ _, EmptyString => false
  | String a w', String b s' => Ascii.eqb a b && starts_with s' w'
  end.

(** [w in s]: [w] occurs in [s] as a contiguous substring. *)
Fixpoint contains (s w : string) : bool :=
  starts_with s w ||
  match s with
  | EmptyString => false
  | String _ s' => contains s' w
  end.

(** [any(word in s for word in words)]. *)
Definition any_in (words : list string) (s : string) : bool :=
  existsb (contains s) words.

(** [str.lower] restricted to ASCII letters; other bytes are kept.  It
    agrees with Python's [str.lower] on ASCII text and serves as a
    concrete instance of the [lower] parameter below. *)
Definition ascii_lower_char (c : ascii) : ascii :=
  let n := nat_of_ascii c in
  if (65 <=? n)%nat && (n <=? 90)%nat then ascii_of_nat (n + 32) else c.

Fixpoint ascii_lower (s : string) : string :=
  match s with
  | EmptyString => EmptyString
  | String c s' => String (ascii_lower_char c) (ascii_lower s')
  end.

(** ** [SentimentAnalyzer] *)

(** The threshold rule of [analyze_sentiment] (the [if]/[elif]/[else]
    on [polarity]). *)
Definition classify (polarity : float) : string :=
  if (0.1 <? polarity)%float then "positive"
  else if (polarity <? -0.1)%float then "negative"
  else "neutral".

Definition positive_responses : list string :=
  [ "That's wonderful! I'm glad you're feeling positive! 😊";
    "I love your enthusiasm! How can I help you further?";
    "Great to hear such positivity! What else can I do for you?";
    "Your positive energy is contagious! What's on your mind?";
    "That's fantastic! I'm here to keep that good mood going!" ].

Definition negative_responses : list string :=
  [ "I'm sorry to hear that. I'm here to help you feel better. 💙";
    "I understand this might be difficult. Let's work through it together.";
    "I hear you. Sometimes things can be tough. How can I assist you?";
    "I'm here for you. Would you like to talk more about it?";
    "I appreciate you sharing that with me. Let's find a way to help." ].

Definition neutral_responses : list string :=
  [ "I understand. How can I assist you today?";
    "Got it! What would you like to know?";
    "I'm listening. Please tell me more.";
    "Alright! What can I help you with?";
    "I see. What's your next question?" ].

Definition responses : gmap string (list string) :=
  <["positive" := positive_responses]>
    (<["negative" := negative_responses]>
       (<["neutral" := neutral_responses]> ∅)).

Definition help_words : list string := ["help"; "support"; "assist"].
Definition thank_words : list string := ["thank"; "thanks"; "appreciate"].
Definition bye_words : list string := ["bye"; "goodbye"; "see you"].
Definition hello_words : list string := ["hello"; "hi"; "hey"].

Definition help_suffix : string :=
  " I'm here to assist you with any questions or concerns you may have.".
Definition thank_reply : string :=
  "You're very welcome! It's my pleasure to help you. 😊".
Definition bye_reply : string :=
  "Goodbye! Feel free to return anytime. Have a great day! 👋".
Definition hello_reply : string :=
  "Hello! Nice to meet you! How can I brighten your day? 😊".

Section SentimentAnalyzer.

(** [TextBlob(text).sentiment.polarity]: the lexicon scorer of the
    TextBlob library, a function of the text. *)
Variable polarity_of : string -> float.

(** [str.lower]: the Unicode lower-casing of the Python runtime. *)
Variable lower : string -> string.

Definition analyze_sentiment (text : string) : Py (string * float) :=
  let polarity := polarity_of text in
  let sentiment := classify polarity in
  ret (sentiment, py_round polarity 4).

Definition generate_response (message sentiment : string) : Py string :=
  (neutral_list <- lift (getitem responses "neutral") ;;
   let response_list := dict_get responses sentiment neutral_list in
   base_response <- random_choice response_list ;;
   let message_lower := lower message in
   if any_in help_words message_lower then
     ret (base_response ++ help_suffix)
   else if any_in thank_words message_lower then
     ret thank_reply
   else if any_in bye_words message_lower then
     ret bye_reply
   else if any_in hello_words message_lower then
     ret hello_reply
   else
     ret base_response)%py.

End SentimentAnalyzer.

(** ** [models.py]: the columns of [ChatMessage] *)

Record ChatMessage : Type := {
  id : Z;
  user_id : Z;
  message : string;
  response : string;
  sentiment : string;
  sentiment_score : float;
  timestamp : datetime
}.

(** [sum(1 for x in xs if p(x))]. *)
Fixpoint count_where {A} (p : A -> bool) (xs : list A) : nat :=
  match xs with
  | [] => 0
  | x :: xs' => (if p x then 1 else 0) + count_where p xs'
  end.

(** A JSON number as Python holds it: the [int] literal [0] of the empty
    summary is not the [float] a percentage is. *)
Inductive pynum : Type :=
| PyInt (n : Z)
| PyFloat (x : float).

(** ** [SentimentStats] *)

Module SentimentStats.

(** The dict [calculate_statistics] returns, one field per key. *)
Record statistics : Type := {
  total : nat;
  positive : nat;
  negative : nat;
  neutral : nat;
  positive_percent : pynum;
  negative_percent : pynum;
  neutral_percent : pynum
}.

(** [round((count / total) * 100, 1)]. *)
Definition percent (count total : nat) : Py pynum :=
  (ratio <- lift (py_truediv count total) ;;
   ret (PyFloat (py_round (ratio * 100)%float 1)))%py.

Definition calculate_statistics (messages : list ChatMessage) : Py statistics :=
  match messages with
  | [] =>
      ret {| total := 0; positive := 0; negative := 0; neutral := 0;
             positive_percent := PyInt 0;
             negative_percent := PyInt 0;
             neutral_percent := PyInt 0 |}
  | _ :: _ =>
      let total := length messages in
      let positive := count_where (fun msg => String.eqb (sentiment msg) "positive") messages in
      let negative := count_where (fun msg => String.eqb (sentiment msg) "negative") messages in
      let neutral := count_where (fun msg => String.eqb (sentiment msg) "neutral") messages in
      (positive_percent <- percent positive total ;;
       negative_percent <- percent negative total ;;
       neutral_percent <- percent neutral total ;;
       ret {| total := total; positive := positive; negative := negative;
              neutral := neutral;
              positive_percent := positive_percent;
              negative_percent := negative_percent;
              neutral_percent := neutral_percent |})%py
  end.

End SentimentStats.

(** ** [datetime]: days, calendar dates and [strftime('%Y-%m-%d')] *)

Definition usec_per_day : Z := 86400000000.

(** [timedelta(days=d)]. *)
Definition timedelta_days (d : Z) : Z := d * usec_per_day.

(** [t.toordinal()]: day 1 is 0001-01-01. *)
Definition toordinal (t : datetime) : Z := t / usec_per_day + 1.

Definition is_leap (year : Z) : bool :=
  (year mod 4 =? 0) && (negb (year mod 100 =? 0) || (year mod 400 =? 0)).

Definition days_in_month (year month : Z) : Z :=
  if month =? 2 then (if is_leap year then 29 else 28)
  else if (month =? 4) || (month =? 6) || (month =? 9) || (month =? 11) then 30
  else 31.

(** Days of the year before the first of [month]. *)
Definition days_before_month (year month : Z) : Z :=
  nth (Z.to_nat month) [0; 0; 31; 59; 90; 120; 151; 181; 212; 243; 273; 304; 334] 0
  + (if (2 <? month) && is_leap year then 1 else 0).

(** The calendar date of an ordinal, as [datetime] computes it from the
    400-, 100-, 4- and 1-year cycles. *)
Definition ord2ymd (ordinal : Z) : Z * Z * Z :=
  let n := ordinal - 1 in
  let n400 := n / 146097 in
  let n := n mod 146097 in
  let n100 := n / 36524 in
  let n := n mod 36524 in
  let n4 := n / 1461 in
  let n := n mod 1461 in
  let n1 := n / 365 in
  let n := n mod 365 in
  let year := n400 * 400 + 1 + n100 * 100 + n4 * 4 + n1 in
  if (n1 =? 4) || (n100 =? 4) then (year - 1, 12, 31)
  else
    let month := Z.shiftr (n + 50) 5 in
    let preceding := days_before_month year month in
    if n <? preceding then
      let month := month - 1 in
      let preceding := preceding - days_in_month year month in
      (year, month, n - preceding + 1)
    else (year, month, n - preceding + 1).

Definition digit (n : Z) : ascii := ascii_of_nat (48 + Z.to_nat (n mod 10)).

Definition two_digits (n : Z) : string :=
  String (digit (n / 10)) (String (digit n) EmptyString).

Definition four_digits (n : Z) : string :=
  String (digit (n / 1000)) (String (digit (n / 100)) (two_digits n)).

(** [t.strftime('%Y-%m-%d')], the year written with four digits (years
    1000 to 9999). *)
Definition strftime_ymd (t : datetime) : string :=
  let '(year, month, day) := ord2ymd (toordinal t) in
  four_digits year ++ "-" ++ two_digits month ++ "-" ++ two_digits day.

(** The same string, from the ordinal of the day. *)
Definition date_string (ordinal : Z) : string :=
  strftime_ymd ((ordinal - 1) * usec_per_day).

(** ** [routes.py]: the timeline route *)

(** The arrays the route returns under ['data']. *)
Record timeline : Type := {
  dates : list string;
  positive_counts : list nat;
  negative_counts : list nat;
  neutral_counts : list nat
}.

(** [{'positive': 0, 'negative': 0, 'neutral': 0}], a fresh dict at each
    use. *)
Definition zero_counts : gmap string nat :=
  <["positive" := 0%nat]> (<["negative" := 0%nat]> (<["neutral" := 0%nat]> ∅)).

(** One turn of the grouping loop: create the day's dict if the date is
    new, then [daily_sentiment[date_key][msg.sentiment] += 1]. *)
Definition count_message (daily_sentiment : gmap string (gmap string nat))
    (msg : ChatMessage) : pyresult (gmap string (gmap string nat)) :=
  let date_key := strftime_ymd (timestamp msg) in
  let daily_sentiment :=
    match daily_sentiment !! date_key with
    | Some _ => daily_sentiment
    | None => <[date_key := zero_counts]> daily_sentiment
    end in
  match getitem daily_sentiment date_key with
  | Raise e => Raise e
  | Ok day =>
      match getitem day (sentiment msg) with
      | Raise e => Raise e
      | Ok n => Ok (<[date_key := <[sentiment msg := S n]> day]> daily_sentiment)
      end
  end.

(** [for msg in messages: ...]. *)
Fixpoint group_by_date (daily_sentiment : gmap string (gmap string nat))
    (messages : list ChatMessage) : pyresult (gmap string (gmap string nat)) :=
  match messages with
  | [] => Ok daily_sentiment
  | msg :: rest =>
      match count_message daily_sentiment msg with
      | Raise e => Raise e
      | Ok daily_sentiment' => group_by_date daily_sentiment' rest
      end
  end.

(** [for i in range(7): ...], over the remaining values of [i]; the clock
    is read once per turn. *)
Fixpoint fill_days (indices : list Z) (daily_sentiment : gmap string (gmap string nat))
    (acc : timeline) : Py timeline :=
  match indices with
  | [] => ret acc
  | i :: rest =>
      (now <- utcnow ;;
       let date := strftime_ymd (now - timedelta_days (6 - i)) in
       let sentiment_data := dict_get daily_sentiment date zero_counts in
       p <- lift (getitem sentiment_data "positive") ;;
       n <- lift (getitem sentiment_data "negative") ;;
       u <- lift (getitem sentiment_data "neutral") ;;
       fill_days rest daily_sentiment
         {| dates := dates acc ++ [date];
            positive_counts := positive_counts acc ++ [p];
            negative_counts := negative_counts acc ++ [n];
            neutral_counts := neutral_counts acc ++ [u] |})%py
  end.

(** The rows the query of the route selects: those of the current user
    with [timestamp >= week_ago]. *)
Definition recent_messages (current_user_id : Z) (week_ago : datetime)
    (table : list ChatMessage) : list ChatMessage :=
  List.filter
    (fun msg => (user_id msg =? current_user_id) && (week_ago <=? timestamp msg))
    table.

(** The [try] block of [analytics_timeline]. *)
Definition timeline_data (current_user_id : Z) (table : list ChatMessage) : Py timeline :=
  (now <- utcnow ;;
   let week_ago := now - timedelta_days 7 in
   let messages := recent_messages current_user_id week_ago table in
   daily_sentiment <- lift (group_by_date ∅ messages) ;;
   fill_days [0; 1; 2; 3; 4; 5; 6] daily_sentiment
     {| dates := []; positive_counts := []; negative_counts := [];
        neutral_counts := [] |})%py.

(** What a JSON route answers: the data, or an error message with its
    HTTP status. *)
Inductive reply (A : Type) : Type :=
| Success (data : A)
| Failure (status : Z) (error : string).
Arguments Success {A} data.
Arguments Failure {A} status error.

(** [analytics_timeline]: any exception of the [try] block becomes the
    generic 500 answer. *)
Definition analytics_timeline (current_user_id : Z) (table : list ChatMessage)
    : world -> reply timeline * world :=
  fun w =>
    match timeline_data current_user_id table w with
    | (Ok data, w') => (Success data, w')
    | (Raise _, w') => (Failure 500 "Failed to load timeline data", w')
    end.

(** * Notions used in the statements *)

(** ** Labels *)

(** The labels [analyze_sentiment] produces. *)
Definition known_label (label : string) : bool :=
  String.eqb label "positive" || String.eqb label "negative" || String.eqb label "neutral".

Definition has_label (label : string) (msg : ChatMessage) : bool :=
  String.eqb (sentiment msg) label.

(** The record carries none of the three labels. *)
Definition unlabelled (msg : ChatMessage) : bool := negb (known_label (sentiment msg)).

(** ** The keyword rules as the specification words them

    An ordered table of (trigger words, effect) rules; the first rule one
    of whose words occurs in the lower-cased message fires, and no other. *)

Inductive effect : Type :=
| Append (sentence : string)
| Replace (phrase : string).

Definition keyword_rules : list (list string * effect) :=
  [ (help_words, Append help_suffix);
    (thank_words, Replace thank_reply);
    (bye_words, Replace bye_reply);
    (hello_words, Replace hello_reply) ].

Fixpoint first_rule (rules : list (list string * effect)) (message_lower : string)
    : option effect :=
  match rules with
  | [] => None
  | (words, eff) :: rest =>
      if any_in words message_lower then Some eff
      else first_rule rest message_lower
  end.

Definition apply_rules (base_response message_lower : string) : string :=
  match first_rule keyword_rules message_lower with
  | Some (Append sentence) => base_response ++ sentence
  | Some (Replace phrase) => phrase
  | None => base_response
  end.

(** The message triggers no keyword rule. *)
Definition keyword_free (message_lower : string) : bool :=
  negb (any_in (help_words ++ thank_words ++ bye_words ++ hello_words) message_lower).

(** ** Percentages *)

(** [p] is [round((count / total) * 100, 1)]. *)
Definition is_percentage (count total : nat) (p : pynum) : Prop :=
  exists ratio, py_truediv count total = Ok ratio /\
                p = PyFloat (py_round (ratio * 100)%float 1).

(** ** Days and counts of the timeline *)

(** The number of [messages] dated [date] (as ['%Y-%m-%d']) and labelled
    [label]. *)
Definition tally (messages : list ChatMessage) (date label : string) : nat :=
  count_where
    (fun msg => String.eqb (strftime_ymd (timestamp msg)) date
                && String.eqb (sentiment msg) label)
    messages.


(** The counts after one more message. *)
Definition bump (cnt : string -> string -> nat) (msg : ChatMessage)
    : string -> string -> nat :=
  fun date label =>
    (cnt date label
     + if String.eqb (strftime_ymd (timestamp msg)) date
          && String.eqb (sentiment msg) label then 1 else 0)%nat.

(** The invariant of the grouping loop: [daily_sentiment] holds the counts
    [cnt]; a date that is a key has a dict with exactly the three labels
    as keys, and a date that is not counts nothing. *)
Definition holds_counts (daily_sentiment : gmap string (gmap string nat))
    (cnt : string -> string -> nat) : Prop :=
  forall date,
    match daily_sentiment !! date with
    | Some day =>
        forall label,
          day !! label = if known_label label then Some (cnt date label) else None
    | None => forall label, cnt date label = 0%nat
    end.

(** The date the route puts at index [i] when the clock reads [now]. *)
Definition day_label (now : datetime) (i : Z) : string :=
  strftime_ymd (now - timedelta_days (6 - i)).

(** The seven consecutive days that end on the day of [reference], oldest
    first. *)
Definition week_days (reference : datetime) : list string :=
  map (fun back => date_string (toordinal reference - back)) [6; 5; 4; 3; 2; 1; 0].

(** ** The clock *)

(** The clock reads [reference] at each of the next [n] readings: run
    under this, the route is the [timeline(records, reference)] of the
    specification. *)
Definition clock_stands (w : world) (reference : datetime) (n : nat) : Prop :=
  forall k, (k < n)%nat -> clock w (clock_pos w + k) = reference.

(** The world after [n] more readings of the clock. *)
Definition tick (n : nat) (w : world) : world :=
  World (rand_draws w) (rand_pos w) (clock w) (n + clock_pos w).

(** A world whose clock stands at [reference]. *)
Definition frozen (reference : datetime) : world :=
  World (fun _ => 0%nat) 0 (fun _ => reference) 0.

(** ** Sample inputs *)

(** A world whose generator draws 0, 1, 2, ... *)
Definition sample_world : world := World (fun n => n) 0 (fun _ => 0) 0.

(** A toy lexicon scorer, to run the analyzer on concrete text. *)
Definition sample_polarity (text : string) : float :=
  if contains (ascii_lower text) "good" then 0.7%float
  else if contains (ascii_lower text) "bad" then (-0.7)%float
  else 0%float.

(** A record with the given owner, label and timestamp. *)
Definition record (owner : Z) (label : string) (t : datetime) : ChatMessage :=
  {| id := 0; user_id := owner; message := "hello"; response := hello_reply;
     sentiment := label; sentiment_score := 0%float; timestamp := t |}.

(** Sample rows around the reference instant 2024-10-31T12:00:00: user 1
    has two rows three days earlier, one on the day and one a month
    earlier; user 2 has one row on the day. *)
Definition sample_reference : datetime := 739189 * usec_per_day + 43200000000.

Definition sample_table : list ChatMessage :=
  [ record 1 "positive" (sample_reference - timedelta_days 3);
    record 1 "neutral" (sample_reference - timedelta_days 3 + 60000000);
    record 1 "negative" (sample_reference - 3600000000);
    record 2 "negative" (sample_reference - 3600000000);
    record 1 "positive" (sample_reference - timedelta_days 30) ].

(** The same rows and one of user 1, a day old, with a label of no
    catalogue. *)
Definition sample_table_unlabelled : list ChatMessage :=
  sample_table ++ [record 1 "angry" (sample_reference - timedelta_days 1)].

(** * The application: [models.py], [__init__.py] and the routes of [routes.py]

    The database is two tables held in memory, in insertion order; it
    enforces the unique constraints the models declare and assigns the
    next integer key.  Password hashing ([werkzeug.security]), the
    ordering of a query and [str.strip] are parameters, as [TextBlob] and
    [str.lower] are. *)

(** ** [models.py]: [User] *)

Module User.

Record t : Type := {
  id : Z;
  username : string;
  email : string;
  password_hash : string;
  created_at : datetime
}.

End User.

(** ** Requests and answers *)

Inductive http_method : Type := GET | POST.

(** A value of a JSON object as the routes use it: a string, or anything
    without [strip]. *)
Inductive jvalue : Type :=
| JString (s : string)
| JOther.

(** [request]: the method, the form fields, the query arguments and
    [get_json()], which is [None] here when it yields no dict. *)
Record request : Type := {
  method : http_method;
  form : gmap string string;
  args : gmap string string;
  json : option (gmap string jvalue)
}.

(** What a page route returns. *)
Inductive page : Type :=
| Redirect (endpoint : string)
| RedirectUrl (url : string)
| Render (template : string)
| RenderDashboard (stats : SentimentStats.statistics) (recent : list ChatMessage)
| ServerError.

(** A route behind [@login_required]: the answer of the view, or the
    redirect to the login page. *)
Inductive guarded (A : Type) : Type :=
| Unauthorized
| Allowed (a : A).
Arguments Unauthorized {A}.
Arguments Allowed {A} a.

(** ** The state a request runs in *)

Record app : Type := App {
  interp : world;
  salts : nat -> string;
  salt_pos : nat;
  users : list User.t;
  chat_messages : list ChatMessage;
  session_user_id : option Z;
  flashes : list (string * string)
}.

Definition set_interp (w : world) (st : app) : app :=
  App w (salts st) (salt_pos st) (users st) (chat_messages st)
      (session_user_id st) (flashes st).

Definition set_users (us : list User.t) (st : app) : app :=
  App (interp st) (salts st) (salt_pos st) us (chat_messages st)
      (session_user_id st) (flashes st).

Definition set_chat_messages (msgs : list ChatMessage) (st : app) : app :=
  App (interp st) (salts st) (salt_pos st) (users st) msgs
      (session_user_id st) (flashes st).

Definition set_session (uid : option Z) (st : app) : app :=
  App (interp st) (salts st) (salt_pos st) (users st) (chat_messages st)
      uid (flashes st).

(** [flash(message, category)]. *)
Definition flash (message category : string) (st : app) : app :=
  App (interp st) (salts st) (salt_pos st) (users st) (chat_messages st)
      (session_user_id st) (flashes st ++ [(message, category)]).

(** Run a computation of the interpreter in the state. *)
Definition run {A} (c : Py A) (st : app) : pyresult A * app :=
  let '(r, w) := c (interp st) in (r, set_interp w st).

(** [load_user] of [__init__.py]: [current_user] is the user whose key the
    session holds, if there is one. *)
Definition current_user (st : app) : option User.t :=
  match session_user_id st with
  | Some uid => List.find (fun u => User.id u =? uid) (users st)
  | None => None
  end.

(** [login_user(user)] and [logout_user()]. *)
Definition login_user (user : User.t) (st : app) : app :=
  set_session (Some (User.id user)) st.

Definition logout_user (st : app) : app := set_session None st.

(** [@login_required] with [login_view = 'main.login']: an anonymous
    request is flashed the login message and redirected. *)
Definition login_required {A} (view : User.t -> app -> A * app) (st : app)
    : guarded A * app :=
  match current_user st with
  | None => (Unauthorized, flash "Please log in to access this page." "info" st)
  | Some user => let '(a, st') := view user st in (Allowed a, st')
  end.

(** ** Strings *)

(** [len(s)]: the code points of [s], that is its bytes that are not
    UTF-8 continuation bytes. *)
Definition is_continuation (c : ascii) : bool :=
  let n := nat_of_ascii c in (128 <=? n)%nat && (n <? 192)%nat.

Fixpoint py_len (s : string) : nat :=
  match s with
  | EmptyString => 0
  | String c s' => (if is_continuation c then 0 else 1) + py_len s'
  end.

(** [not s]. *)
Definition is_empty (s : string) : bool :=
  match s with
  | EmptyString => true
  | String _ _ => false
  end.

(** ** Queries *)

(** [User.query.filter_by(username=...).first()]. *)
Definition find_by_username (name : string) (us : list User.t) : option User.t :=
  List.find (fun u => String.eqb (User.username u) name) us.

(** [User.query.filter_by(email=...).first()]. *)
Definition find_by_email (address : string) (us : list User.t) : option User.t :=
  List.find (fun u => String.eqb (User.email u) address) us.

(** The truth value of what [first()] returns. *)
Definition found {A} (row : option A) : bool :=
  match row with
  | Some _ => true
  | None => false
  end.

(** [ChatMessage.query.filter_by(user_id=...)]. *)
Definition owned_by (uid : Z) (msgs : list ChatMessage) : list ChatMessage :=
  List.filter (fun msg => user_id msg =? uid) msgs.

(** The key the database gives the next row. *)
Definition next_key (keys : list Z) : Z := 1 + fold_right Z.max 0 keys.

(** [db.session.add(user); db.session.commit()]: [None] is the integrity
    error of a unique constraint; else the row gets its key and its
    [created_at], read from the clock. *)
Definition commit_user (name address hash : string) (st : app) : option app :=
  if existsb (fun u => String.eqb (User.username u) name
                       || String.eqb (User.email u) address) (users st)
  then None
  else
    let w := interp st in
    let user := {| User.id := next_key (map User.id (users st));
                   User.username := name;
                   User.email := address;
                   User.password_hash := hash;
                   User.created_at := clock w (clock_pos w) |} in
    Some (set_users (users st ++ [user]) (set_interp (tick 1 w) st)).

(** [db.session.add(chat_message); db.session.commit()]: the row gets its
    key and its [timestamp], read from the clock. *)
Definition commit_message (uid : Z) (text reply_text label : string) (score : float)
    (st : app) : ChatMessage * app :=
  let w := interp st in
  let msg := {| id := next_key (map id (chat_messages st));
                user_id := uid;
                message := text;
                response := reply_text;
                sentiment := label;
                sentiment_score := score;
                timestamp := clock w (clock_pos w) |} in
  (msg, set_chat_messages (chat_messages st ++ [msg]) (set_interp (tick 1 w) st)).

(** ** [ChatMessage.to_dict] *)

(** [t.strftime('%Y-%m-%d %H:%M:%S')]. *)
Definition strftime_full (t : datetime) : string :=
  let seconds := (t mod usec_per_day) / 1000000 in
  strftime_ymd t ++ " " ++ two_digits (seconds / 3600) ++ ":"
  ++ two_digits (seconds / 60 mod 60) ++ ":" ++ two_digits (seconds mod 60).

Module MessageDict.

Record t : Type := {
  id : Z;
  message : string;
  response : string;
  sentiment : string;
  sentiment_score : float;
  timestamp : string
}.

End MessageDict.

Definition to_dict (msg : ChatMessage) : MessageDict.t :=
  {| MessageDict.id := id msg;
     MessageDict.message := message msg;
     MessageDict.response := response msg;
     MessageDict.sentiment := sentiment msg;
     MessageDict.sentiment_score := sentiment_score msg;
     MessageDict.timestamp := strftime_full (timestamp msg) |}.

(** ** [routes.py] *)

(** The JSON answer of [/api/chat]. *)
Record chat_answer : Type := {
  answer_response : string;
  answer_sentiment : string;
  answer_sentiment_score : float;
  answer_timestamp : string
}.

(** The ['data'] of [/api/analytics/sentiment]. *)
Record sentiment_chart : Type := {
  chart_labels : list string;
  chart_values : list nat;
  chart_percentages : list pynum
}.

(** The URL rules of the blueprint: one constructor for each route, with
    the request where the view reads it. *)
Inductive call : Type :=
| Index
| Register (req : request)
| Login (req : request)
| Logout
| Dashboard
| Chat
| ChatApi (req : request)
| ChatHistory
| AnalyticsSentiment
| AnalyticsTimeline.

(** What a [try] block does: it returns, or an exception leaves it. *)
Inductive attempt (A : Type) : Type :=
| Returned (a : A)
| Raised.
Arguments Returned {A} a.
Arguments Raised {A}.

Section Routes.

(** [TextBlob(text).sentiment.polarity], [str.lower] and [str.strip]. *)
Variable polarity_of : string -> float.
Variable lower : string -> string.
Variable strip : string -> string.

(** [generate_password_hash(password)], with the salt it draws, and
    [check_password_hash(hash, password)]. *)
Variable generate_password_hash : string -> string -> string.
Variable check_password_hash : string -> string -> bool.

(** [order_by(ChatMessage.timestamp.desc())] as the database does it. *)
Variable order_by_timestamp_desc : list ChatMessage -> list ChatMessage.

(** [User.set_password]: the hash of the password under a fresh salt. *)
Definition set_password (password : string) (st : app) : string * app :=
  (generate_password_hash password (salts st (salt_pos st)),
   App (interp st) (salts st) (S (salt_pos st)) (users st) (chat_messages st)
       (session_user_id st) (flashes st)).

(** [User.check_password]. *)
Definition check_password (user : User.t) (password : string) : bool :=
  check_password_hash (User.password_hash user) password.

Definition index (st : app) : page * app :=
  match current_user st with
  | Some _ => (Redirect "main.dashboard", st)
  | None => (Redirect "main.login", st)
  end.

Definition register (req : request) (st : app) : page * app :=
  match current_user st with
  | Some _ => (Redirect "main.dashboard", st)
  | None =>
      match method req with
      | POST =>
          let username := strip (dict_get (form req) "username" "") in
          let email := strip (dict_get (form req) "email" "") in
          let password := dict_get (form req) "password" "" in
          let confirm_password := dict_get (form req) "confirm_password" "" in
          if is_empty username || is_empty email || is_empty password then
            (Render "register.html", flash "All fields are required." "danger" st)
          else if (py_len username <? 3)%nat then
            (Render "register.html",
             flash "Username must be at least 3 characters long." "danger" st)
          else if (py_len password <? 6)%nat then
            (Render "register.html",
             flash "Password must be at least 6 characters long." "danger" st)
          else if negb (String.eqb password confirm_password) then
            (Render "register.html", flash "Passwords do not match." "danger" st)
          else if found (find_by_username username (users st)) then
            (Render "register.html", flash "Username already exists." "danger" st)
          else if found (find_by_email email (users st)) then
            (Render "register.html", flash "Email already registered." "danger" st)
          else
            let '(hash, st1) := set_password password st in
            match commit_user username email hash st1 with
            | Some st2 =>
                (Redirect "main.login",
                 flash "Registration successful! Please log in." "success" st2)
            | None =>
                (Render "register.html",
                 flash "An error occurred. Please try again." "danger" st1)
            end
      | GET => (Render "register.html", st)
      end
  end.

Definition login (req : request) (st : app) : page * app :=
  match current_user st with
  | Some _ => (Redirect "main.dashboard", st)
  | None =>
      match method req with
      | POST =>
          let username := strip (dict_get (form req) "username" "") in
          let password := dict_get (form req) "password" "" in
          if is_empty username || is_empty password then
            (Render "index.html",
             flash "Please enter both username and password." "danger" st)
          else
            match find_by_username username (users st) with
            | Some user =>
                if check_password user password then
                  let st' := login_user user st in
                  match args req !! "next" with
                  | Some next_page =>
                      if is_empty next_page then (Redirect "main.dashboard", st')
                      else (RedirectUrl next_page, st')
                  | None => (Redirect "main.dashboard", st')
                  end
                else
                  (Render "index.html", flash "Invalid username or password." "danger" st)
            | None =>
                (Render "index.html", flash "Invalid username or password." "danger" st)
            end
      | GET => (Render "index.html", st)
      end
  end.

Definition logout : app -> guarded page * app :=
  login_required (fun _ st =>
    (Redirect "main.login",
     flash "You have been logged out successfully." "info" (logout_user st))).

Definition dashboard : app -> guarded page * app :=
  login_required (fun user st =>
    let messages := owned_by (User.id user) (chat_messages st) in
    match run (SentimentStats.calculate_statistics messages) st with
    | (Ok stats, st') =>
        (RenderDashboard stats (firstn 10 (order_by_timestamp_desc messages)), st')
    | (Raise _, st') => (ServerError, st')
    end).

Definition chat : app -> guarded page * app :=
  login_required (fun _ st => (Render "chat.html", st)).

(** The [try] block of [chat_api]. *)
Definition chat_attempt (req : request) (user : User.t) (st : app)
    : attempt (reply chat_answer) * app :=
  match json req with
  | None => (Raised, st)
  | Some data =>
      match dict_get data "message" (JString "") with
      | JOther => (Raised, st)
      | JString text =>
          let user_message := strip text in
          if is_empty user_message then
            (Returned (Failure 400 "Message cannot be empty"), st)
          else
            match run (analyze_sentiment polarity_of user_message) st with
            | (Raise _, st1) => (Raised, st1)
            | (Ok (sentiment, score), st1) =>
                match run (generate_response lower user_message sentiment) st1 with
                | (Raise _, st2) => (Raised, st2)
                | (Ok bot_response, st2) =>
                    let '(chat_message, st3) :=
                      commit_message (User.id user) user_message bot_response
                        sentiment score st2 in
                    (Returned
                       (Success {| answer_response := bot_response;
                                   answer_sentiment := sentiment;
                                   answer_sentiment_score := score;
                                   answer_timestamp :=
                                     strftime_full (timestamp chat_message) |}),
                     st3)
                end
            end
      end
  end.

(** [chat_api]: an exception rolls the session back and answers 500. *)
Definition chat_api (req : request) : app -> guarded (reply chat_answer) * app :=
  login_required (fun user st =>
    match chat_attempt req user st with
    | (Returned answer, st') => (answer, st')
    | (Raised, st') =>
        (Failure 500 "An error occurred processing your message",
         set_chat_messages (chat_messages st) st')
    end).

(** [chat_history]: the 50 newest messages of the user, oldest first. *)
Definition chat_history : app -> guarded (reply (list MessageDict.t)) * app :=
  login_required (fun user st =>
    let messages :=
      firstn 50 (order_by_timestamp_desc (owned_by (User.id user) (chat_messages st))) in
    (Success (map to_dict (rev messages)), st)).

Definition analytics_sentiment : app -> guarded (reply sentiment_chart) * app :=
  login_required (fun user st =>
    let messages := owned_by (User.id user) (chat_messages st) in
    match run (SentimentStats.calculate_statistics messages) st with
    | (Ok stats, st') =>
        (Success {| chart_labels := ["Positive"; "Negative"; "Neutral"];
                    chart_values := [SentimentStats.positive stats;
                                     SentimentStats.negative stats;
                                     SentimentStats.neutral stats];
                    chart_percentages := [SentimentStats.positive_percent stats;
                                          SentimentStats.negative_percent stats;
                                          SentimentStats.neutral_percent stats] |},
         st')
    | (Raise _, st') => (Failure 500 "Failed to load analytics", st')
    end).

(** [analytics_timeline] behind [@login_required], on the table of the
    state. *)
Definition analytics_timeline_route : app -> guarded (reply timeline) * app :=
  login_required (fun user st =>
    let '(answer, w) :=
      analytics_timeline (User.id user) (chat_messages st) (interp st) in
    (answer, set_interp w st)).

(** The state a request leaves behind, and the state after a sequence of
    requests. *)
Definition handle (c : call) (st : app) : app :=
  match c with
  | Index => snd (index st)
  | Register req => snd (register req st)
  | Login req => snd (login req st)
  | Logout => snd (logout st)
  | Dashboard => snd (dashboard st)
  | Chat => snd (chat st)
  | ChatApi req => snd (chat_api req st)
  | ChatHistory => snd (chat_history st)
  | AnalyticsSentiment => snd (analytics_sentiment st)
  | AnalyticsTimeline => snd (analytics_timeline_route st)
  end.

Definition serve (calls : list call) (st : app) : app :=
  fold_left (fun st c => handle c st) calls st.

End Routes.

(** ** Notions used in the statements about the application *)

(** Every stored message carries one of the three labels. *)
Definition labels_known (st : app) : Prop :=
  Forall (fun msg => known_label (sentiment msg) = true) (chat_messages st).

(** What the schema of [models.py] asks of the two tables, and what
    [load_user] relies on: keys, user names and addresses are unique, every
    message belongs to a user of the table, and so does the session. *)
Definition consistent (st : app) : Prop :=
  NoDup (map User.id (users st)) /\
  NoDup (map User.username (users st)) /\
  NoDup (map User.email (users st)) /\
  NoDup (map id (chat_messages st)) /\
  Forall (fun msg => In (user_id msg) (map User.id (users st))) (chat_messages st) /\
  (forall uid, session_user_id st = Some uid -> In uid (map User.id (users st))).

(** What the comments on the columns of [ChatMessage] say of a row: the
    score lies between -1 and 1; and the label is the side of the
    thresholds on which the score lies. *)
Definition well_scored (msg : ChatMessage) : Prop :=
  (-1 <=? sentiment_score msg)%float = true /\
  (sentiment_score msg <=? 1)%float = true /\
  (sentiment msg = "positive" -> (0.1 <=? sentiment_score msg)%float = true) /\
  (sentiment msg = "negative" -> (sentiment_score msg <=? -0.1)%float = true) /\
  (sentiment msg = "neutral" ->
   (-0.1 <=? sentiment_score msg)%float = true /\
   (sentiment_score msg <=? 0.1)%float = true).

(** The instants a [datetime] can hold: the years 1 to 9999. *)
Definition in_datetime_range (t : datetime) : Prop :=
  0 <= t < 3652059 * usec_per_day.

(** The ordinal of a calendar date, as [datetime] computes it; it inverts
    [ord2ymd]. *)
Definition days_before_year (year : Z) : Z :=
  let y := year - 1 in y * 365 + y / 4 - y / 100 + y / 400.

Definition ymd2ord (year month day : Z) : Z :=
  days_before_year year + days_before_month year month + day.

(** The rows of [table] that belong to [uid], carry [label] and are
    stamped on the calendar day of ordinal [day]. *)
Definition rows_of_day (uid : Z) (label : string) (day : Z)
    (table : list ChatMessage) : nat :=
  count_where
    (fun msg => (user_id msg =? uid) && String.eqb (sentiment msg) label
                && (toordinal (timestamp msg) =? day))
    table.

(** The rows are in descending order of their timestamps. *)
Fixpoint newest_first (msgs : list ChatMessage) : Prop :=
  match msgs with
  | [] => True
  | msg :: rest =>
      Forall (fun later => timestamp later <= timestamp msg) rest /\ newest_first rest
  end.

(** ** Sample instances of the parameters and sample states *)

Definition is_space (c : ascii) : bool :=
  let n := nat_of_ascii c in (n =? 32)%nat || ((9 <=? n)%nat && (n <=? 13)%nat).

Fixpoint lstrip (s : string) : string :=
  match s with
  | EmptyString => EmptyString
  | String c s' => if is_space c then lstrip s' else s
  end.

Fixpoint rstrip (s : string) : string :=
  match s with
  | EmptyString => EmptyString
  | String c s' =>
      match rstrip s' with
      | EmptyString => if is_space c then EmptyString else String c EmptyString
      | rest => String c rest
      end
  end.

(** [str.strip] on ASCII text. *)
Definition ascii_strip (s : string) : string := rstrip (lstrip s).

(** A toy hash: the salt, a dollar sign and the password. *)
Definition sample_hash (password salt : string) : string :=
  salt ++ "$" ++ password.

Fixpoint ends_with (s w : string) : bool :=
  String.eqb s w
  || match s with
     | EmptyString => false
     | String _ s' => ends_with s' w
     end.

(** The toy check: the hash ends with a dollar sign and the password. *)
Definition sample_check (hash password : string) : bool :=
  ends_with hash ("$" ++ password).

(** Insertion sort by descending timestamp. *)
Fixpoint insert_desc (msg : ChatMessage) (sorted : list ChatMessage) : list ChatMessage :=
  match sorted with
  | [] => [msg]
  | head :: rest =>
      if timestamp head <=? timestamp msg then msg :: sorted
      else head :: insert_desc msg rest
  end.

Fixpoint sort_desc (msgs : list ChatMessage) : list ChatMessage :=
  match msgs with
  | [] => []
  | msg :: rest => insert_desc msg (sort_desc rest)
  end.

Definition sample_user : User.t :=
  {| User.id := 1; User.username := "alice"; User.email := "alice@example.org";
     User.password_hash := "s0$secret1"; User.created_at := 0 |}.

Definition sample_other_user : User.t :=
  {| User.id := 2; User.username := "bob"; User.email := "bob@example.org";
     User.password_hash := "s0$hunter22"; User.created_at := 0 |}.

Definition with_key (key : Z) (msg : ChatMessage) : ChatMessage :=
  {| id := key; user_id := user_id msg; message := message msg;
     response := response msg; sentiment := sentiment msg;
     sentiment_score := sentiment_score msg; timestamp := timestamp msg |}.

Fixpoint number_rows (key : Z) (msgs : list ChatMessage) : list ChatMessage :=
  match msgs with
  | [] => []
  | msg :: rest => with_key key msg :: number_rows (key + 1) rest
  end.

(** A state with two users, the sample rows under the keys 1 to 5 and
    nobody logged in; the clock stands at the sample reference. *)
Definition sample_app : app :=
  App (frozen sample_reference) (fun _ => "s1") 0 [sample_user; sample_other_user]
      (number_rows 1 sample_table) None [].

(** The same state with the user logged in. *)
Definition sample_session : app := set_session (Some 1) sample_app.

Definition post_form (fields : list (string * string)) : request :=
  {| method := POST; form := list_to_map fields; args := ∅; json := None |}.

Definition post_json (fields : list (string * jvalue)) : request :=
  {| method := POST; form := ∅; args := ∅; json := Some (list_to_map fields) |}.



(** * Properties *)

(** ** The classifier *)

Lemma not_above_and_below (x : float) :
  (0.1 <? x)%float = true -> (x <? -0.1)%float = true -> False.
Proof.
  rewrite !ltb_spec.
  change (Prim2SF 0.1) with (S754_finite false 7205759403792794 (-56)).
  change (Prim2SF (-0.1)) with (S754_finite true 7205759403792794 (-56)).
  unfold SFltb, SFcompare.
  destruct (Prim2SF x) as [[]|[]| |[] m e]; try discriminate.
Qed.

(** C1. The label is positive exactly above 0.1, negative exactly below
    -0.1 and neutral otherwise, 0.1, -0.1 and 0 included; the four boundary
    values of the specification classify as it says; and
    [analyze_sentiment] always returns, with the label [classify] gives
    the polarity. *)
Theorem classify_thresholds :
  (forall score : float,
      (classify score = "positive" <-> (0.1 <? score)%float = true) /\
      (classify score = "negative" <-> (score <? -0.1)%float = true) /\
      (classify score = "neutral" <->
         (0.1 <? score)%float = false /\ (score <? -0.1)%float = false)) /\
  classify 0.1 = "neutral" /\
  classify 0.1000001 = "positive" /\
  classify (-0.1) = "neutral" /\
  classify (-0.1000001) = "negative" /\
  classify 0 = "neutral" /\
  (forall (polarity_of : string -> float) (text : string) (w : world),
      exists score,
        analyze_sentiment polarity_of text w
        = (Ok (classify (polarity_of text), score), w)).
Proof.
  split; [| repeat split; try reflexivity].
  - intros score. unfold classify.
    destruct (0.1 <? score)%float eqn:Habove.
    + repeat split; try discriminate; try reflexivity.
      * intros Hbelow. destruct (not_above_and_below score Habove Hbelow).
      * intros [Hcontra _]. discriminate.
    + destruct (score <? -0.1)%float eqn:Hbelow;
        repeat split; try discriminate; try reflexivity.
      intros [_ Hcontra]. discriminate.
  - intros polarity_of text w. eexists. reflexivity.
Qed.

(** ** Substrings *)



(** ** The catalogue of responses *)

Lemma responses_lookup (label : string) :
  responses !! label =
    if String.eqb label "positive" then Some positive_responses
    else if String.eqb label "negative" then Some negative_responses
    else if String.eqb label "neutral" then Some neutral_responses
    else None.
Proof.
  unfold responses.
  destruct (String.eqb_spec label "positive") as [-> | Hp]; [apply lookup_insert_eq |].
  rewrite lookup_insert_ne by congruence.
  destruct (String.eqb_spec label "negative") as [-> | Hn]; [apply lookup_insert_eq |].
  rewrite lookup_insert_ne by congruence.
  destruct (String.eqb_spec label "neutral") as [-> | Hu]; [apply lookup_insert_eq |].
  rewrite lookup_insert_ne by congruence.
  apply lookup_empty.
Qed.

Lemma random_choice_member {A} (seq : list A) (w : world) :
  seq <> [] ->
  exists x w', random_choice seq w = (Ok x, w') /\ In x seq.
Proof.
  intros Hne. destruct seq as [|x seq]; [congruence |].
  unfold random_choice. eexists _, _. split; [reflexivity |].
  apply nth_In. apply Nat.mod_upper_bound. discriminate.
Qed.

Lemma candidates_of_label (label : string) :
  dict_get responses label neutral_responses =
    if String.eqb label "positive" then positive_responses
    else if String.eqb label "negative" then negative_responses
    else neutral_responses.
Proof.
  unfold dict_get. rewrite responses_lookup.
  destruct (String.eqb label "positive"); [reflexivity |].
  destruct (String.eqb label "negative"); [reflexivity |].
  destruct (String.eqb label "neutral"); reflexivity.
Qed.

Lemma candidates_nonempty (label : string) :
  dict_get responses label neutral_responses <> [].
Proof.
  rewrite candidates_of_label.
  destruct (String.eqb label "positive"); [discriminate |].
  destruct (String.eqb label "negative"); discriminate.
Qed.

(** ** The response synthesizer *)

Lemma first_rule_cases (m : string) :
  first_rule keyword_rules m =
    if any_in help_words m then Some (Append help_suffix)
    else if any_in thank_words m then Some (Replace thank_reply)
    else if any_in bye_words m then Some (Replace bye_reply)
    else if any_in hello_words m then Some (Replace hello_reply)
    else None.
Proof. reflexivity. Qed.

(** Every run of [generate_response] draws a base response from the
    candidates of the label and returns what the rule table makes of it. *)
Lemma generate_response_run (lower : string -> string) (message label : string)
    (w : world) :
  exists base w',
    random_choice (dict_get responses label neutral_responses) w = (Ok base, w') /\
    In base (dict_get responses label neutral_responses) /\
    generate_response lower message label w
    = (Ok (apply_rules base (lower message)), w').
Proof.
  destruct (random_choice_member _ w (candidates_nonempty label))
    as (base & w' & Hrun & Hin).
  exists base, w'. split; [exact Hrun | split; [exact Hin |]].
  unfold generate_response, bind, lift, getitem.
  rewrite responses_lookup. cbn [String.eqb Ascii.eqb Bool.eqb].
  rewrite Hrun. unfold apply_rules. rewrite first_rule_cases.
  destruct (any_in help_words (lower message)); [reflexivity |].
  destruct (any_in thank_words (lower message)); [reflexivity |].
  destruct (any_in bye_words (lower message)); [reflexivity |].
  destruct (any_in hello_words (lower message)); reflexivity.
Qed.

Lemma keyword_free_rules (m : string) :
  keyword_free m = true ->
  any_in help_words m = false /\ any_in thank_words m = false /\
  any_in bye_words m = false /\ any_in hello_words m = false.
Proof.
  unfold keyword_free, any_in. rewrite negb_true_iff, !existsb_app, !orb_false_iff.
  tauto.
Qed.

Lemma keyword_free_apply (base m : string) :
  keyword_free m = true -> apply_rules base m = base.
Proof.
  intros Hfree. apply keyword_free_rules in Hfree as (Hh & Ht & Hb & Hg).
  unfold apply_rules. rewrite first_rule_cases, Hh, Ht, Hb, Hg. reflexivity.
Qed.


Lemma apart (xs ys : list string) :
  forallb (fun x => negb (existsb (String.eqb x) ys)) xs = true ->
  forall x, In x xs -> ~ In x ys.
Proof.
  rewrite forallb_forall. intros Hall x Hx Hy.
  specialize (Hall x Hx). apply negb_true_iff in Hall.
  assert (existsb (String.eqb x) ys = true) as Hex; [| congruence].
  apply existsb_exists. exists x. split; [exact Hy | apply String.eqb_refl].
Qed.

(** A keyword-free message gets, unchanged, a candidate of its label. *)
Lemma keyword_free_response (lower : string -> string) (message label : string)
    (w : world) :
  keyword_free (lower message) = true ->
  exists r w',
    generate_response lower message label w = (Ok r, w') /\
    In r (dict_get responses label neutral_responses).
Proof.
  intros Hfree.
  destruct (generate_response_run lower message label w)
    as (base & w' & _ & Hin & Hrun).
  exists base, w'. rewrite Hrun, (keyword_free_apply _ _ Hfree). auto.
Qed.

(** C7. For a message whose lower-cased form contains no trigger word,
    the response for the label positive is one of the five positive
    templates and none of the negative or neutral ones, and likewise for
    the labels negative and neutral. *)
Theorem keyword_free_response_in_label_set
    (lower : string -> string) (message : string) (w : world) :
  keyword_free (lower message) = true ->
  (exists r w',
      generate_response lower message "positive" w = (Ok r, w') /\
      In r positive_responses /\ ~ In r negative_responses /\ ~ In r neutral_responses) /\
  (exists r w',
      generate_response lower message "negative" w = (Ok r, w') /\
      In r negative_responses /\ ~ In r positive_responses /\ ~ In r neutral_responses) /\
  (exists r w',
      generate_response lower message "neutral" w = (Ok r, w') /\
      In r neutral_responses /\ ~ In r positive_responses /\ ~ In r negative_responses) /\
  length positive_responses = 5%nat /\
  length negative_responses = 5%nat /\
  length neutral_responses = 5%nat.
Proof.
  intros Hfree.
  split; [| split; [| split; [| repeat split]]].
  - destruct (keyword_free_response lower message "positive" w Hfree)
      as (r & w' & Hrun & Hin).
    rewrite candidates_of_label in Hin. cbn [String.eqb Ascii.eqb Bool.eqb] in Hin.
    exists r, w'. repeat split; [exact Hrun | exact Hin | |];
      apply (apart positive_responses); [reflexivity | exact Hin | reflexivity | exact Hin].
  - destruct (keyword_free_response lower message "negative" w Hfree)
      as (r & w' & Hrun & Hin).
    rewrite candidates_of_label in Hin. cbn [String.eqb Ascii.eqb Bool.eqb] in Hin.
    exists r, w'. repeat split; [exact Hrun | exact Hin | |];
      apply (apart negative_responses); [reflexivity | exact Hin | reflexivity | exact Hin].
  - destruct (keyword_free_response lower message "neutral" w Hfree)
      as (r & w' & Hrun & Hin).
    rewrite candidates_of_label in Hin. cbn [String.eqb Ascii.eqb Bool.eqb] in Hin.
    exists r, w'. repeat split; [exact Hrun | exact Hin | |];
      apply (apart neutral_responses); [reflexivity | exact Hin | reflexivity | exact Hin].
Qed.

Lemma keyword_free_response_in_label_set_witness :
  keyword_free (ascii_lower "What a lovely day") = true /\
  exists r w',
    generate_response ascii_lower "What a lovely day" "positive" sample_world = (Ok r, w') /\
    In r positive_responses /\ ~ In r negative_responses /\ ~ In r neutral_responses.
Proof.
  split; [reflexivity |].
  apply (keyword_free_response_in_label_set ascii_lower "What a lovely day" sample_world).
  reflexivity.
Defined.

Lemma unknown_label_candidates (label : string) :
  known_label label = false ->
  dict_get responses label neutral_responses = neutral_responses.
Proof.
  unfold known_label. rewrite !orb_false_iff. intros [[Hp Hn] _].
  rewrite candidates_of_label, Hp, Hn. reflexivity.
Qed.

(** C10. With a label other than positive, negative and neutral,
    [generate_response] does not raise, whatever the message; for a
    keyword-free message it returns one of the five neutral templates. *)
Theorem unknown_label_falls_back_to_neutral
    (lower : string -> string) (message label : string) (w : world) :
  known_label label = false ->
  (exists r w', generate_response lower message label w = (Ok r, w')) /\
  (keyword_free (lower message) = true ->
   exists r w',
     generate_response lower message label w = (Ok r, w') /\
     In r neutral_responses) /\
  length neutral_responses = 5%nat.
Proof.
  intros Hunknown. split; [| split; [| reflexivity]].
  - destruct (generate_response_run lower message label w)
      as (base & w' & _ & _ & Hrun).
    eauto.
  - intros Hfree.
    destruct (keyword_free_response lower message label w Hfree)
      as (r & w' & Hrun & Hin).
    rewrite (unknown_label_candidates _ Hunknown) in Hin. eauto.
Qed.

Lemma unknown_label_falls_back_to_neutral_witness :
  known_label "angry" = false /\
  exists r w',
    generate_response ascii_lower "What now" "angry" sample_world = (Ok r, w') /\
    In r neutral_responses.
Proof.
  split; [reflexivity |].
  apply (unknown_label_falls_back_to_neutral ascii_lower "What now" "angry" sample_world);
    reflexivity.
Defined.

(** ** The summary *)

Section Summary.

Import SentimentStats.

Lemma percent_run (count total : nat) (w : world) :
  total <> 0%nat ->
  exists p, percent count total w = (Ok p, w) /\ is_percentage count total p.
Proof.
  intros Htotal. unfold percent, bind, lift, ret, is_percentage, py_truediv.
  destruct total as [|total]; [congruence |].
  destruct count as [|count]; eexists; (split; [reflexivity |]); eauto.
Qed.

(** The run of [calculate_statistics] on a non-empty list. *)
Lemma calculate_statistics_run (messages : list ChatMessage) (w : world) :
  messages <> [] ->
  exists stats,
    calculate_statistics messages w = (Ok stats, w) /\
    total stats = length messages /\
    positive stats = count_where (has_label "positive") messages /\
    negative stats = count_where (has_label "negative") messages /\
    neutral stats = count_where (has_label "neutral") messages /\
    is_percentage (positive stats) (total stats) (positive_percent stats) /\
    is_percentage (negative stats) (total stats) (negative_percent stats) /\
    is_percentage (neutral stats) (total stats) (neutral_percent stats).
Proof.
  intros Hne. destruct messages as [|msg rest]; [congruence |].
  assert (length (msg :: rest) <> 0%nat) as Hlen by discriminate.
  destruct (percent_run (count_where (has_label "positive") (msg :: rest)) _ w Hlen)
    as (pp & Hpp & Hp).
  destruct (percent_run (count_where (has_label "negative") (msg :: rest)) _ w Hlen)
    as (pn & Hpn & Hn).
  destruct (percent_run (count_where (has_label "neutral") (msg :: rest)) _ w Hlen)
    as (pu & Hpu & Hu).
  eexists. split.
  - unfold calculate_statistics. cbv beta iota zeta. unfold bind.
    change (fun msg0 : ChatMessage => String.eqb (sentiment msg0) "positive")
      with (has_label "positive").
    change (fun msg0 : ChatMessage => String.eqb (sentiment msg0) "negative")
      with (has_label "negative").
    change (fun msg0 : ChatMessage => String.eqb (sentiment msg0) "neutral")
      with (has_label "neutral").
    rewrite Hpp, Hpn, Hpu. reflexivity.
  - cbn [total positive negative neutral positive_percent negative_percent
           neutral_percent].
    repeat split; assumption.
Qed.

(** The counts of the summary, for every list. *)
Lemma calculate_statistics_counts (messages : list ChatMessage) (w : world) :
  exists stats,
    calculate_statistics messages w = (Ok stats, w) /\
    total stats = length messages /\
    positive stats = count_where (has_label "positive") messages /\
    negative stats = count_where (has_label "negative") messages /\
    neutral stats = count_where (has_label "neutral") messages.
Proof.
  destruct messages as [|msg rest].
  - eexists. split; [reflexivity |]. repeat split.
  - destruct (calculate_statistics_run (msg :: rest) w) as (stats & Hrun & H);
      [discriminate |].
    exists stats. tauto.
Qed.

Lemma label_classes (msg : ChatMessage) :
  ((if has_label "positive" msg then 1 else 0)
   + (if has_label "negative" msg then 1 else 0)
   + (if has_label "neutral" msg then 1 else 0)
   + (if unlabelled msg then 1 else 0) = 1)%nat.
Proof.
  unfold has_label, unlabelled, known_label.
  generalize (sentiment msg) as label. intros label.
  destruct (String.eqb_spec label "positive") as [-> | _]; [reflexivity |].
  destruct (String.eqb_spec label "negative") as [-> | _]; [reflexivity |].
  destruct (String.eqb_spec label "neutral") as [-> | _]; reflexivity.
Qed.

Lemma counts_partition (messages : list ChatMessage) :
  (count_where (has_label "positive") messages
   + count_where (has_label "negative") messages
   + count_where (has_label "neutral") messages
   + count_where unlabelled messages = length messages)%nat.
Proof.
  induction messages as [|msg rest IH]; [reflexivity |].
  cbn [count_where length]. pose proof (label_classes msg). lia.
Qed.

Lemma count_where_zero {A} (p : A -> bool) (xs : list A) :
  count_where p xs = 0%nat <-> Forall (fun x => p x = false) xs.
Proof.
  induction xs as [|x xs IH]; cbn [count_where].
  - split; [constructor | reflexivity].
  - rewrite Forall_cons_iff, <- IH. destruct (p x); simpl.
    + split; [discriminate | intros [Hx _]; discriminate].
    + tauto.
Qed.

(** C4. On the empty list [calculate_statistics] returns the all-zero
    summary, without dividing; on any other list the total is the number
    of records, each count is the number of records with that label and
    each percentage is [round(count / total * 100, 1)]; and whenever the
    counts are 3, 1 and 0 out of 4 the percentages are 75.0, 25.0 and
    0.0. *)
Theorem summarize_counts_and_percentages :
  (forall w : world,
      calculate_statistics [] w
      = (Ok {| total := 0; positive := 0; negative := 0; neutral := 0;
               positive_percent := PyInt 0; negative_percent := PyInt 0;
               neutral_percent := PyInt 0 |}, w)) /\
  (forall (messages : list ChatMessage) (w : world),
      messages <> [] ->
      exists stats,
        calculate_statistics messages w = (Ok stats, w) /\
        total stats = length messages /\
        positive stats = count_where (has_label "positive") messages /\
        negative stats = count_where (has_label "negative") messages /\
        neutral stats = count_where (has_label "neutral") messages /\
        is_percentage (positive stats) (total stats) (positive_percent stats) /\
        is_percentage (negative stats) (total stats) (negative_percent stats) /\
        is_percentage (neutral stats) (total stats) (neutral_percent stats)) /\
  (forall (messages : list ChatMessage) (w : world),
      length messages = 4%nat ->
      count_where (has_label "positive") messages = 3%nat ->
      count_where (has_label "negative") messages = 1%nat ->
      count_where (has_label "neutral") messages = 0%nat ->
      exists stats,
        calculate_statistics messages w = (Ok stats, w) /\
        positive_percent stats = PyFloat 75 /\
        negative_percent stats = PyFloat 25 /\
        neutral_percent stats = PyFloat 0).
Proof.
  split; [reflexivity | split; [exact calculate_statistics_run |]].
  intros messages w Hlen Hpos Hneg Hneu.
  destruct (calculate_statistics_run messages w)
    as (stats & Hrun & Htotal & Hp & Hn & Hu & Hpp & Hpn & Hpu).
  { intros ->. discriminate. }
  exists stats. split; [exact Hrun |].
  rewrite Htotal, Hlen in Hpp, Hpn, Hpu.
  rewrite Hp, Hpos in Hpp. rewrite Hn, Hneg in Hpn. rewrite Hu, Hneu in Hpu.
  destruct Hpp as (rp & Hrp & ->). destruct Hpn as (rn & Hrn & ->).
  destruct Hpu as (ru & Hru & ->).
  vm_compute in Hrp, Hrn, Hru.
  injection Hrp as <-. injection Hrn as <-. injection Hru as <-.
  repeat split; vm_compute; reflexivity.
Qed.

Lemma summarize_counts_and_percentages_witness :
  exists stats,
    calculate_statistics
      [record 1 "positive" 0; record 1 "negative" 0; record 1 "positive" 0;
       record 1 "positive" 0] sample_world
    = (Ok stats, sample_world) /\
    positive_percent stats = PyFloat 75 /\
    negative_percent stats = PyFloat 25 /\
    neutral_percent stats = PyFloat 0.
Proof.
  apply (proj2 (proj2 summarize_counts_and_percentages)); reflexivity.
Defined.

(** C9. The total of the summary is the length of the list; the three
    label counts and the number of records with any other label add up to
    it, so their sum is at most the total, with equality exactly when
    every record carries one of the three labels; the percentages are
    taken over the whole length. *)
Theorem summary_counts_within_total (messages : list ChatMessage) (w : world) :
  exists stats,
    calculate_statistics messages w = (Ok stats, w) /\
    total stats = length messages /\
    (positive stats + negative stats + neutral stats
     + count_where unlabelled messages = total stats)%nat /\
    (positive stats + negative stats + neutral stats <= total stats)%nat /\
    ((positive stats + negative stats + neutral stats = total stats)%nat <->
     Forall (fun msg => known_label (sentiment msg) = true) messages) /\
    (messages <> [] ->
     is_percentage (positive stats) (length messages) (positive_percent stats) /\
     is_percentage (negative stats) (length messages) (negative_percent stats) /\
     is_percentage (neutral stats) (length messages) (neutral_percent stats)).
Proof.
  destruct (calculate_statistics_counts messages w)
    as (stats & Hrun & Htotal & Hp & Hn & Hu).
  exists stats. pose proof (counts_partition messages) as Hsum.
  rewrite <- Hp, <- Hn, <- Hu, <- Htotal in Hsum.
  split; [exact Hrun |]. split; [exact Htotal |]. split; [exact Hsum |].
  split; [lia |]. split.
  - transitivity (count_where unlabelled messages = 0%nat); [lia |].
    rewrite count_where_zero. apply Forall_iff. intros msg.
    unfold unlabelled. apply negb_false_iff.
  - intros Hne.
    destruct (calculate_statistics_run messages w Hne)
      as (stats' & Hrun' & Htotal' & _ & _ & _ & Hpp & Hpn & Hpu).
    rewrite Hrun in Hrun'. injection Hrun' as <-.
    rewrite Htotal in Hpp, Hpn, Hpu. auto.
Qed.

End Summary.

(** ** The score *)

Lemma pow2_pos (z : Z) : 0 < 2 ^ Z.max z 0.
Proof. apply Z.pow_pos_nonneg; lia. Qed.

Lemma round_half_even_div_bounds (a b n : Z) :
  0 < b -> 0 <= a <= n * b -> 0 <= round_half_even_div a b <= n.
Proof.
  intros Hb Ha. unfold round_half_even_div.
  pose proof (Z.div_mod a b ltac:(lia)) as Hdiv.
  pose proof (Z.mod_pos_bound a b Hb) as Hmod.
  assert (0 <= a / b) as Hq0 by (apply Z.div_pos; lia).
  assert (a / b <= n) as Hqn by (apply Z.div_le_upper_bound; lia).
  assert (a / b = n -> a mod b = 0) as Htop by nia.
  destruct (2 * (a mod b) ?= b) eqn:Hcmp.
  - apply Z.compare_eq in Hcmp. destruct (Z.even (a / b)); lia.
  - lia.
  - apply Z.compare_gt_iff in Hcmp. lia.
Qed.

(** Every decimal [k / 10^4] with [0 <= k <= 10^4], of either sign, reads
    back as a double in [[-1, 1]], exactly and under the IEEE comparisons:
    checked on all of them. *)
Lemma decimals_checked :
  forallb (fun k => forallb (fun s => let d := decimal_float s (Z.of_nat k) 4 in
                                      float_between (-1) 1 d
                                      && ((-1 <=? d)%float && (d <=? 1)%float))
                            [false; true])
          (seq 0 (Z.to_nat 10001)) = true.
Proof. vm_compute. reflexivity. Qed.

Lemma decimal_float_in_unit_interval (s : bool) (k : Z) :
  0 <= k <= 10000 ->
  float_between (-1) 1 (decimal_float s k 4) = true /\
  (-1 <=? decimal_float s k 4)%float = true /\
  (decimal_float s k 4 <=? 1)%float = true.
Proof.
  intros Hk.
  pose proof decimals_checked as Hall.
  rewrite forallb_forall in Hall.
  assert (In (Z.to_nat k) (seq 0 (Z.to_nat 10001))) as Hin by (apply in_seq; lia).
  specialize (Hall _ Hin). rewrite Z2Nat.id in Hall by lia.
  rewrite forallb_forall in Hall.
  assert (In s [false; true]) as Hs by (destruct s; simpl; auto).
  specialize (Hall _ Hs). cbv zeta in Hall.
  apply andb_true_iff in Hall as [Hexact Hieee].
  apply andb_true_iff in Hieee. tauto.
Qed.

(** *** IEEE comparisons against -1 and 1, read exactly *)

Lemma digits2_pos_bound (m : positive) :
  Z.pos m < 2 ^ Z.pos (digits2_pos m).
Proof.
  induction m as [m IH | m IH |]; cbn [digits2_pos].
  - rewrite Pos2Z.inj_succ, Z.pow_succ_r by lia. lia.
  - rewrite Pos2Z.inj_succ, Z.pow_succ_r by lia. lia.
  - reflexivity.
Qed.

Lemma valid_mantissa_bound (s : bool) (m : positive) (e : Z) :
  valid_binary (S754_finite s m e) = true -> Z.pos m < 2 ^ 53.
Proof.
  unfold valid_binary, bounded, canonical_mantissa, fexp.
  intros [Hcanon _]%andb_true_iff. apply Z.eqb_eq in Hcanon.
  pose proof (digits2_pos_bound m) as Hm.
  apply Z.lt_le_trans with (1 := Hm).
  apply Z.pow_le_mono_r; [lia |]. change prec with 53 in Hcanon. lia.
Qed.

Lemma small_exponent_le_one (m : positive) (e : Z) :
  Z.pos m < 2 ^ 53 -> e < -52 -> Z.pos m <= 2 ^ (- e).
Proof.
  intros Hm He. apply Z.lt_le_incl, Z.lt_le_trans with (1 := Hm).
  apply Z.pow_le_mono_r; lia.
Qed.

Lemma magnitude_le_one (m : positive) (e : Z) :
  Z.pos m < 2 ^ 53 ->
  e < -52 \/ (e = -52 /\ Z.pos m <= 4503599627370496) ->
  Z.pos m * 2 ^ Z.max e 0 <= 2 ^ Z.max (- e) 0.
Proof.
  intros Hm [He | [-> Hle]].
  - rewrite Z.max_r, Z.max_l by lia. rewrite Z.pow_0_r, Z.mul_1_r.
    apply small_exponent_le_one; assumption.
  - change (2 ^ Z.max (-52) 0) with 1.
    change (2 ^ Z.max (- -52) 0) with 4503599627370496. lia.
Qed.

Lemma compare_cont_le (a b : positive) :
  Pos.compare_cont Eq a b <> Gt -> Z.pos a <= Z.pos b.
Proof.
  intros Hcmp. pose proof (Pos.compare_spec a b) as Hspec.
  unfold Pos.compare in Hspec.
  destruct Hspec as [-> | Hlt%Pos2Z.pos_lt_pos | Hgt]; [reflexivity | | congruence].
  apply Z.lt_le_incl. exact Hlt.
Qed.

Lemma compare_cont_ge (a b : positive) :
  Pos.compare_cont Eq a b <> Lt -> Z.pos b <= Z.pos a.
Proof.
  intros Hcmp. pose proof (Pos.compare_spec a b) as Hspec.
  unfold Pos.compare in Hspec.
  destruct Hspec as [-> | Hlt | Hgt%Pos2Z.pos_lt_pos]; [reflexivity | congruence |].
  apply Z.lt_le_incl. exact Hgt.
Qed.

Lemma finite_leb_one (m : positive) (e : Z) :
  SFleb (S754_finite false m e) (S754_finite false 4503599627370496 (-52)) = true ->
  e < -52 \/ (e = -52 /\ Z.pos m <= 4503599627370496).
Proof.
  unfold SFleb, SFcompare.
  destruct (Z.compare_spec e (-52)) as [-> | Hlt | Hgt];
    [right | left; lia | discriminate].
  split; [reflexivity |]. apply compare_cont_le.
  destruct (Pos.compare_cont Eq m 4503599627370496); discriminate.
Qed.

Lemma minus_one_leb_finite (m : positive) (e : Z) :
  SFleb (S754_finite true 4503599627370496 (-52)) (S754_finite true m e) = true ->
  e < -52 \/ (e = -52 /\ Z.pos m <= 4503599627370496).
Proof.
  unfold SFleb, SFcompare.
  destruct (Z.compare_spec (-52) e) as [<- | Hlt | Hgt];
    [right | discriminate | left; lia].
  split; [reflexivity |]. apply compare_cont_ge.
  destruct (Pos.compare_cont Eq 4503599627370496 m); discriminate.
Qed.

(** A double between -1.0 and 1.0 under the IEEE comparisons is finite
    with its exact value in [[-1, 1]]. *)
Lemma leb_unit_interval_between (x : float) :
  (-1 <=? x)%float = true -> (x <=? 1)%float = true ->
  float_between (-1) 1 x = true.
Proof.
  rewrite !leb_spec. unfold float_between.
  change (Prim2SF (-1)) with (S754_finite true 4503599627370496 (-52)).
  change (Prim2SF 1) with (S754_finite false 4503599627370496 (-52)).
  pose proof (Prim2SF_valid x) as Hvalid.
  destruct (Prim2SF x) as [s | s | | s m e].
  - reflexivity.
  - destruct s; discriminate.
  - discriminate.
  - apply valid_mantissa_bound in Hvalid.
    intros Hlo Hhi. cbv zeta.
    pose proof (pow2_pos e) as Hup. pose proof (pow2_pos (- e)) as Hdn.
    assert (Z.pos m * 2 ^ Z.max e 0 <= 2 ^ Z.max (- e) 0) as Hmag.
    { apply (magnitude_le_one m e Hvalid).
      destruct s; [apply minus_one_leb_finite | apply finite_leb_one]; assumption. }
    apply andb_true_iff. rewrite !Z.leb_le.
    destruct s.
    + change (Z.neg m) with (- Z.pos m). rewrite Z.mul_opp_l. lia.
    + lia.
Qed.

(** Rounding to four decimals keeps a score of [[-1, 1]] in [[-1, 1]], on
    one of the decimals [k / 10^4]. *)
Lemma py_round_unit_interval (x : float) :
  float_between (-1) 1 x = true ->
  exists (s : bool) (k : Z), 0 <= k <= 10000 /\ py_round x 4 = decimal_float s k 4.
Proof.
  unfold float_between, py_round. intros Hx.
  destruct (Prim2SF x) as [s | s | | s m e] eqn:Hsf; try discriminate.
  - exists s, 0. split; [lia |].
    unfold decimal_float. rewrite <- Hsf. symmetry. apply SF2Prim_Prim2SF.
  - cbv zeta in Hx. apply andb_true_iff in Hx as [Hlo Hhi].
    apply Z.leb_le in Hlo. apply Z.leb_le in Hhi.
    pose proof (pow2_pos e) as Hup. pose proof (pow2_pos (- e)) as Hdn.
    assert (0 <= round_half_even_div
                   (Z.pos m * 2 ^ Z.max e 0 * 10 ^ Z.of_nat 4) (2 ^ Z.max (- e) 0)
            <= 10000) as Hk.
    { apply round_half_even_div_bounds; [exact Hdn |].
      change (10 ^ Z.of_nat 4) with 10000.
      destruct s; nia. }
    eauto.
Qed.



(** ** The timeline *)

Lemma toordinal_minus_days (t : datetime) (d : Z) :
  toordinal (t - timedelta_days d) = toordinal t - d.
Proof.
  unfold toordinal, timedelta_days.
  replace (t - d * usec_per_day) with (t + (- d) * usec_per_day) by lia.
  rewrite Z.div_add by discriminate. lia.
Qed.

Lemma strftime_date_string (t : datetime) :
  strftime_ymd t = date_string (toordinal t).
Proof.
  unfold date_string, strftime_ymd. f_equal.
  unfold toordinal. replace (t / usec_per_day + 1 - 1) with (t / usec_per_day) by lia.
  rewrite Z.div_mul by discriminate. reflexivity.
Qed.

Lemma zero_counts_lookup (label : string) :
  zero_counts !! label = if known_label label then Some 0%nat else None.
Proof.
  unfold zero_counts, known_label.
  destruct (String.eqb_spec label "positive") as [-> | Hp]; [apply lookup_insert_eq |].
  rewrite lookup_insert_ne by congruence.
  destruct (String.eqb_spec label "negative") as [-> | Hn]; [apply lookup_insert_eq |].
  rewrite lookup_insert_ne by congruence.
  destruct (String.eqb_spec label "neutral") as [-> | Hu]; [apply lookup_insert_eq |].
  rewrite lookup_insert_ne by congruence.
  apply lookup_empty.
Qed.

Lemma holds_counts_empty : holds_counts ∅ (fun _ _ => 0%nat).
Proof. intros date. rewrite lookup_empty. reflexivity. Qed.

Lemma bump_other_date cnt msg date label :
  strftime_ymd (timestamp msg) <> date -> bump cnt msg date label = cnt date label.
Proof.
  intros Hne. unfold bump. apply String.eqb_neq in Hne. rewrite Hne. simpl. lia.
Qed.

Lemma bump_other_label cnt msg date label :
  sentiment msg <> label -> bump cnt msg date label = cnt date label.
Proof.
  intros Hne. unfold bump. apply String.eqb_neq in Hne.
  rewrite Hne, andb_false_r. lia.
Qed.

Lemma bump_same cnt msg :
  bump cnt msg (strftime_ymd (timestamp msg)) (sentiment msg)
  = S (cnt (strftime_ymd (timestamp msg)) (sentiment msg)).
Proof. unfold bump. rewrite !String.eqb_refl. simpl. lia. Qed.

(** Counting into a day's dict that holds the counts of its date. *)
Lemma day_counts_insert cnt msg (day : gmap string nat) :
  known_label (sentiment msg) = true ->
  (forall label,
      day !! label
      = if known_label label
        then Some (cnt (strftime_ymd (timestamp msg)) label) else None) ->
  forall label,
    <[sentiment msg := S (cnt (strftime_ymd (timestamp msg)) (sentiment msg))]> day
      !! label
    = if known_label label
      then Some (bump cnt msg (strftime_ymd (timestamp msg)) label) else None.
Proof.
  intros Hknown Hday label.
  destruct (decide (sentiment msg = label)) as [<- | Hne].
  - rewrite lookup_insert_eq, Hknown, bump_same. reflexivity.
  - rewrite lookup_insert_ne by exact Hne.
    rewrite (bump_other_label _ _ _ _ Hne). apply Hday.
Qed.

Lemma count_message_counts daily cnt msg :
  holds_counts daily cnt ->
  known_label (sentiment msg) = true ->
  exists daily',
    count_message daily msg = Ok daily' /\ holds_counts daily' (bump cnt msg).
Proof.
  intros Hinv Hknown. unfold count_message.
  set (date_key := strftime_ymd (timestamp msg)).
  pose proof (Hinv date_key) as Hkey.
  destruct (daily !! date_key) as [day |] eqn:Hlookup.
  - unfold getitem. rewrite Hlookup, (Hkey (sentiment msg)), Hknown.
    eexists. split; [reflexivity |].
    intros date. destruct (decide (date_key = date)) as [<- | Hne].
    + rewrite lookup_insert_eq. apply day_counts_insert; assumption.
    + rewrite lookup_insert_ne by exact Hne. specialize (Hinv date).
      destruct (daily !! date); intros label;
        rewrite (bump_other_date _ _ _ _ Hne); apply Hinv.
  - unfold getitem. rewrite lookup_insert_eq, zero_counts_lookup, Hknown.
    eexists. split; [reflexivity |].
    intros date. destruct (decide (date_key = date)) as [<- | Hne].
    + rewrite lookup_insert_eq.
      replace 1%nat with (S (cnt date_key (sentiment msg))) by (rewrite Hkey; reflexivity).
      apply day_counts_insert; [exact Hknown |].
      intros label. rewrite zero_counts_lookup, Hkey. reflexivity.
    + rewrite !lookup_insert_ne by exact Hne. specialize (Hinv date).
      destruct (daily !! date); intros label;
        rewrite (bump_other_date _ _ _ _ Hne); apply Hinv.
Qed.

Lemma count_message_unknown daily cnt msg :
  holds_counts daily cnt ->
  known_label (sentiment msg) = false ->
  count_message daily msg = Raise (KeyError (sentiment msg)).
Proof.
  intros Hinv Hunknown. unfold count_message.
  set (date_key := strftime_ymd (timestamp msg)).
  pose proof (Hinv date_key) as Hkey.
  destruct (daily !! date_key) as [day |] eqn:Hlookup; unfold getitem.
  - rewrite Hlookup, (Hkey (sentiment msg)), Hunknown. reflexivity.
  - rewrite lookup_insert_eq, zero_counts_lookup, Hunknown. reflexivity.
Qed.

Lemma holds_counts_ext daily cnt cnt' :
  (forall date label, cnt date label = cnt' date label) ->
  holds_counts daily cnt -> holds_counts daily cnt'.
Proof.
  intros Heq Hinv date. specialize (Hinv date).
  destruct (daily !! date); intros label; rewrite <- Heq; apply Hinv.
Qed.

(** The grouping loop on messages with known labels: it ends without
    error and adds their tallies. *)
Lemma group_by_date_counts messages :
  forall daily cnt,
    holds_counts daily cnt ->
    Forall (fun msg => known_label (sentiment msg) = true) messages ->
    exists daily',
      group_by_date daily messages = Ok daily' /\
      holds_counts daily' (fun date label => (cnt date label + tally messages date label)%nat).
Proof.
  induction messages as [|msg rest IH]; intros daily cnt Hinv Hknown.
  - exists daily. split; [reflexivity |].
    revert Hinv. apply holds_counts_ext.
    intros date label. unfold tally. simpl. lia.
  - apply Forall_cons_iff in Hknown as [Hmsg Hrest].
    destruct (count_message_counts daily cnt msg Hinv Hmsg) as (daily1 & Hstep & Hinv1).
    destruct (IH daily1 _ Hinv1 Hrest) as (daily' & Hrun & Hinv').
    exists daily'. split.
    + cbn [group_by_date]. rewrite Hstep. exact Hrun.
    + revert Hinv'. apply holds_counts_ext.
      intros date label. unfold bump, tally. cbn [count_where]. lia.
Qed.

(** The grouping loop stops with a [KeyError] at the first message whose
    label is not a key of the day's dict. *)
Lemma group_by_date_unknown messages :
  forall daily cnt,
    holds_counts daily cnt ->
    Exists (fun msg => known_label (sentiment msg) = false) messages ->
    exists label,
      group_by_date daily messages = Raise (KeyError label) /\
      known_label label = false.
Proof.
  induction messages as [|msg rest IH]; intros daily cnt Hinv Hex.
  - inversion Hex.
  - cbn [group_by_date].
    destruct (known_label (sentiment msg)) eqn:Hmsg.
    + destruct (count_message_counts daily cnt msg Hinv Hmsg) as (daily1 & -> & Hinv1).
      apply (IH daily1 _ Hinv1).
      apply Exists_cons in Hex as [Hhere | Hlater]; [congruence | exact Hlater].
    + rewrite (count_message_unknown daily cnt msg Hinv Hmsg). eauto.
Qed.

Lemma day_count daily cnt date label :
  holds_counts daily cnt ->
  known_label label = true ->
  getitem (dict_get daily date zero_counts) label = Ok (cnt date label).
Proof.
  intros Hinv Hknown. specialize (Hinv date). unfold dict_get, getitem.
  destruct (daily !! date).
  - rewrite Hinv, Hknown. reflexivity.
  - rewrite zero_counts_lookup, Hknown, Hinv. reflexivity.
Qed.

Lemma clock_stands_tick w reference n :
  clock_stands w reference (S n) ->
  clock w (clock_pos w) = reference /\ clock_stands (tick 1 w) reference n.
Proof.
  intros Hclock. split.
  - rewrite <- (Hclock 0%nat) by lia. f_equal. lia.
  - intros k Hk. rewrite <- (Hclock (S k)) by lia.
    unfold tick. cbn [clock clock_pos]. f_equal. lia.
Qed.

Lemma tick_tick n w : tick n (tick 1 w) = tick (S n) w.
Proof. unfold tick. cbn [rand_draws rand_pos clock clock_pos]. f_equal. lia. Qed.

(** The output loop: one clock reading and one entry in each array per
    index. *)
Lemma fill_days_run indices :
  forall daily cnt acc w reference,
    holds_counts daily cnt ->
    clock_stands w reference (length indices) ->
    fill_days indices daily acc w
    = (Ok {| dates := dates acc ++ map (day_label reference) indices;
             positive_counts :=
               positive_counts acc
               ++ map (fun i => cnt (day_label reference i) "positive") indices;
             negative_counts :=
               negative_counts acc
               ++ map (fun i => cnt (day_label reference i) "negative") indices;
             neutral_counts :=
               neutral_counts acc
               ++ map (fun i => cnt (day_label reference i) "neutral") indices |},
       tick (length indices) w).
Proof.
  induction indices as [|i rest IH]; intros daily cnt acc w reference Hinv Hclock.
  - destruct acc, w. cbn. rewrite !app_nil_r. reflexivity.
  - cbn [length] in Hclock. apply clock_stands_tick in Hclock as [Hnow Hrest].
    cbn [fill_days]. unfold bind at 1. unfold utcnow at 1. rewrite Hnow.
    fold (day_label reference i).
    unfold bind at 1, lift at 1.
    rewrite (day_count daily cnt _ "positive" Hinv eq_refl).
    unfold bind at 1, lift at 1.
    rewrite (day_count daily cnt _ "negative" Hinv eq_refl).
    unfold bind at 1, lift at 1.
    rewrite (day_count daily cnt _ "neutral" Hinv eq_refl).
    change (World (rand_draws w) (rand_pos w) (clock w) (S (clock_pos w)))
      with (tick 1 w).
    rewrite (IH daily cnt _ (tick 1 w) reference Hinv Hrest).
    cbn [dates positive_counts negative_counts neutral_counts map length].
    rewrite tick_tick, <- !app_assoc. reflexivity.
Qed.

Lemma week_days_labels (reference : datetime) :
  map (day_label reference) [0; 1; 2; 3; 4; 5; 6] = week_days reference.
Proof.
  unfold week_days, day_label. cbn [map].
  rewrite !strftime_date_string, !toordinal_minus_days. reflexivity.
Qed.

(** The run of the [try] block when every selected row has a known
    label. *)
Lemma timeline_data_run current_user_id table w reference :
  clock_stands w reference 8 ->
  Forall (fun msg => known_label (sentiment msg) = true)
    (recent_messages current_user_id (reference - timedelta_days 7) table) ->
  timeline_data current_user_id table w
  = (Ok (let recent :=
           recent_messages current_user_id (reference - timedelta_days 7) table in
         {| dates := map (day_label reference) [0; 1; 2; 3; 4; 5; 6];
            positive_counts :=
              map (fun i => tally recent (day_label reference i) "positive")
                [0; 1; 2; 3; 4; 5; 6];
            negative_counts :=
              map (fun i => tally recent (day_label reference i) "negative")
                [0; 1; 2; 3; 4; 5; 6];
            neutral_counts :=
              map (fun i => tally recent (day_label reference i) "neutral")
                [0; 1; 2; 3; 4; 5; 6] |}),
     tick 8 w).
Proof.
  intros Hclock Hknown. apply clock_stands_tick in Hclock as [Hnow Hrest].
  unfold timeline_data. unfold bind at 1. unfold utcnow at 1. rewrite Hnow.
  destruct (group_by_date_counts _ ∅ _ holds_counts_empty Hknown)
    as (daily & Hgroup & Hinv).
  unfold bind at 1, lift at 1. rewrite Hgroup.
  change (World (rand_draws w) (rand_pos w) (clock w) (S (clock_pos w)))
    with (tick 1 w).
  apply (holds_counts_ext _ _
           (tally (recent_messages current_user_id (reference - timedelta_days 7) table)))
    in Hinv; [| intros date label; reflexivity].
  rewrite (fill_days_run [0; 1; 2; 3; 4; 5; 6] daily _ _ (tick 1 w) reference Hinv Hrest).
  cbn [length]. rewrite tick_tick. reflexivity.
Qed.


(** ** Labels outside the enumeration *)

(** The [try] block stops with a [KeyError] when a selected row has a
    label that is no key of the day's dict; the route answers 500. *)
Lemma timeline_data_unknown current_user_id table w :
  Exists (fun msg => known_label (sentiment msg) = false)
    (recent_messages current_user_id
       (clock w (clock_pos w) - timedelta_days 7) table) ->
  exists label,
    known_label label = false /\
    timeline_data current_user_id table w = (Raise (KeyError label), tick 1 w) /\
    analytics_timeline current_user_id table w
    = (Failure 500 "Failed to load timeline data", tick 1 w).
Proof.
  intros Hex.
  destruct (group_by_date_unknown _ ∅ _ holds_counts_empty Hex) as (label & Hgroup & Hlabel).
  exists label. split; [exact Hlabel |].
  assert (timeline_data current_user_id table w = (Raise (KeyError label), tick 1 w))
    as Hrun.
  { unfold timeline_data. unfold bind at 1. unfold utcnow at 1.
    unfold bind at 1, lift at 1. rewrite Hgroup. reflexivity. }
  split; [exact Hrun |]. unfold analytics_timeline. rewrite Hrun. reflexivity.
Qed.

Section UnknownLabels.

Import SentimentStats.

(** C3, as the code has it: with the label "angry", [generate_response]
    returns a neutral template and [calculate_statistics] returns a
    summary; neither raises. *)
Lemma unknown_label_not_rejected :
  fst (generate_response ascii_lower "what now" "angry" sample_world)
  = Ok "I understand. How can I assist you today?" /\
  fst (calculate_statistics [record 1 "angry" 0; record 1 "positive" 0] sample_world)
  = Ok {| total := 2; positive := 1; negative := 0; neutral := 0;
          positive_percent := PyFloat 50; negative_percent := PyFloat 0;
          neutral_percent := PyFloat 0 |}.
Proof. split; vm_compute; reflexivity. Qed.

(** C3, amended. A label outside positive, negative and neutral is not
    rejected by [generate_response], which draws its base response from
    the neutral templates, nor by [calculate_statistics], which counts the
    record in the total and in none of the three counts; the timeline
    route raises [KeyError] on such a label when a row of the seven-day
    window carries it, and answers with the generic 500 failure. *)
Theorem unknown_label_handling :
  (forall (lower : string -> string) (message label : string) (w : world),
      known_label label = false ->
      exists base w',
        In base neutral_responses /\
        generate_response lower message label w
        = (Ok (apply_rules base (lower message)), w')) /\
  (forall (messages : list ChatMessage) (w : world),
      exists stats,
        calculate_statistics messages w = (Ok stats, w) /\
        total stats = length messages /\
        (positive stats + negative stats + neutral stats
         + count_where unlabelled messages = length messages)%nat) /\
  (forall (current_user_id : Z) (table : list ChatMessage) (w : world),
      Exists (fun msg => known_label (sentiment msg) = false)
        (recent_messages current_user_id
           (clock w (clock_pos w) - timedelta_days 7) table) ->
      exists label,
        known_label label = false /\
        timeline_data current_user_id table w = (Raise (KeyError label), tick 1 w) /\
        analytics_timeline current_user_id table w
        = (Failure 500 "Failed to load timeline data", tick 1 w)).
Proof.
  split; [| split].
  - intros lower message label w Hunknown.
    destruct (generate_response_run lower message label w)
      as (base & w' & _ & Hin & Hrun).
    rewrite (unknown_label_candidates _ Hunknown) in Hin. eauto.
  - intros messages w.
    destruct (calculate_statistics_counts messages w)
      as (stats & Hrun & Htotal & Hp & Hn & Hu).
    exists stats. split; [exact Hrun |]. split; [exact Htotal |].
    rewrite Hp, Hn, Hu. apply counts_partition.
  - exact timeline_data_unknown.
Qed.

Lemma unknown_label_handling_witness :
  exists label,
    known_label label = false /\
    timeline_data 1 sample_table_unlabelled (frozen sample_reference)
    = (Raise (KeyError label), tick 1 (frozen sample_reference)) /\
    analytics_timeline 1 sample_table_unlabelled (frozen sample_reference)
    = (Failure 500 "Failed to load timeline data", tick 1 (frozen sample_reference)).
Proof.
  apply (proj2 (proj2 unknown_label_handling)).
  vm_compute. repeat first [apply Exists_cons_hd; reflexivity | apply Exists_cons_tl].
Defined.

End UnknownLabels.

(** ** Determinism *)

(** C8. [analyze_sentiment] computes its label and score from the text
    alone: it reads and changes nothing of the world, so its result is
    the same in any two worlds and two calls on the same text return the
    same pair, even with a random draw of [generate_response] in between;
    the label is [classify] of the polarity, a function of the float. *)
Theorem score_and_classify_deterministic (polarity_of : string -> float) :
  (forall (text : string) (w1 w2 : world),
      fst (analyze_sentiment polarity_of text w1)
      = fst (analyze_sentiment polarity_of text w2)) /\
  (forall (text : string) (w : world),
      analyze_sentiment polarity_of text w
      = (Ok (classify (polarity_of text), py_round (polarity_of text) 4), w)) /\
  (forall (lower : string -> string) (text message label : string) (w : world),
      exists result reply w',
        bind (analyze_sentiment polarity_of text) (fun first =>
        bind (generate_response lower message label) (fun reply =>
        bind (analyze_sentiment polarity_of text) (fun second =>
        ret (first, reply, second)))) w
        = (Ok (result, reply, result), w')).
Proof.
  split; [| split].
  - intros text w1 w2. reflexivity.
  - intros text w. reflexivity.
  - intros lower text message label w.
    destruct (generate_response_run lower message label w)
      as (base & w' & _ & _ & Hrun).
    eexists _, _, w'. unfold bind at 1. cbn [analyze_sentiment ret].
    unfold bind at 1. rewrite Hrun. reflexivity.
Qed.

(** * Further properties of the code *)

(** ** The label and the score that are returned together *)

Lemma round_half_even_div_ge (a b lo : Z) :
  0 < b -> lo * b <= a -> lo <= round_half_even_div a b.
Proof.
  intros Hb Ha. unfold round_half_even_div.
  assert (lo <= a / b) as Hq by (apply Z.div_le_lower_bound; lia).
  destruct (2 * (a mod b) ?= b); [destruct (Z.even (a / b)) | |]; lia.
Qed.

Lemma round_half_even_div_le (a b hi : Z) :
  0 < b -> 2 * (a - hi * b) < b -> round_half_even_div a b <= hi.
Proof.
  intros Hb Ha. unfold round_half_even_div.
  pose proof (Z.div_mod a b ltac:(lia)) as Hdiv.
  pose proof (Z.mod_pos_bound a b Hb) as Hmod.
  assert (a / b < hi + 1) as Hq by (apply Z.div_lt_upper_bound; lia).
  destruct (Z.eq_dec (a / b) hi) as [Heq | Hne].
  - assert (2 * (a mod b) < b) as Hr by nia.
    apply Z.compare_lt_iff in Hr. rewrite Hr. lia.
  - destruct (2 * (a mod b) ?= b); [destruct (Z.even (a / b)) | |]; lia.
Qed.

Lemma digits2_pos_lower (m : positive) :
  2 ^ (Z.pos (digits2_pos m) - 1) <= Z.pos m.
Proof.
  induction m as [m IH | m IH |]; cbn [digits2_pos].
  - rewrite Pos2Z.inj_succ. replace (Z.succ (Z.pos (digits2_pos m)) - 1)
      with (Z.succ (Z.pos (digits2_pos m) - 1)) by lia.
    rewrite Z.pow_succ_r by lia. lia.
  - rewrite Pos2Z.inj_succ. replace (Z.succ (Z.pos (digits2_pos m)) - 1)
      with (Z.succ (Z.pos (digits2_pos m) - 1)) by lia.
    rewrite Z.pow_succ_r by lia. lia.
  - reflexivity.
Qed.

(** A valid double above the subnormal range has a 53-bit mantissa. *)
Lemma valid_normal_mantissa (s : bool) (m : positive) (e : Z) :
  valid_binary (S754_finite s m e) = true -> -1074 < e -> 2 ^ 52 <= Z.pos m.
Proof.
  unfold valid_binary, bounded, canonical_mantissa, fexp.
  intros [Hcanon _]%andb_true_iff He. apply Z.eqb_eq in Hcanon.
  change prec with 53 in Hcanon.
  change (SpecFloat.emin 53 emax) with (-1074) in Hcanon.
  pose proof (digits2_pos_lower m) as Hm.
  replace (Z.pos (digits2_pos m)) with 53 in Hm by lia. exact Hm.
Qed.

Lemma compare_cont_gt (a b : positive) :
  Pos.compare_cont Eq a b = Gt -> Z.pos b < Z.pos a.
Proof.
  intros Hcmp. pose proof (Pos.compare_spec a b) as Hspec.
  unfold Pos.compare in Hspec. rewrite Hcmp in Hspec.
  inversion Hspec as [| | Hgt]. apply Pos2Z.pos_lt_pos. exact Hgt.
Qed.

Lemma compare_cont_lt (a b : positive) :
  Pos.compare_cont Eq a b = Lt -> Z.pos a < Z.pos b.
Proof.
  intros Hcmp. pose proof (Pos.compare_spec a b) as Hspec.
  unfold Pos.compare in Hspec. rewrite Hcmp in Hspec.
  inversion Hspec as [| Hlt |]. apply Pos2Z.pos_lt_pos. exact Hlt.
Qed.

(** *** Comparisons with 0.1 and -0.1, read on sign, exponent and mantissa *)

Lemma above_tenth (s : bool) (m : positive) (e : Z) :
  SFltb (S754_finite false 7205759403792794 (-56)) (S754_finite s m e) = true ->
  s = false /\ (-56 < e \/ (e = -56 /\ 7205759403792794 < Z.pos m)).
Proof.
  unfold SFltb, SFcompare. destruct s; [discriminate |].
  intros Hlt. split; [reflexivity |]. revert Hlt.
  destruct (Z.compare_spec (-56) e) as [<- | He | He];
    [right | left; exact He | discriminate].
  split; [reflexivity |]. apply compare_cont_lt.
  destruct (Pos.compare_cont Eq 7205759403792794 m); [discriminate | reflexivity | discriminate].
Qed.

Lemma not_above_tenth (m : positive) (e : Z) :
  SFltb (S754_finite false 7205759403792794 (-56)) (S754_finite false m e) = false ->
  e < -56 \/ (e = -56 /\ Z.pos m <= 7205759403792794).
Proof.
  unfold SFltb, SFcompare.
  destruct (Z.compare_spec (-56) e) as [<- | He | He];
    [right | discriminate | left; exact He].
  split; [reflexivity |]. apply compare_cont_ge.
  destruct (Pos.compare_cont Eq 7205759403792794 m); discriminate.
Qed.

Lemma below_minus_tenth (s : bool) (m : positive) (e : Z) :
  SFltb (S754_finite s m e) (S754_finite true 7205759403792794 (-56)) = true ->
  s = true /\ (-56 < e \/ (e = -56 /\ 7205759403792794 < Z.pos m)).
Proof.
  unfold SFltb, SFcompare. destruct s; [| discriminate].
  intros Hlt. split; [reflexivity |]. revert Hlt.
  destruct (Z.compare_spec e (-56)) as [-> | He | He];
    [right | discriminate | left; exact He].
  split; [reflexivity |]. apply compare_cont_gt.
  destruct (Pos.compare_cont Eq m 7205759403792794); [discriminate | discriminate | reflexivity].
Qed.

Lemma not_below_minus_tenth (m : positive) (e : Z) :
  SFltb (S754_finite true m e) (S754_finite true 7205759403792794 (-56)) = false ->
  e < -56 \/ (e = -56 /\ Z.pos m <= 7205759403792794).
Proof.
  unfold SFltb, SFcompare.
  destruct (Z.compare_spec e (-56)) as [-> | He | He];
    [right | left; exact He | discriminate].
  split; [reflexivity |]. apply compare_cont_le.
  destruct (Pos.compare_cont Eq m 7205759403792794); discriminate.
Qed.

Lemma py_round_finite (x : float) (s : bool) (m : positive) (e : Z) :
  Prim2SF x = S754_finite s m e ->
  py_round x 4
  = decimal_float s
      (round_half_even_div (Z.pos m * 2 ^ Z.max e 0 * 10000) (2 ^ Z.max (- e) 0)) 4.
Proof. intros Hsf. unfold py_round. rewrite Hsf. reflexivity. Qed.

(** The four-decimal value of a double of magnitude at most 1, by the
    side of 0.1 its magnitude lies on. *)
Lemma rounded_magnitude (m : positive) (e : Z) :
  2 ^ 52 <= Z.pos m \/ e <= -1074 ->
  Z.pos m < 2 ^ 53 ->
  e < -52 \/ (e = -52 /\ Z.pos m <= 4503599627370496) ->
  let k := round_half_even_div (Z.pos m * 2 ^ Z.max e 0 * 10000) (2 ^ Z.max (- e) 0) in
  (-56 < e \/ (e = -56 /\ 7205759403792794 < Z.pos m) -> 1000 <= k <= 10000) /\
  (e < -56 \/ (e = -56 /\ Z.pos m <= 7205759403792794) -> 0 <= k <= 1000).
Proof.
  intros Hnormal Hm Hunit k. subst k.
  assert (e < 0) as He by lia.
  rewrite (Z.max_r e 0), (Z.max_l (- e) 0), Z.pow_0_r, Z.mul_1_r by lia.
  assert (0 < 2 ^ (- e)) as Hden by (apply Z.pow_pos_nonneg; lia).
  assert (Z.pos m <= 2 ^ (- e)) as Hone.
  { destruct Hunit as [Hlt | [-> Hle]].
    - apply small_exponent_le_one; assumption.
    - exact Hle. }
  split.
  - intros Hbig. split.
    + apply round_half_even_div_ge; [exact Hden |].
      destruct Hbig as [Hgt | [-> Hgt]].
      * assert (2 ^ (- e) <= 2 ^ 55) as Hpow by (apply Z.pow_le_mono_r; lia).
        destruct Hnormal as [Hnormal | Hsub]; lia.
      * change (2 ^ (- -56)) with 72057594037927936. lia.
    + apply round_half_even_div_le; [exact Hden | lia].
  - intros Hsmall. split.
    + apply round_half_even_div_ge; [exact Hden | lia].
    + apply round_half_even_div_le; [exact Hden |].
      destruct Hsmall as [Hlt | [-> Hle]].
      * assert (2 ^ 57 <= 2 ^ (- e)) as Hpow by (apply Z.pow_le_mono_r; lia).
        lia.
      * change (2 ^ (- -56)) with 72057594037927936. lia.
Qed.

(** The decimals [k / 10^4] from 0.1 up are at least the double 0.1, their
    opposites at most -0.1, and those up to 0.1 lie between -0.1 and 0.1:
    checked on all of them. *)
Lemma thresholds_checked :
  forallb
    (fun n =>
       let k := Z.of_nat n in
       (if 1000 <=? k
        then (0.1 <=? decimal_float false k 4)%float
             && (decimal_float true k 4 <=? -0.1)%float
        else true)
       && (if k <=? 1000
           then forallb (fun s => (-0.1 <=? decimal_float s k 4)%float
                                  && (decimal_float s k 4 <=? 0.1)%float)
                        [false; true]
           else true))
    (seq 0 (Z.to_nat 10001)) = true.
Proof. vm_compute. reflexivity. Qed.

Lemma decimal_float_thresholds (s : bool) (k : Z) :
  0 <= k <= 10000 ->
  (1000 <= k -> (0.1 <=? decimal_float false k 4)%float = true /\
                (decimal_float true k 4 <=? -0.1)%float = true) /\
  (k <= 1000 -> (-0.1 <=? decimal_float s k 4)%float = true /\
                (decimal_float s k 4 <=? 0.1)%float = true).
Proof.
  intros Hk. pose proof thresholds_checked as Hall.
  rewrite forallb_forall in Hall.
  assert (In (Z.to_nat k) (seq 0 (Z.to_nat 10001))) as Hin by (apply in_seq; lia).
  specialize (Hall _ Hin). cbv zeta in Hall. rewrite Z2Nat.id in Hall by lia.
  apply andb_true_iff in Hall as [Hbig Hsmall]. split.
  - intros Hge. apply Z.leb_le in Hge. rewrite Hge in Hbig.
    apply andb_true_iff in Hbig. exact Hbig.
  - intros Hle. apply Z.leb_le in Hle. rewrite Hle in Hsmall.
    rewrite forallb_forall in Hsmall.
    assert (In s [false; true]) as Hs by (destruct s; simpl; auto).
    specialize (Hsmall _ Hs). apply andb_true_iff in Hsmall. exact Hsmall.
Qed.

(** For a polarity between -1.0 and 1.0, the label and the rounded score
    lie on the same side of the thresholds. *)
Lemma label_side_of_score (p : float) :
  (-1 <=? p)%float = true -> (p <=? 1)%float = true ->
  (classify p = "positive" -> (0.1 <=? py_round p 4)%float = true) /\
  (classify p = "negative" -> (py_round p 4 <=? -0.1)%float = true) /\
  (classify p = "neutral" ->
   (-0.1 <=? py_round p 4)%float = true /\ (py_round p 4 <=? 0.1)%float = true).
Proof.
  intros Hlo Hhi. unfold classify. rewrite !ltb_spec.
  rewrite leb_spec in Hlo, Hhi.
  change (Prim2SF (-1)) with (S754_finite true 4503599627370496 (-52)) in Hlo.
  change (Prim2SF 1) with (S754_finite false 4503599627370496 (-52)) in Hhi.
  change (Prim2SF 0.1) with (S754_finite false 7205759403792794 (-56)).
  change (Prim2SF (-0.1)) with (S754_finite true 7205759403792794 (-56)).
  pose proof (Prim2SF_valid p) as Hvalid.
  destruct (Prim2SF p) as [s | s | | s m e] eqn:Hsf.
  - assert (py_round p 4 = p) as -> by (unfold py_round; rewrite Hsf; reflexivity).
    rewrite !leb_spec, Hsf.
    change (Prim2SF 0.1) with (S754_finite false 7205759403792794 (-56)).
    change (Prim2SF (-0.1)) with (S754_finite true 7205759403792794 (-56)).
    cbn. repeat split; try discriminate; reflexivity.
  - destruct s; discriminate.
  - discriminate.
  - rewrite (py_round_finite p s m e Hsf).
    pose proof (valid_mantissa_bound s m e Hvalid) as Hm.
    assert (2 ^ 52 <= Z.pos m \/ e <= -1074) as Hnormal.
    { destruct (Z_le_gt_dec e (-1074)) as [Hsub | Hnorm]; [right; exact Hsub | left].
      apply (valid_normal_mantissa s m e Hvalid). lia. }
    assert (e < -52 \/ (e = -52 /\ Z.pos m <= 4503599627370496)) as Hunit.
    { destruct s; [apply minus_one_leb_finite | apply finite_leb_one]; assumption. }
    destruct (rounded_magnitude m e Hnormal Hm Hunit) as [Hbig Hsmall].
    cbv zeta in Hbig, Hsmall.
    set (k := round_half_even_div (Z.pos m * 2 ^ Z.max e 0 * 10000) (2 ^ Z.max (- e) 0))
      in *.
    destruct (SFltb (S754_finite false 7205759403792794 (-56)) (S754_finite s m e))
      eqn:Habove.
    { apply above_tenth in Habove as [-> Hside]. specialize (Hbig Hside).
      destruct (decimal_float_thresholds false k ltac:(lia)) as [Hge _].
      split; [| split; discriminate]. intros _. apply Hge. lia. }
    destruct (SFltb (S754_finite s m e) (S754_finite true 7205759403792794 (-56)))
      eqn:Hbelow.
    { apply below_minus_tenth in Hbelow as [-> Hside]. specialize (Hbig Hside).
      destruct (decimal_float_thresholds true k ltac:(lia)) as [Hge _].
      split; [discriminate | split; [| discriminate]]. intros _. apply Hge. lia. }
    assert (e < -56 \/ (e = -56 /\ Z.pos m <= 7205759403792794)) as Hside.
    { destruct s; [apply not_below_minus_tenth | apply not_above_tenth]; assumption. }
    specialize (Hsmall Hside).
    destruct (decimal_float_thresholds s k ltac:(lia)) as [_ Hle].
    split; [discriminate | split; [discriminate |]].
    intros _. apply Hle. lia.
Qed.

(** X1. When the polarity lies between -1.0 and 1.0, the label returned
    by [analyze_sentiment] and the rounded score returned with it agree on
    the side of the thresholds: positive comes with a score of at least
    0.1, negative with one of at most -0.1, neutral with one between -0.1
    and 0.1.  The label is still not [classify] of the score: a polarity
    of 0.10004 is labelled positive and reported as 0.1, which [classify]
    calls neutral. *)
Theorem label_agrees_with_score :
  (forall (polarity_of : string -> float) (text : string) (w : world),
      (-1 <=? polarity_of text)%float = true ->
      (polarity_of text <=? 1)%float = true ->
      exists label score,
        analyze_sentiment polarity_of text w = (Ok (label, score), w) /\
        (label = "positive" -> (0.1 <=? score)%float = true) /\
        (label = "negative" -> (score <=? -0.1)%float = true) /\
        (label = "neutral" ->
         (-0.1 <=? score)%float = true /\ (score <=? 0.1)%float = true)) /\
  (exists p : float,
      (-1 <=? p)%float = true /\ (p <=? 1)%float = true /\
      classify p = "positive" /\ classify (py_round p 4) = "neutral").
Proof.
  split.
  - intros polarity_of text w Hlo Hhi.
    exists (classify (polarity_of text)), (py_round (polarity_of text) 4).
    split; [reflexivity |]. apply label_side_of_score; assumption.
  - exists 0.10004%float. repeat split; vm_compute; reflexivity.
Qed.

Lemma label_agrees_with_score_witness :
  exists label score,
    analyze_sentiment sample_polarity "a good day" sample_world
    = (Ok (label, score), sample_world) /\
    (label = "positive" -> (0.1 <=? score)%float = true).
Proof.
  destruct (proj1 label_agrees_with_score sample_polarity "a good day" sample_world)
    as (label & score & Hrun & Hpos & _); [reflexivity | reflexivity |].
  exists label, score. split; assumption.
Defined.

(** ** Keyword rules and the random draw *)

(** X2. When the lower-cased message holds no help word but a thank, bye
    or hello word, the response is one of the three fixed phrases, the
    same for every label and every state of the generator. *)
Theorem replacing_rule_ignores_label_and_draw (lower : string -> string)
    (message label1 label2 : string) (w1 w2 : world) :
  any_in help_words (lower message) = false ->
  keyword_free (lower message) = false ->
  exists phrase,
    In phrase [thank_reply; bye_reply; hello_reply] /\
    fst (generate_response lower message label1 w1) = Ok phrase /\
    fst (generate_response lower message label2 w2) = Ok phrase.
Proof.
  intros Hhelp Hfree.
  destruct (generate_response_run lower message label1 w1) as (b1 & w1' & _ & _ & ->).
  destruct (generate_response_run lower message label2 w2) as (b2 & w2' & _ & _ & ->).
  unfold keyword_free, any_in in Hfree. apply negb_false_iff in Hfree.
  rewrite !existsb_app in Hfree. fold (any_in help_words (lower message)) in Hfree.
  rewrite Hhelp in Hfree. cbn [orb] in Hfree.
  fold (any_in thank_words (lower message)) (any_in bye_words (lower message))
       (any_in hello_words (lower message)) in Hfree.
  unfold apply_rules. rewrite first_rule_cases, Hhelp.
  destruct (any_in thank_words (lower message));
    [exists thank_reply; simpl; auto |].
  destruct (any_in bye_words (lower message));
    [exists bye_reply; simpl; auto |].
  destruct (any_in hello_words (lower message));
    [exists hello_reply; simpl; auto | discriminate].
Qed.

Lemma replacing_rule_ignores_label_and_draw_witness :
  exists phrase,
    In phrase [thank_reply; bye_reply; hello_reply] /\
    fst (generate_response ascii_lower "This is fine" "positive" sample_world) = Ok phrase /\
    fst (generate_response ascii_lower "This is fine" "negative" (frozen 0)) = Ok phrase.
Proof.
  apply (replacing_rule_ignores_label_and_draw ascii_lower "This is fine"
           "positive" "negative" sample_world (frozen 0)); reflexivity.
Defined.

Lemma random_choice_at {A} (seq : list A) (i : nat) (d : A) (w : world) :
  (i < length seq)%nat ->
  rand_draws w (rand_pos w) = i ->
  fst (random_choice seq w) = Ok (nth i seq d).
Proof.
  intros Hi Hdraw. unfold random_choice.
  destruct seq as [|x rest]; [inversion Hi |].
  cbn [fst]. rewrite Hdraw, Nat.mod_small by exact Hi.
  f_equal. apply nth_indep. exact Hi.
Qed.

(** X3. No template is dead: for a keyword-free message, each candidate
    of the label's list is the response in some state of the generator. *)
Theorem every_candidate_is_drawn (lower : string -> string)
    (message label candidate : string) :
  keyword_free (lower message) = true ->
  In candidate (dict_get responses label neutral_responses) ->
  exists w, fst (generate_response lower message label w) = Ok candidate.
Proof.
  intros Hfree Hin.
  destruct (In_nth _ _ "" Hin) as (i & Hi & Hnth).
  exists (World (fun _ => i) 0 (fun _ => 0) 0).
  destruct (generate_response_run lower message label (World (fun _ => i) 0 (fun _ => 0) 0))
    as (base & w' & Hdraw & _ & ->).
  rewrite (keyword_free_apply _ _ Hfree). cbn [fst].
  rewrite <- Hnth.
  rewrite <- (random_choice_at _ i "" (World (fun _ => i) 0 (fun _ => 0) 0) Hi eq_refl).
  rewrite Hdraw. reflexivity.
Qed.

Lemma every_candidate_is_drawn_witness :
  exists w,
    fst (generate_response ascii_lower "What now" "negative" w)
    = Ok "I'm here for you. Would you like to talk more about it?".
Proof.
  apply (every_candidate_is_drawn ascii_lower "What now" "negative").
  - reflexivity.
  - vm_compute. auto.
Defined.

(** ** The order of the rows does not matter *)

Lemma count_where_permutation {A} (p : A -> bool) (xs ys : list A) :
  Permutation xs ys -> count_where p xs = count_where p ys.
Proof.
  induction 1 as [| x xs ys _ IH | x y xs | xs ys zs _ IH1 _ IH2]; cbn [count_where].
  - reflexivity.
  - rewrite IH. reflexivity.
  - lia.
  - congruence.
Qed.

Section SummaryOrder.

Import SentimentStats.

(** The summary of a non-empty list, from its length and three counts. *)
Lemma calculate_statistics_from_counts (messages : list ChatMessage) (w : world) :
  messages <> [] ->
  calculate_statistics messages w
  = bind (percent (count_where (has_label "positive") messages) (length messages))
      (fun positive_percent =>
       bind (percent (count_where (has_label "negative") messages) (length messages))
         (fun negative_percent =>
          bind (percent (count_where (has_label "neutral") messages) (length messages))
            (fun neutral_percent =>
             ret {| total := length messages;
                    positive := count_where (has_label "positive") messages;
                    negative := count_where (has_label "negative") messages;
                    neutral := count_where (has_label "neutral") messages;
                    positive_percent := positive_percent;
                    negative_percent := negative_percent;
                    neutral_percent := neutral_percent |}))) w.
Proof. intros Hne. destruct messages; [congruence | reflexivity]. Qed.

(** X4. [calculate_statistics] depends on the records only as a multiset:
    two lists with the same records in any order get the same summary. *)
Theorem summary_ignores_order (messages messages' : list ChatMessage) (w : world) :
  Permutation messages messages' ->
  calculate_statistics messages w = calculate_statistics messages' w.
Proof.
  intros Hperm. destruct messages as [|msg rest].
  - apply Permutation_nil in Hperm. subst. reflexivity.
  - assert (messages' <> []) as Hne'.
    { intros ->. apply Permutation_sym, Permutation_nil in Hperm. discriminate. }
    rewrite (calculate_statistics_from_counts (msg :: rest)) by discriminate.
    rewrite (calculate_statistics_from_counts messages') by exact Hne'.
    rewrite (Permutation_length Hperm).
    rewrite !(count_where_permutation _ _ _ Hperm). reflexivity.
Qed.

Lemma summary_ignores_order_witness :
  calculate_statistics [record 1 "positive" 0; record 1 "negative" 5] sample_world
  = calculate_statistics [record 1 "negative" 5; record 1 "positive" 0] sample_world.
Proof. apply summary_ignores_order. apply perm_swap. Defined.

End SummaryOrder.

Lemma recent_messages_permutation current_user_id week_ago table table' :
  Permutation table table' ->
  Permutation (recent_messages current_user_id week_ago table)
              (recent_messages current_user_id week_ago table').
Proof.
  unfold recent_messages.
  induction 1 as [| x xs ys _ IH | x y xs | xs ys zs _ IH1 _ IH2]; cbn [List.filter].
  - constructor.
  - destruct (_ && _); [constructor |]; exact IH.
  - destruct ((user_id x =? _) && _), ((user_id y =? _) && _);
      try reflexivity. apply perm_swap.
  - etransitivity; eassumption.
Qed.

Lemma known_or_unknown (messages : list ChatMessage) :
  Forall (fun msg => known_label (sentiment msg) = true) messages \/
  Exists (fun msg => known_label (sentiment msg) = false) messages.
Proof.
  induction messages as [|msg rest [IH | IH]].
  - left. constructor.
  - destruct (known_label (sentiment msg)) eqn:Hmsg.
    + left. constructor; assumption.
    + right. apply Exists_cons_hd. exact Hmsg.
  - right. apply Exists_cons_tl. exact IH.
Qed.

(** One turn of the output loop, read on the counts the dict holds. *)
Lemma fill_days_step i rest daily cnt acc w :
  holds_counts daily cnt ->
  fill_days (i :: rest) daily acc w
  = let date := day_label (clock w (clock_pos w)) i in
    fill_days rest daily
      {| dates := dates acc ++ [date];
         positive_counts := positive_counts acc ++ [cnt date "positive"];
         negative_counts := negative_counts acc ++ [cnt date "negative"];
         neutral_counts := neutral_counts acc ++ [cnt date "neutral"] |}
      (tick 1 w).
Proof.
  intros Hinv. cbn [fill_days]. unfold bind at 1. unfold utcnow at 1.
  fold (day_label (clock w (clock_pos w)) i).
  unfold bind at 1, lift at 1.
  rewrite (day_count daily cnt _ "positive" Hinv eq_refl).
  unfold bind at 1, lift at 1.
  rewrite (day_count daily cnt _ "negative" Hinv eq_refl).
  unfold bind at 1, lift at 1.
  rewrite (day_count daily cnt _ "neutral" Hinv eq_refl).
  reflexivity.
Qed.

(** The output loop reads the dict only through the counts it holds. *)
Lemma fill_days_same_counts indices :
  forall daily daily' cnt acc w,
    holds_counts daily cnt ->
    holds_counts daily' cnt ->
    fill_days indices daily acc w = fill_days indices daily' acc w.
Proof.
  induction indices as [|i rest IH]; intros daily daily' cnt acc w Hinv Hinv'.
  - reflexivity.
  - rewrite (fill_days_step i rest daily cnt acc w Hinv).
    rewrite (fill_days_step i rest daily' cnt acc w Hinv').
    cbv zeta. apply (IH daily daily' cnt); assumption.
Qed.

(** X5. The timeline route depends on the rows of the table only as a
    multiset: in whatever order the query returns them, the answer, data
    or failure, is the same. *)
Theorem timeline_ignores_order (current_user_id : Z)
    (table table' : list ChatMessage) (w : world) :
  Permutation table table' ->
  analytics_timeline current_user_id table w
  = analytics_timeline current_user_id table' w.
Proof.
  intros Hperm.
  pose proof (recent_messages_permutation current_user_id
                (clock w (clock_pos w) - timedelta_days 7) _ _ Hperm) as Hrecent.
  unfold analytics_timeline, timeline_data.
  unfold bind at 1 3. unfold utcnow at 1 2.
  set (recent := recent_messages _ _ table) in *.
  set (recent' := recent_messages _ _ table') in *.
  unfold bind at 1 2, lift at 1 2.
  destruct (known_or_unknown recent) as [Hknown | Hunknown].
  - pose proof (Permutation_Forall Hrecent Hknown) as Hknown'.
    destruct (group_by_date_counts recent ∅ _ holds_counts_empty Hknown)
      as (daily & -> & Hinv).
    destruct (group_by_date_counts recent' ∅ _ holds_counts_empty Hknown')
      as (daily' & -> & Hinv').
    rewrite (fill_days_same_counts _ daily daily' _ _ _ Hinv); [reflexivity |].
    revert Hinv'. apply holds_counts_ext. intros date label.
    unfold tally. rewrite (count_where_permutation _ _ _ Hrecent). reflexivity.
  - pose proof (Permutation_Exists Hrecent Hunknown) as Hunknown'.
    destruct (group_by_date_unknown recent ∅ _ holds_counts_empty Hunknown)
      as (label & -> & _).
    destruct (group_by_date_unknown recent' ∅ _ holds_counts_empty Hunknown')
      as (label' & -> & _).
    reflexivity.
Qed.

Lemma timeline_ignores_order_witness :
  analytics_timeline 1 sample_table (frozen sample_reference)
  = analytics_timeline 1 (rev sample_table) (frozen sample_reference).
Proof. apply timeline_ignores_order. apply Permutation_rev. Defined.

(** * The application *)

(** ** [login_required] and the state *)

Lemma login_required_anonymous {A} (view : User.t -> app -> A * app) (st : app) :
  current_user st = None ->
  login_required view st
  = (Unauthorized, flash "Please log in to access this page." "info" st).
Proof. intros H. unfold login_required. rewrite H. reflexivity. Qed.

Lemma login_required_user {A} (view : User.t -> app -> A * app) (st : app)
    (user : User.t) :
  current_user st = Some user ->
  login_required view st = (Allowed (fst (view user st)), snd (view user st)).
Proof.
  intros H. unfold login_required. rewrite H. destruct (view user st). reflexivity.
Qed.

Lemma set_chat_messages_same (st : app) :
  set_chat_messages (chat_messages st) st = st.
Proof. destruct st. reflexivity. Qed.

Lemma set_interp_same (st : app) : set_interp (interp st) st = st.
Proof. destruct st. reflexivity. Qed.

Lemma random_choice_clock {A} (seq : list A) (w w' : world) (r : pyresult A) :
  random_choice seq w = (r, w') ->
  clock w' = clock w /\ clock_pos w' = clock_pos w.
Proof.
  unfold random_choice. destruct seq; intros H; injection H as _ <-; split; reflexivity.
Qed.

(** ** [chat_api] *)

(** The three ways through [chat_api] for a logged-in user. *)
Lemma chat_api_cases (polarity_of : string -> float) (lower strip : string -> string)
    (req : request) (st : app) (user : User.t) :
  current_user st = Some user ->
  match json req with
  | None =>
      chat_api polarity_of lower strip req st
      = (Allowed (Failure 500 "An error occurred processing your message"), st)
  | Some data =>
      match dict_get data "message" (JString "") with
      | JOther =>
          chat_api polarity_of lower strip req st
          = (Allowed (Failure 500 "An error occurred processing your message"), st)
      | JString text =>
          if is_empty (strip text) then
            chat_api polarity_of lower strip req st
            = (Allowed (Failure 400 "Message cannot be empty"), st)
          else
            let label := classify (polarity_of (strip text)) in
            let now := clock (interp st) (clock_pos (interp st)) in
            exists base w',
              random_choice (dict_get responses label neutral_responses) (interp st)
              = (Ok base, w') /\
              In base (dict_get responses label neutral_responses) /\
              chat_api polarity_of lower strip req st
              = (Allowed
                   (Success {| answer_response := apply_rules base (lower (strip text));
                               answer_sentiment := label;
                               answer_sentiment_score := py_round (polarity_of (strip text)) 4;
                               answer_timestamp := strftime_full now |}),
                 set_chat_messages
                   (chat_messages st
                    ++ [{| id := next_key (map id (chat_messages st));
                           user_id := User.id user;
                           message := strip text;
                           response := apply_rules base (lower (strip text));
                           sentiment := label;
                           sentiment_score := py_round (polarity_of (strip text)) 4;
                           timestamp := now |}])
                   (set_interp (tick 1 w') st))
      end
  end.
Proof.
  intros Huser. unfold chat_api. rewrite (login_required_user _ _ _ Huser).
  unfold chat_attempt.
  destruct (json req) as [data|];
    [| cbn [fst snd]; rewrite set_chat_messages_same; reflexivity].
  destruct (dict_get data "message" (JString "")) as [text|];
    [| cbn [fst snd]; rewrite set_chat_messages_same; reflexivity].
  destruct (is_empty (strip text)); [reflexivity |].
  cbv zeta.
  destruct (generate_response_run lower (strip text) (classify (polarity_of (strip text)))
              (interp st)) as (base & w' & Hdraw & Hin & Hrun).
  exists base, w'. split; [exact Hdraw | split; [exact Hin |]].
  destruct (random_choice_clock _ _ _ _ Hdraw) as [Hclock Hpos].
  unfold run at 2. unfold analyze_sentiment, ret. cbn [interp set_interp].
  unfold run. cbn [interp set_interp]. rewrite Hrun.
  unfold commit_message. cbn [fst snd interp set_interp chat_messages timestamp].
  rewrite Hclock, Hpos. destruct st; reflexivity.
Qed.

Lemma is_empty_false (s : string) : is_empty s = false <-> s <> "".
Proof. destruct s; simpl; split; congruence. Qed.

Lemma is_empty_true (s : string) : is_empty s = true <-> s = "".
Proof. destruct s; simpl; split; congruence. Qed.

Lemma key_le_max (keys : list Z) (key : Z) :
  In key keys -> key <= fold_right Z.max 0 keys.
Proof.
  induction keys as [|k rest IH]; intros Hin; [inversion Hin |].
  simpl. destruct Hin as [-> | Hin]; [lia |]. specialize (IH Hin). lia.
Qed.

(** The key of a new row is the key of no row of the table. *)
Lemma next_key_fresh (keys : list Z) : ~ In (next_key keys) keys.
Proof.
  intros Hin. apply key_le_max in Hin. unfold next_key in Hin. lia.
Qed.

Lemma classify_known (polarity : float) : known_label (classify polarity) = true.
Proof.
  unfold classify.
  destruct (0.1 <? polarity)%float; [reflexivity |].
  destruct (polarity <? -0.1)%float; reflexivity.
Qed.





(** ** The sentiment chart and the dashboard *)

Lemma owned_by_app (uid : Z) (msgs more : list ChatMessage) :
  owned_by uid (msgs ++ more) = (owned_by uid msgs ++ owned_by uid more)%list.
Proof. unfold owned_by. induction msgs as [|m msgs IH]; simpl; [reflexivity|].
  rewrite IH. destruct (user_id m =? uid); reflexivity. Qed.

Lemma count_where_app {A} (p : A -> bool) (xs ys : list A) :
  count_where p (xs ++ ys) = (count_where p xs + count_where p ys)%nat.
Proof.
  induction xs as [|x xs IH]; cbn [count_where List.app]; [reflexivity |].
  rewrite IH. lia.
Qed.

(** The chart of a logged-in user. *)
Lemma analytics_sentiment_run (st : app) (user : User.t) :
  current_user st = Some user ->
  exists chart,
    analytics_sentiment st = (Allowed (Success chart), st) /\
    chart_labels chart = ["Positive"; "Negative"; "Neutral"] /\
    chart_values chart
    = map (fun label =>
             count_where (has_label label) (owned_by (User.id user) (chat_messages st)))
        ["positive"; "negative"; "neutral"].
Proof.
  intros Huser. unfold analytics_sentiment. rewrite (login_required_user _ _ _ Huser).
  unfold run.
  destruct (calculate_statistics_counts (owned_by (User.id user) (chat_messages st))
              (interp st)) as (stats & -> & _ & Hp & Hn & Hu).
  cbn [fst snd]. rewrite set_interp_same. eexists. split; [reflexivity |].
  cbn [chart_labels chart_values map]. rewrite Hp, Hn, Hu. split; reflexivity.
Qed.

(** X8. The error branches of [analytics_sentiment] and of [dashboard]
    are never taken: a logged-in user is always answered the chart, whose
    values count the user's own rows by label, and the dashboard, with the
    ten first rows of the ordered query; neither changes the state. *)
Theorem sentiment_views_never_fail
    (order_by_timestamp_desc : list ChatMessage -> list ChatMessage)
    (st : app) (user : User.t) :
  current_user st = Some user ->
  let own := owned_by (User.id user) (chat_messages st) in
  (exists chart,
      analytics_sentiment st = (Allowed (Success chart), st) /\
      chart_values chart
      = [count_where (has_label "positive") own;
         count_where (has_label "negative") own;
         count_where (has_label "neutral") own]) /\
  (exists stats,
      dashboard order_by_timestamp_desc st
      = (Allowed (RenderDashboard stats (firstn 10 (order_by_timestamp_desc own))), st) /\
      SentimentStats.total stats = length own).
Proof.
  intros Huser own. split.
  - destruct (analytics_sentiment_run st user Huser) as (chart & Hrun & _ & Hvalues).
    exists chart. split; [exact Hrun | exact Hvalues].
  - unfold dashboard. rewrite (login_required_user _ _ _ Huser). unfold run.
    fold own.
    destruct (calculate_statistics_counts own (interp st)) as (stats & -> & Htotal & _).
    cbn [fst snd]. rewrite set_interp_same. exists stats. split; [reflexivity | exact Htotal].
Qed.

Lemma sentiment_views_never_fail_witness :
  exists chart,
    analytics_sentiment sample_session = (Allowed (Success chart), sample_session) /\
    chart_values chart = [2; 1; 1]%nat.
Proof.
  exact (proj1 (sentiment_views_never_fail sort_desc sample_session sample_user eq_refl)).
Defined.

(** X9. A message that [chat_api] accepts is counted once: in the chart
    the same user is served next, the value of the answered label is one
    more than before and the two other values are as before. *)
Theorem accepted_message_is_counted_once (polarity_of : string -> float)
    (lower strip : string -> string) (req : request) (st st' : app) (user : User.t)
    (answer : chat_answer) :
  current_user st = Some user ->
  chat_api polarity_of lower strip req st = (Allowed (Success answer), st') ->
  known_label (answer_sentiment answer) = true /\
  exists chart chart',
    fst (analytics_sentiment st) = Allowed (Success chart) /\
    fst (analytics_sentiment st') = Allowed (Success chart') /\
    chart_values chart'
    = map (fun '(label, value) =>
             if String.eqb (answer_sentiment answer) label then S value else value)
        (combine ["positive"; "negative"; "neutral"] (chart_values chart)).
Proof.
  intros Huser Hrun.
  pose proof (chat_api_cases polarity_of lower strip req st user Huser) as Hcases.
  rewrite Hrun in Hcases.
  destruct (json req) as [data|]; [| discriminate].
  destruct (dict_get data "message" (JString "")) as [text|]; [| discriminate].
  destruct (is_empty (strip text)); [discriminate |].
  cbv zeta in Hcases. destruct Hcases as (base & w' & _ & _ & Heq).
  injection Heq as -> ->. cbn [answer_sentiment].
  split; [apply classify_known |].
  set (label := classify (polarity_of (strip text))).
  set (st' := set_chat_messages _ _).
  assert (current_user st' = Some user) as Huser' by exact Huser.
  destruct (analytics_sentiment_run st user Huser) as (chart & -> & _ & Hvalues).
  destruct (analytics_sentiment_run st' user Huser') as (chart' & -> & _ & Hvalues').
  exists chart, chart'. split; [reflexivity | split; [reflexivity |]].
  rewrite Hvalues', Hvalues.
  subst st'. cbn [chat_messages set_chat_messages]. rewrite owned_by_app.
  cbn [map combine]. rewrite !count_where_app.
  unfold owned_by at 2 4 6. cbn [List.filter user_id]. rewrite Z.eqb_refl.
  cbn [count_where]. unfold has_label at 2 4 6. cbn [sentiment].
  rewrite !(String.eqb_sym label).
  f_equal; [| f_equal; [| f_equal]];
    match goal with |- context [String.eqb ?a label] => destruct (String.eqb a label) end; lia.
Qed.

Lemma accepted_message_is_counted_once_witness :
  exists chart chart',
    fst (analytics_sentiment sample_session) = Allowed (Success chart) /\
    fst (analytics_sentiment
           (snd (chat_api sample_polarity ascii_lower ascii_strip
                   (post_json [("message", JString "too bad")]) sample_session)))
    = Allowed (Success chart') /\
    chart_values chart = [2; 1; 1]%nat /\
    chart_values chart' = [2; 2; 1]%nat.
Proof.
  destruct (accepted_message_is_counted_once sample_polarity ascii_lower ascii_strip
              (post_json [("message", JString "too bad")]) sample_session
              (snd (chat_api sample_polarity ascii_lower ascii_strip
                      (post_json [("message", JString "too bad")]) sample_session))
              sample_user
              {| answer_response := nth 0 negative_responses "";
                 answer_sentiment := "negative";
                 answer_sentiment_score := (-0.7)%float;
                 answer_timestamp := "2024-10-31 12:00:00" |}
              eq_refl eq_refl)
    as (_ & chart & chart' & Hbefore & Hafter & Hvalues).
  exists chart, chart'. split; [exact Hbefore | split; [exact Hafter |]].
  vm_compute in Hbefore. injection Hbefore as <-.
  split; [reflexivity | exact Hvalues].
Defined.

(** ** [register] *)

Lemma found_find {A} (p : A -> bool) (xs : list A) :
  found (List.find p xs) = existsb p xs.
Proof.
  induction xs as [|x xs IH]; simpl; [reflexivity |].
  destruct (p x); [reflexivity | exact IH].
Qed.

Lemma existsb_false {A} (p : A -> bool) (xs : list A) :
  existsb p xs = false <-> forall x, In x xs -> p x = false.
Proof.
  split.
  - intros H x Hin. destruct (p x) eqn:Hp; [| reflexivity].
    rewrite <- H. symmetry. apply existsb_exists. exists x. auto.
  - intros H. destruct (existsb p xs) eqn:He; [| reflexivity].
    apply existsb_exists in He as (x & Hin & Hp). rewrite (H x Hin) in Hp. discriminate.
Qed.

(** The checks of the form and the two look-ups imply that the unique
    constraints hold for the new row. *)
Lemma commit_user_fresh (name address hash : string) (st : app) :
  found (find_by_username name (users st)) = false ->
  found (find_by_email address (users st)) = false ->
  commit_user name address hash st
  = Some (set_users
            (users st
             ++ [{| User.id := next_key (map User.id (users st));
                    User.username := name;
                    User.email := address;
                    User.password_hash := hash;
                    User.created_at := clock (interp st) (clock_pos (interp st)) |}])
            (set_interp (tick 1 (interp st)) st)).
Proof.
  unfold find_by_username, find_by_email. rewrite !found_find. intros Hname Haddress.
  unfold commit_user.
  replace (existsb _ (users st)) with false; [reflexivity |].
  symmetry. apply existsb_false. intros u Hin.
  rewrite existsb_false in Hname, Haddress.
  rewrite (Hname u Hin), (Haddress u Hin). reflexivity.
Qed.

(** The two ways through [register]: every check passes and the user is
    stored, or nothing but the flashed messages changes. *)
Lemma register_cases (strip : string -> string)
    (generate_password_hash : string -> string -> string) (req : request) (st : app) :
  let username := strip (dict_get (form req) "username" "") in
  let email := strip (dict_get (form req) "email" "") in
  let password := dict_get (form req) "password" "" in
  let confirm_password := dict_get (form req) "confirm_password" "" in
  (current_user st = None /\ method req = POST /\
   is_empty username = false /\ is_empty email = false /\ is_empty password = false /\
   (py_len username <? 3)%nat = false /\ (py_len password <? 6)%nat = false /\
   String.eqb password confirm_password = true /\
   found (find_by_username username (users st)) = false /\
   found (find_by_email email (users st)) = false /\
   register strip generate_password_hash req st
   = (Redirect "main.login",
      flash "Registration successful! Please log in." "success"
        (set_users
           (users st
            ++ [{| User.id := next_key (map User.id (users st));
                   User.username := username;
                   User.email := email;
                   User.password_hash :=
                     generate_password_hash password (salts st (salt_pos st));
                   User.created_at := clock (interp st) (clock_pos (interp st)) |}])
           (set_interp (tick 1 (interp st)) (snd (set_password generate_password_hash password st))))))
  \/
  (fst (register strip generate_password_hash req st) <> Redirect "main.login" /\
   (snd (register strip generate_password_hash req st) = st \/
    exists text,
      snd (register strip generate_password_hash req st) = flash text "danger" st /\
      text <> "An error occurred. Please try again.")).
Proof.
  intros username email password confirm_password. unfold register.
  destruct (current_user st) as [user|]; [right; split; [discriminate | left; reflexivity] |].
  destruct (method req); [right; split; [discriminate | left; reflexivity] |].
  fold username email password confirm_password.
  destruct (is_empty username) eqn:H1;
    [right; split; [discriminate | right; eexists; split; [reflexivity | discriminate]] |].
  destruct (is_empty email) eqn:H2;
    [right; split; [discriminate | right; eexists; split; [reflexivity | discriminate]] |].
  destruct (is_empty password) eqn:H3;
    [right; split; [discriminate | right; eexists; split; [reflexivity | discriminate]] |].
  cbn [orb].
  destruct (py_len username <? 3)%nat eqn:H4;
    [right; split; [discriminate | right; eexists; split; [reflexivity | discriminate]] |].
  destruct (py_len password <? 6)%nat eqn:H5;
    [right; split; [discriminate | right; eexists; split; [reflexivity | discriminate]] |].
  destruct (String.eqb password confirm_password) eqn:H6;
    [| right; split; [discriminate | right; eexists; split; [reflexivity | discriminate]]].
  cbn [negb].
  destruct (found (find_by_username username (users st))) eqn:H7;
    [right; split; [discriminate | right; eexists; split; [reflexivity | discriminate]] |].
  destruct (found (find_by_email email (users st))) eqn:H8;
    [right; split; [discriminate | right; eexists; split; [reflexivity | discriminate]] |].
  left. repeat (split; [reflexivity |]).
  unfold set_password.
  rewrite commit_user_fresh by assumption. reflexivity.
Qed.

Lemma find_by_username_none (name : string) (us : list User.t) :
  found (find_by_username name us) = false
  <-> forall u, In u us -> User.username u <> name.
Proof.
  unfold find_by_username. rewrite found_find, existsb_false.
  split; intros H u Hin; specialize (H u Hin).
  - intros Heq. apply String.eqb_eq in Heq. congruence.
  - apply String.eqb_neq. exact H.
Qed.

Lemma find_by_email_none (address : string) (us : list User.t) :
  found (find_by_email address us) = false
  <-> forall u, In u us -> User.email u <> address.
Proof.
  unfold find_by_email. rewrite found_find, existsb_false.
  split; intros H u Hin; specialize (H u Hin).
  - intros Heq. apply String.eqb_eq in Heq. congruence.
  - apply String.eqb_neq. exact H.
Qed.

(** X10. A registration that passes every check stores exactly one user,
    after the others and under a key no user had: the stripped name and
    address, the hash of the password under the next salt, the reading of
    the clock.  The commit cannot violate the unique constraints, so the
    answer is the redirect to the login page; the messages are untouched
    and nobody is logged in by it. *)
Theorem register_stores_the_user (strip : string -> string)
    (generate_password_hash : string -> string -> string) (req : request) (st : app)
    (username email password : string) :
  current_user st = None ->
  method req = POST ->
  strip (dict_get (form req) "username" "") = username ->
  strip (dict_get (form req) "email" "") = email ->
  dict_get (form req) "password" "" = password ->
  dict_get (form req) "confirm_password" "" = password ->
  username <> "" -> email <> "" ->
  (3 <= py_len username)%nat ->
  (6 <= py_len password)%nat ->
  (forall u, In u (users st) -> User.username u <> username) ->
  (forall u, In u (users st) -> User.email u <> email) ->
  exists user st',
    register strip generate_password_hash req st = (Redirect "main.login", st') /\
    users st' = (users st ++ [user])%list /\
    ~ In (User.id user) (map User.id (users st)) /\
    User.username user = username /\
    User.email user = email /\
    User.password_hash user = generate_password_hash password (salts st (salt_pos st)) /\
    User.created_at user = clock (interp st) (clock_pos (interp st)) /\
    chat_messages st' = chat_messages st /\
    session_user_id st' = session_user_id st /\
    flashes st'
    = (flashes st ++ [("Registration successful! Please log in.", "success")])%list.
Proof.
  intros Huser Hmethod Hname Haddress Hpassword Hconfirm Hn He Hlen Hplen Hfree Hefree.
  destruct (register_cases strip generate_password_hash req st)
    as [(_ & _ & _ & _ & _ & _ & _ & _ & _ & _ & Hrun) | [Hrefused _]].
  - rewrite Hname, Haddress, Hpassword in Hrun. rewrite Hrun.
    eexists _, _. split; [reflexivity |].
    cbn [users chat_messages session_user_id flashes flash set_users set_interp
         set_password snd User.id User.username User.email User.password_hash
         User.created_at].
    split; [reflexivity |]. split; [apply next_key_fresh |].
    repeat (split; [reflexivity |]). reflexivity.
  - exfalso. apply Hrefused. unfold register.
    rewrite Huser, Hmethod, Hname, Haddress, Hpassword, Hconfirm.
    apply is_empty_false in Hn, He.
    assert (is_empty password = false) as Hp
      by (destruct password; [simpl in Hplen; lia | reflexivity]).
    rewrite Hn, He, Hp. cbn [orb].
    apply Nat.ltb_ge in Hlen, Hplen. rewrite Hlen, Hplen, String.eqb_refl. cbn [negb].
    apply find_by_username_none in Hfree. apply find_by_email_none in Hefree.
    rewrite Hfree, Hefree. unfold set_password.
    rewrite commit_user_fresh by assumption. reflexivity.
Qed.

Lemma register_stores_the_user_witness :
  exists user st',
    register ascii_strip sample_hash
      (post_form [("username", " carol "); ("email", "carol@example.org");
                  ("password", "opensesame"); ("confirm_password", "opensesame")])
      sample_app
    = (Redirect "main.login", st') /\
    users st' = [sample_user; sample_other_user; user] /\
    User.id user = 3 /\
    User.username user = "carol" /\
    User.password_hash user = "s1$opensesame".
Proof.
  destruct (register_stores_the_user ascii_strip sample_hash
              (post_form [("username", " carol "); ("email", "carol@example.org");
                          ("password", "opensesame"); ("confirm_password", "opensesame")])
              sample_app "carol" "carol@example.org" "opensesame")
    as (user & st' & Hrun & Husers & _ & Hname & _ & Hhash & _);
    [reflexivity | reflexivity | reflexivity | reflexivity | reflexivity | reflexivity
     | discriminate | discriminate | simpl; lia | simpl; lia
     | intros u [<- | [<- | []]]; discriminate
     | intros u [<- | [<- | []]]; discriminate |].
  exists user, st'. split; [exact Hrun |]. split; [exact Husers |].
  split; [| split; [exact Hname | exact Hhash]].
  vm_compute in Hrun. injection Hrun as <-.
  injection Husers as <-. reflexivity.
Defined.

(** X11. [register] answers the redirect to the login page exactly when
    nobody is logged in, the request is a POST and every check passes;
    in every other case the two tables, the session, the clock and the
    salts are as before, and the message of the failed commit is never
    flashed. *)
Theorem register_refuses_without_writing (strip : string -> string)
    (generate_password_hash : string -> string -> string) (req : request) (st : app) :
  let username := strip (dict_get (form req) "username" "") in
  let email := strip (dict_get (form req) "email" "") in
  let password := dict_get (form req) "password" "" in
  let result := register strip generate_password_hash req st in
  (fst result = Redirect "main.login"
   <-> current_user st = None /\ method req = POST /\
       username <> "" /\ email <> "" /\ password <> "" /\
       (3 <= py_len username)%nat /\ (6 <= py_len password)%nat /\
       password = dict_get (form req) "confirm_password" "" /\
       (forall u, In u (users st) -> User.username u <> username) /\
       (forall u, In u (users st) -> User.email u <> email)) /\
  (fst result <> Redirect "main.login" ->
   users (snd result) = users st /\
   chat_messages (snd result) = chat_messages st /\
   session_user_id (snd result) = session_user_id st /\
   interp (snd result) = interp st /\
   salt_pos (snd result) = salt_pos st) /\
  (forall text category,
      In (text, category) (flashes (snd result)) ->
      In (text, category) (flashes st) \/ text <> "An error occurred. Please try again.").
Proof.
  cbv zeta.
  destruct (register_cases strip generate_password_hash req st)
    as [(Huser & Hmethod & H1 & H2 & H3 & H4 & H5 & H6 & H7 & H8 & Hrun)
       | [Hrefused Hstate]].
  - rewrite Hrun. cbn [fst snd]. split; [| split].
    + split; [intros _ | reflexivity].
      apply is_empty_false in H1, H2, H3. apply Nat.ltb_ge in H4, H5.
      apply String.eqb_eq in H6.
      pose proof (proj1 (find_by_username_none _ _) H7).
      pose proof (proj1 (find_by_email_none _ _) H8).
      repeat (split; [assumption |]). assumption.
    + intros Hne. congruence.
    + intros text category Hin.
      cbn [flashes flash set_users set_interp set_password snd] in Hin.
      apply in_app_or in Hin as [Hin | [Heq | []]]; [left; exact Hin |].
      right. injection Heq as <- _. discriminate.
  - split; [| split].
    + split; [intros Heq; contradiction |].
      intros (Huser & Hmethod & H1 & H2 & H3 & H4 & H5 & H6 & H7 & H8).
      exfalso. apply Hrefused. unfold register.
      rewrite Huser, Hmethod, <- H6.
      apply is_empty_false in H1, H2, H3. rewrite H1, H2, H3. cbn [orb].
      apply Nat.ltb_ge in H4, H5. rewrite H4, H5, String.eqb_refl. cbn [negb].
      apply (proj2 (find_by_username_none _ _)) in H7.
      apply (proj2 (find_by_email_none _ _)) in H8.
      rewrite H7, H8. unfold set_password.
      rewrite commit_user_fresh by assumption. reflexivity.
    + intros _. destruct Hstate as [-> | (text & -> & _)]; repeat split; reflexivity.
    + intros text category Hin.
      destruct Hstate as [Hst | (text' & Hst & Hne)]; rewrite Hst in Hin.
      * left. exact Hin.
      * cbn [flashes flash] in Hin.
        apply in_app_or in Hin as [Hin | [Heq | []]]; [left; exact Hin |].
        right. injection Heq as <- _. exact Hne.
Qed.

(** ** [login] and [logout] *)

Lemma find_some_in {A} (p : A -> bool) (xs : list A) (x : A) :
  List.find p xs = Some x -> In x xs /\ p x = true.
Proof. apply find_some. Qed.

(** The two ways through [login]: the session is opened for the first
    user of that name, whose hash the checker accepts, or nothing but the
    flashed messages changes. *)
Lemma login_cases (strip : string -> string)
    (check_password_hash : string -> string -> bool) (req : request) (st : app) :
  let username := strip (dict_get (form req) "username" "") in
  let password := dict_get (form req) "password" "" in
  (exists user,
      current_user st = None /\ method req = POST /\
      is_empty username = false /\ is_empty password = false /\
      find_by_username username (users st) = Some user /\
      check_password_hash (User.password_hash user) password = true /\
      login strip check_password_hash req st
      = (match args req !! "next" with
         | Some next_page =>
             if is_empty next_page then Redirect "main.dashboard"
             else RedirectUrl next_page
         | None => Redirect "main.dashboard"
         end,
         set_session (Some (User.id user)) st))
  \/
  ((fst (login strip check_password_hash req st) = Render "index.html"
    \/ current_user st <> None) /\
   (snd (login strip check_password_hash req st) = st \/
    exists text, snd (login strip check_password_hash req st) = flash text "danger" st)).
Proof.
  intros username password. unfold login.
  destruct (current_user st) as [user|];
    [right; split; [right; discriminate | left; reflexivity] |].
  destruct (method req); [right; split; [left; reflexivity | left; reflexivity] |].
  fold username password.
  destruct (is_empty username) eqn:H1;
    [right; split; [left; reflexivity | right; eexists; reflexivity] |].
  destruct (is_empty password) eqn:H2;
    [right; split; [left; reflexivity | right; eexists; reflexivity] |].
  cbn [orb].
  destruct (find_by_username username (users st)) as [user|] eqn:Hfind;
    [| right; split; [left; reflexivity | right; eexists; reflexivity]].
  unfold check_password.
  destruct (check_password_hash (User.password_hash user) password) eqn:Hcheck;
    [| right; split; [left; reflexivity | right; eexists; reflexivity]].
  left. exists user. repeat (split; [reflexivity |]).
  split; [exact Hcheck |]. unfold login_user.
  destruct (args req !! "next") as [next_page|]; [destruct (is_empty next_page) |];
    reflexivity.
Qed.

(** X12. [login] never writes to a table, and it changes the session
    only to the key of a stored user who bears the posted name, stripped,
    and whose stored hash the checker accepts for the posted password. *)
Theorem login_checks_the_password (strip : string -> string)
    (check_password_hash : string -> string -> bool) (req : request) (st : app) :
  let st' := snd (login strip check_password_hash req st) in
  users st' = users st /\
  chat_messages st' = chat_messages st /\
  (session_user_id st' = session_user_id st \/
   exists user,
     In user (users st) /\
     User.username user = strip (dict_get (form req) "username" "") /\
     check_password_hash (User.password_hash user) (dict_get (form req) "password" "")
     = true /\
     session_user_id st' = Some (User.id user)).
Proof.
  intros st'. subst st'.
  destruct (login_cases strip check_password_hash req st)
    as [(user & _ & _ & _ & _ & Hfind & Hcheck & ->) | [_ [-> | (text & ->)]]];
    cbn [snd users chat_messages session_user_id set_session flash].
  - split; [reflexivity | split; [reflexivity |]]. right. exists user.
    apply find_some_in in Hfind as [Hin Hname]. apply String.eqb_eq in Hname.
    repeat split; assumption.
  - auto.
  - auto.
Qed.

Lemma find_app_fresh {A} (p : A -> bool) (xs : list A) (x : A) :
  (forall y, In y xs -> p y = false) -> p x = true ->
  List.find p (xs ++ [x]) = Some x.
Proof.
  intros Hxs Hx. induction xs as [|y xs IH]; simpl.
  - rewrite Hx. reflexivity.
  - rewrite (Hxs y) by (left; reflexivity). apply IH.
    intros z Hz. apply Hxs. right. exact Hz.
Qed.

Lemma fresh_key_matches_none (us : list User.t) :
  forall u, In u us -> (User.id u =? next_key (map User.id us)) = false.
Proof.
  intros u Hin. apply Z.eqb_neq. intros Heq.
  apply (next_key_fresh (map User.id us)). rewrite <- Heq. apply in_map. exact Hin.
Qed.

(** X13. Registration and login fit together: in a consistent state,
    when the checker accepts, for every password and salt, the hash
    generated from that password, a user whose registration was answered
    with the redirect to the login page and who then posts the same name
    and password is logged in as the user just stored. *)
Theorem registered_user_can_log_in (strip : string -> string)
    (generate_password_hash : string -> string -> string)
    (check_password_hash : string -> string -> bool)
    (req req' : request) (st : app) :
  (forall password salt,
      check_password_hash (generate_password_hash password salt) password = true) ->
  consistent st ->
  fst (register strip generate_password_hash req st) = Redirect "main.login" ->
  method req' = POST ->
  dict_get (form req') "username" "" = dict_get (form req) "username" "" ->
  dict_get (form req') "password" "" = dict_get (form req) "password" "" ->
  let st1 := snd (register strip generate_password_hash req st) in
  let st2 := snd (login strip check_password_hash req' st1) in
  exists user,
    current_user st2 = Some user /\
    users st2 = (users st ++ [user])%list /\
    User.username user = strip (dict_get (form req) "username" "") /\
    fst (login strip check_password_hash req' st1) <> Render "index.html".
Proof.
  intros Hhash Hconsistent Hok Hmethod Hname Hpassword st1 st2.
  destruct (register_cases strip generate_password_hash req st)
    as [(Huser & _ & H1 & _ & H3 & _ & _ & _ & H7 & _ & Hrun) | [Hrefused _]];
    [| contradiction].
  assert (session_user_id st = None) as Hsession.
  { destruct Hconsistent as (_ & _ & _ & _ & _ & Hs).
    unfold current_user in Huser.
    destruct (session_user_id st) as [uid|]; [| reflexivity].
    exfalso. specialize (Hs uid eq_refl).
    apply in_map_iff in Hs as (u & Hid & Hin).
    apply (find_none _ _ Huser) in Hin. rewrite Hid, Z.eqb_refl in Hin. discriminate. }
  match type of Hrun with
  | _ = (_, flash _ _ (set_users (_ ++ [?u]) _)) => set (user := u) in *
  end.
  assert (login strip check_password_hash req' st1
          = (match args req' !! "next" with
             | Some next_page =>
                 if is_empty next_page then Redirect "main.dashboard"
                 else RedirectUrl next_page
             | None => Redirect "main.dashboard"
             end,
             set_session (Some (User.id user)) st1)) as Hlogin.
  { unfold login.
    assert (current_user st1 = None) as ->
      by (subst st1; rewrite Hrun; unfold current_user; cbn; rewrite Hsession; reflexivity).
    rewrite Hmethod, Hname, Hpassword, H1, H3. cbn [orb].
    assert (find_by_username (strip (dict_get (form req) "username" "")) (users st1)
            = Some user) as ->.
    { subst st1. rewrite Hrun. cbn [snd users flash set_users].
      apply find_app_fresh; [| apply String.eqb_refl].
      unfold find_by_username in H7. rewrite found_find in H7.
      apply existsb_false. exact H7. }
    unfold check_password. cbn [User.password_hash user]. rewrite Hhash.
    unfold login_user.
    destruct (args req' !! "next") as [next_page|]; [destruct (is_empty next_page) |];
      reflexivity. }
  exists user. subst st2. rewrite Hlogin. cbn [fst snd].
  assert (users st1 = (users st ++ [user])%list) as Husers
    by (subst st1; rewrite Hrun; reflexivity).
  split; [| split; [exact Husers | split; [reflexivity |]]].
  - unfold current_user. cbn [session_user_id set_session users]. rewrite Husers.
    apply find_app_fresh; [| apply Z.eqb_refl].
    apply fresh_key_matches_none.
  - destruct (args req' !! "next") as [next_page|]; [destruct (is_empty next_page) |];
      discriminate.
Qed.

Lemma sample_app_consistent : consistent sample_app.
Proof.
  unfold consistent.
  change (users sample_app) with [sample_user; sample_other_user].
  change (session_user_id sample_app) with (@None Z).
  change (map id (chat_messages sample_app)) with [1; 2; 3; 4; 5].
  cbn [map User.id User.username User.email sample_user sample_other_user].
  split; [| split; [| split; [| split; [| split]]]].
  - repeat (constructor; [rewrite list_elem_of_In; cbn; intuition congruence |]). constructor.
  - repeat (constructor; [rewrite list_elem_of_In; cbn; intuition congruence |]). constructor.
  - repeat (constructor; [rewrite list_elem_of_In; cbn; intuition congruence |]). constructor.
  - repeat (constructor; [rewrite list_elem_of_In; cbn; intuition congruence |]). constructor.
  - repeat (constructor; [cbn; tauto |]). constructor.
  - intros uid H. discriminate.
Qed.

Lemma ends_with_append (prefix w : string) : ends_with (prefix ++ w) w = true.
Proof.
  induction prefix as [|c prefix IH].
  - change ("" ++ w) with w.
    destruct w; unfold ends_with; fold ends_with; rewrite String.eqb_refl; reflexivity.
  - change (String c prefix ++ w) with (String c (prefix ++ w)).
    unfold ends_with; fold ends_with. rewrite IH. apply orb_true_r.
Qed.

Lemma sample_hash_checks (password salt : string) :
  sample_check (sample_hash password salt) password = true.
Proof. apply ends_with_append. Qed.

Lemma registered_user_can_log_in_witness :
  exists user,
    current_user
      (snd (login ascii_strip sample_check
              (post_form [("username", "carol"); ("password", "opensesame")])
              (snd (register ascii_strip sample_hash
                      (post_form [("username", "carol"); ("email", "carol@example.org");
                                  ("password", "opensesame");
                                  ("confirm_password", "opensesame")])
                      sample_app))))
    = Some user /\
    User.username user = "carol".
Proof.
  destruct (registered_user_can_log_in ascii_strip sample_hash sample_check
              (post_form [("username", "carol"); ("email", "carol@example.org");
                          ("password", "opensesame"); ("confirm_password", "opensesame")])
              (post_form [("username", "carol"); ("password", "opensesame")])
              sample_app sample_hash_checks sample_app_consistent)
    as (user & Huser & _ & Hname & _);
    [reflexivity | reflexivity | reflexivity | reflexivity |].
  exists user. split; [exact Huser | exact Hname].
Defined.

(** ** What a request can do to the state *)

Lemma index_state (st : app) : snd (index st) = st.
Proof. unfold index. destruct (current_user st); reflexivity. Qed.

Lemma logout_state (st : app) :
  snd (logout st)
  = match current_user st with
    | Some _ => flash "You have been logged out successfully." "info" (logout_user st)
    | None => flash "Please log in to access this page." "info" st
    end.
Proof. unfold logout, login_required. destruct (current_user st); reflexivity. Qed.

Lemma dashboard_state (order_by_timestamp_desc : list ChatMessage -> list ChatMessage)
    (st : app) :
  snd (dashboard order_by_timestamp_desc st)
  = match current_user st with
    | Some _ => st
    | None => flash "Please log in to access this page." "info" st
    end.
Proof.
  destruct (current_user st) as [user|] eqn:Huser.
  - destruct (sentiment_views_never_fail order_by_timestamp_desc st user Huser)
      as (_ & stats & -> & _).
    reflexivity.
  - unfold dashboard. rewrite (login_required_anonymous _ _ Huser). reflexivity.
Qed.

Lemma chat_state (st : app) :
  snd (chat st)
  = match current_user st with
    | Some _ => st
    | None => flash "Please log in to access this page." "info" st
    end.
Proof. unfold chat, login_required. destruct (current_user st); reflexivity. Qed.

Lemma chat_history_state (order_by_timestamp_desc : list ChatMessage -> list ChatMessage)
    (st : app) :
  snd (chat_history order_by_timestamp_desc st)
  = match current_user st with
    | Some _ => st
    | None => flash "Please log in to access this page." "info" st
    end.
Proof. unfold chat_history, login_required. destruct (current_user st); reflexivity. Qed.

Lemma analytics_sentiment_state (st : app) :
  snd (analytics_sentiment st)
  = match current_user st with
    | Some _ => st
    | None => flash "Please log in to access this page." "info" st
    end.
Proof.
  destruct (current_user st) as [user|] eqn:Huser.
  - destruct (analytics_sentiment_run st user Huser) as (chart & -> & _). reflexivity.
  - unfold analytics_sentiment. rewrite (login_required_anonymous _ _ Huser). reflexivity.
Qed.

Lemma analytics_timeline_route_state (st : app) :
  exists w,
    snd (analytics_timeline_route st)
    = match current_user st with
      | Some _ => set_interp w st
      | None => flash "Please log in to access this page." "info" st
      end.
Proof.
  unfold analytics_timeline_route, login_required.
  destruct (current_user st) as [user|]; [| exists (interp st); reflexivity].
  destruct (analytics_timeline (User.id user) (chat_messages st) (interp st)) as [answer w].
  exists w. reflexivity.
Qed.

(** Every request leaves the tables as they were, or appends one user
    under a fresh key, name and address while nobody is logged in, or
    appends one message of the logged-in user under a fresh key and with
    a label of the enumeration, the label and the rounded score of some
    text; the session changes only to nobody or to a stored user. *)
Lemma handle_effect (polarity_of : string -> float) (lower strip : string -> string)
    (generate_password_hash : string -> string -> string)
    (check_password_hash : string -> string -> bool)
    (order_by_timestamp_desc : list ChatMessage -> list ChatMessage)
    (c : call) (st : app) :
  let st' := handle polarity_of lower strip generate_password_hash check_password_hash
               order_by_timestamp_desc c st in
  (users st' = users st /\ chat_messages st' = chat_messages st /\
   (session_user_id st' = session_user_id st \/ session_user_id st' = None \/
    exists user, In user (users st) /\ session_user_id st' = Some (User.id user)))
  \/
  (exists user,
      current_user st = None /\
      users st' = (users st ++ [user])%list /\
      User.id user = next_key (map User.id (users st)) /\
      (forall u, In u (users st) -> User.username u <> User.username user) /\
      (forall u, In u (users st) -> User.email u <> User.email user) /\
      chat_messages st' = chat_messages st /\
      session_user_id st' = session_user_id st)
  \/
  (exists user msg,
      current_user st = Some user /\
      chat_messages st' = (chat_messages st ++ [msg])%list /\
      id msg = next_key (map id (chat_messages st)) /\
      user_id msg = User.id user /\
      known_label (sentiment msg) = true /\
      users st' = users st /\
      session_user_id st' = session_user_id st /\
      exists text,
        sentiment msg = classify (polarity_of text) /\
        sentiment_score msg = py_round (polarity_of text) 4).
Proof.
  intros st'. subst st'.
  destruct c as [| req | req | | | | req | | |]; cbn [handle].
  - rewrite index_state. left. auto.
  - destruct (register_cases strip generate_password_hash req st)
      as [(Huser & _ & _ & _ & _ & _ & _ & _ & H7 & H8 & ->) | [_ [-> | (text & -> & _)]]].
    + right. left. eexists. split; [exact Huser |].
      cbn [snd users chat_messages session_user_id flash set_users set_interp set_password
           User.id User.username User.email].
      split; [reflexivity | split; [reflexivity |]].
      split; [exact (proj1 (find_by_username_none _ _) H7) |].
      split; [exact (proj1 (find_by_email_none _ _) H8) |]. auto.
    + left. auto.
    + left. cbn. auto.
  - destruct (login_cases strip check_password_hash req st)
      as [(user & _ & _ & _ & _ & Hfind & _ & ->) | [_ [-> | (text & ->)]]].
    + left. cbn [snd users chat_messages session_user_id set_session].
      split; [reflexivity | split; [reflexivity |]]. right. right. exists user.
      apply find_some_in in Hfind as [Hin _]. auto.
    + left. auto.
    + left. cbn. auto.
  - rewrite logout_state. left. destruct (current_user st); cbn; auto.
  - rewrite dashboard_state. left. destruct (current_user st); cbn; auto.
  - rewrite chat_state. left. destruct (current_user st); cbn; auto.
  - destruct (current_user st) as [user|] eqn:Huser.
    + pose proof (chat_api_cases polarity_of lower strip req st user Huser) as Hcases.
      destruct (json req) as [data|]; [| rewrite Hcases; left; auto].
      destruct (dict_get data "message" (JString "")) as [text|];
        [| rewrite Hcases; left; auto].
      destruct (is_empty (strip text)); [rewrite Hcases; left; auto |].
      cbv zeta in Hcases. destruct Hcases as (base & w' & _ & _ & ->).
      right. right. eexists user, _. split; [reflexivity |].
      cbn [snd users chat_messages session_user_id set_chat_messages set_interp
           id user_id sentiment sentiment_score].
      split; [reflexivity | split; [reflexivity | split; [reflexivity |]]].
      split; [apply classify_known |].
      split; [reflexivity | split; [reflexivity |]].
      exists (strip text). split; reflexivity.
    + unfold chat_api. rewrite (login_required_anonymous _ _ Huser). left. cbn. auto.
  - rewrite chat_history_state. left. destruct (current_user st); cbn; auto.
  - rewrite analytics_sentiment_state. left. destruct (current_user st); cbn; auto.
  - destruct (analytics_timeline_route_state st) as (w & ->).
    left. destruct (current_user st); cbn; auto.
Qed.

(** ** Invariants of the application *)

Lemma fill_days_succeeds indices :
  forall daily cnt acc w,
    holds_counts daily cnt ->
    exists data w',
      fill_days indices daily acc w = (Ok data, w') /\
      length (dates data) = (length (dates acc) + length indices)%nat.
Proof.
  induction indices as [|i rest IH]; intros daily cnt acc w Hinv.
  - exists acc, w. split; [reflexivity | simpl; lia].
  - rewrite (fill_days_step i rest daily cnt acc w Hinv). cbv zeta.
    match goal with
    | |- context [fill_days rest daily ?acc' ?w'] =>
        destruct (IH daily cnt acc' w' Hinv) as (data & w'' & -> & Hlen)
    end.
    exists data, w''. split; [reflexivity |].
    rewrite Hlen. cbn [dates length]. rewrite length_app. simpl. lia.
Qed.

(** On a table whose labels are all known the timeline is served, at
    every reading of the clock. *)
Lemma analytics_timeline_succeeds (current_user_id : Z) (table : list ChatMessage)
    (w : world) :
  Forall (fun msg => known_label (sentiment msg) = true) table ->
  exists data w',
    analytics_timeline current_user_id table w = (Success data, w') /\
    length (dates data) = 7%nat.
Proof.
  intros Hknown. unfold analytics_timeline, timeline_data.
  unfold bind at 1. unfold utcnow at 1.
  set (recent := recent_messages _ _ table).
  assert (Forall (fun msg => known_label (sentiment msg) = true) recent) as Hrecent.
  { apply List.Forall_forall. intros msg Hin. apply filter_In in Hin as [Hin _].
    revert msg Hin. apply List.Forall_forall. exact Hknown. }
  unfold bind at 1, lift at 1.
  destruct (group_by_date_counts recent ∅ _ holds_counts_empty Hrecent)
    as (daily & -> & Hinv).
  match goal with
  | |- context [fill_days ?ix daily ?acc ?w'] =>
      destruct (fill_days_succeeds ix daily _ acc w' Hinv) as (data & w'' & -> & Hlen)
  end.
  exists data, w''. split; [reflexivity | exact Hlen].
Qed.

Lemma serve_cons (polarity_of : string -> float) (lower strip : string -> string)
    (generate_password_hash : string -> string -> string)
    (check_password_hash : string -> string -> bool)
    (order_by_timestamp_desc : list ChatMessage -> list ChatMessage)
    (c : call) (calls : list call) (st : app) :
  serve polarity_of lower strip generate_password_hash check_password_hash
    order_by_timestamp_desc (c :: calls) st
  = serve polarity_of lower strip generate_password_hash check_password_hash
      order_by_timestamp_desc calls
      (handle polarity_of lower strip generate_password_hash check_password_hash
         order_by_timestamp_desc c st).
Proof. reflexivity. Qed.

(** X14. The application stores no label but the three of the
    enumeration: if every stored label is one of them, this is still so
    after any sequence of requests to any routes, and the timeline of
    whoever is then logged in is served, with its seven dates, instead of
    failing on a label it cannot count. *)
Theorem stored_labels_stay_known (polarity_of : string -> float)
    (lower strip : string -> string)
    (generate_password_hash : string -> string -> string)
    (check_password_hash : string -> string -> bool)
    (order_by_timestamp_desc : list ChatMessage -> list ChatMessage)
    (calls : list call) (st : app) :
  labels_known st ->
  let st' := serve polarity_of lower strip generate_password_hash check_password_hash
               order_by_timestamp_desc calls st in
  labels_known st' /\
  forall user,
    current_user st' = Some user ->
    exists data st'',
      analytics_timeline_route st' = (Allowed (Success data), st'') /\
      length (dates data) = 7%nat.
Proof.
  intros Hknown st'.
  assert (labels_known st') as Hknown'.
  { subst st'. revert st Hknown.
    induction calls as [|c calls IH]; intros st Hknown; [exact Hknown |].
    rewrite serve_cons. apply IH. unfold labels_known in *.
    destruct (handle_effect polarity_of lower strip generate_password_hash
                check_password_hash order_by_timestamp_desc c st)
      as [(_ & -> & _) | [(user & _ & _ & _ & _ & _ & -> & _)
                         | (user & msg & _ & -> & _ & _ & Hlabel & _)]];
      [exact Hknown | exact Hknown |].
    apply Forall_app. split; [exact Hknown |]. constructor; [exact Hlabel | constructor]. }
  split; [exact Hknown' |].
  intros user Huser. unfold analytics_timeline_route.
  rewrite (login_required_user _ _ _ Huser).
  destruct (analytics_timeline_succeeds (User.id user) (chat_messages st') (interp st')
              Hknown') as (data & w' & Hrun & Hlen).
  rewrite Hrun. cbn [fst snd]. eexists _, _. split; [reflexivity | exact Hlen].
Qed.

Lemma stored_labels_stay_known_witness :
  exists data st'',
    analytics_timeline_route
      (serve sample_polarity ascii_lower ascii_strip sample_hash sample_check sort_desc
         [Login (post_form [("username", "alice"); ("password", "secret1")]);
          ChatApi (post_json [("message", JString "not bad at all")])]
         sample_app)
    = (Allowed (Success data), st'') /\
    length (dates data) = 7%nat.
Proof.
  apply (stored_labels_stay_known sample_polarity ascii_lower ascii_strip sample_hash
           sample_check sort_desc
           [Login (post_form [("username", "alice"); ("password", "secret1")]);
            ChatApi (post_json [("message", JString "not bad at all")])]
           sample_app) with (user := sample_user).
  - unfold labels_known. repeat (constructor; [reflexivity |]). constructor.
  - reflexivity.
Defined.

Lemma next_key_not_in {A} (key : A -> Z) (rows : list A) (row : A) :
  In row rows -> key row <> next_key (map key rows).
Proof.
  intros Hin Heq. apply (next_key_fresh (map key rows)). rewrite <- Heq.
  apply in_map. exact Hin.
Qed.

Lemma NoDup_snoc {A} (xs : list A) (x : A) :
  NoDup xs -> ~ In x xs -> NoDup (xs ++ [x]).
Proof.
  intros Hxs Hx. apply NoDup_app. split; [exact Hxs |].
  split; [| apply NoDup_singleton].
  intros y Hy Hin. apply list_elem_of_singleton in Hin. subst y.
  apply Hx. apply list_elem_of_In. exact Hy.
Qed.

(** One request keeps the tables and the session consistent. *)
Lemma handle_consistent (polarity_of : string -> float) (lower strip : string -> string)
    (generate_password_hash : string -> string -> string)
    (check_password_hash : string -> string -> bool)
    (order_by_timestamp_desc : list ChatMessage -> list ChatMessage)
    (c : call) (st : app) :
  consistent st ->
  consistent (handle polarity_of lower strip generate_password_hash check_password_hash
                order_by_timestamp_desc c st).
Proof.
  intros (Hids & Hnames & Hemails & Hkeys & Hforeign & Hsession).
  destruct (handle_effect polarity_of lower strip generate_password_hash
              check_password_hash order_by_timestamp_desc c st)
    as [(Hu & Hm & Hs)
       | [(user & _ & Hu & Hid & Hname & Hemail & Hm & Hs)
         | (user & msg & Huser & Hm & Hid & Howner & _ & Hu & Hs & _)]];
    unfold consistent; rewrite Hu, Hm.
  - repeat (split; [assumption |]).
    intros uid Huid. destruct Hs as [Hs | [Hs | (user & Hin & Hs)]].
    + apply Hsession. congruence.
    + congruence.
    + rewrite Hs in Huid. injection Huid as <-. apply in_map. exact Hin.
  - rewrite !map_app. cbn [map].
    split; [| split; [| split; [| split; [| split]]]].
    + apply NoDup_snoc; [exact Hids |]. rewrite Hid. apply next_key_fresh.
    + apply NoDup_snoc; [exact Hnames |]. intros Hin.
      apply in_map_iff in Hin as (u & Heq & Hin). exact (Hname u Hin Heq).
    + apply NoDup_snoc; [exact Hemails |]. intros Hin.
      apply in_map_iff in Hin as (u & Heq & Hin). exact (Hemail u Hin Heq).
    + exact Hkeys.
    + revert Hforeign. apply List.Forall_impl. intros m Hin. apply in_or_app. left. exact Hin.
    + intros uid Huid. apply in_or_app. left. apply Hsession. congruence.
  - rewrite !map_app. cbn [map].
    split; [exact Hids | split; [exact Hnames | split; [exact Hemails |]]].
    split; [| split].
    + apply NoDup_snoc; [exact Hkeys |]. rewrite Hid. apply next_key_fresh.
    + apply Forall_app. split; [exact Hforeign |].
      constructor; [| constructor]. rewrite Howner.
      unfold current_user in Huser. destruct (session_user_id st) as [uid|]; [| discriminate].
      apply find_some_in in Huser as [Hin _]. apply in_map. exact Hin.
    + intros uid Huid. apply Hsession. congruence.
Qed.

(** X15. What the schema asks for is an invariant of the application:
    if the keys, the user names and the addresses are unique, every
    message belongs to a stored user and the session, if open, is that of
    a stored user, then the same holds after any sequence of requests to
    any routes. *)
Theorem requests_keep_the_tables_consistent (polarity_of : string -> float)
    (lower strip : string -> string)
    (generate_password_hash : string -> string -> string)
    (check_password_hash : string -> string -> bool)
    (order_by_timestamp_desc : list ChatMessage -> list ChatMessage)
    (calls : list call) (st : app) :
  consistent st ->
  consistent (serve polarity_of lower strip generate_password_hash check_password_hash
                order_by_timestamp_desc calls st).
Proof.
  revert st. induction calls as [|c calls IH]; intros st Hconsistent; [exact Hconsistent |].
  rewrite serve_cons. apply IH. apply handle_consistent. exact Hconsistent.
Qed.

Lemma requests_keep_the_tables_consistent_witness :
  consistent
    (serve sample_polarity ascii_lower ascii_strip sample_hash sample_check sort_desc
       [Register (post_form [("username", "carol"); ("email", "carol@example.org");
                             ("password", "opensesame");
                             ("confirm_password", "opensesame")]);
        Login (post_form [("username", "carol"); ("password", "opensesame")]);
        ChatApi (post_json [("message", JString "good morning")]);
        Logout]
       sample_app).
Proof.
  apply (requests_keep_the_tables_consistent sample_polarity ascii_lower ascii_strip
           sample_hash sample_check sort_desc).
  exact sample_app_consistent.
Defined.

(** ** Who can see and change what *)

(** X16. Nothing stored is ever deleted or altered: after any sequence
    of requests to any routes the two tables are the former tables,
    followed by new rows, at most one for each request. *)
Theorem nothing_stored_is_lost (polarity_of : string -> float)
    (lower strip : string -> string)
    (generate_password_hash : string -> string -> string)
    (check_password_hash : string -> string -> bool)
    (order_by_timestamp_desc : list ChatMessage -> list ChatMessage)
    (calls : list call) (st : app) :
  let st' := serve polarity_of lower strip generate_password_hash check_password_hash
               order_by_timestamp_desc calls st in
  exists new_users new_messages,
    users st' = (users st ++ new_users)%list /\
    chat_messages st' = (chat_messages st ++ new_messages)%list /\
    (length new_users + length new_messages <= length calls)%nat.
Proof.
  cbv zeta. revert st. induction calls as [|c calls IH]; intros st.
  - exists [], []. rewrite !app_nil_r. repeat split. simpl. lia.
  - rewrite serve_cons.
    destruct (IH (handle polarity_of lower strip generate_password_hash
                    check_password_hash order_by_timestamp_desc c st))
      as (us & ms & -> & -> & Hlen).
    destruct (handle_effect polarity_of lower strip generate_password_hash
                check_password_hash order_by_timestamp_desc c st)
      as [(-> & -> & _) | [(user & _ & -> & _ & _ & _ & -> & _)
                         | (user & msg & _ & -> & _ & _ & _ & -> & _)]].
    + exists us, ms. repeat split. simpl. lia.
    + exists (user :: us), ms. rewrite <- app_assoc. repeat split. simpl. lia.
    + exists us, (msg :: ms). rewrite <- app_assoc. repeat split. simpl. lia.
Qed.

(** X17. The rows of a user change only by a request of that user: a
    request made while somebody else, or nobody, is logged in leaves the
    rows the user owns as they were, whatever the route and the request. *)
Theorem rows_change_only_by_their_owner (polarity_of : string -> float)
    (lower strip : string -> string)
    (generate_password_hash : string -> string -> string)
    (check_password_hash : string -> string -> bool)
    (order_by_timestamp_desc : list ChatMessage -> list ChatMessage)
    (c : call) (st : app) (uid : Z) :
  (forall user, current_user st = Some user -> User.id user <> uid) ->
  owned_by uid
    (chat_messages (handle polarity_of lower strip generate_password_hash
                      check_password_hash order_by_timestamp_desc c st))
  = owned_by uid (chat_messages st).
Proof.
  intros Hother.
  destruct (handle_effect polarity_of lower strip generate_password_hash
              check_password_hash order_by_timestamp_desc c st)
    as [(_ & -> & _) | [(user & _ & _ & _ & _ & _ & -> & _)
                       | (user & msg & Huser & -> & _ & Howner & _)]];
    [reflexivity | reflexivity |].
  rewrite owned_by_app. unfold owned_by at 2. cbn [List.filter].
  rewrite Howner. apply Hother in Huser. apply Z.eqb_neq in Huser. rewrite Huser.
  apply app_nil_r.
Qed.

Lemma rows_change_only_by_their_owner_witness :
  owned_by 2
    (chat_messages (handle sample_polarity ascii_lower ascii_strip sample_hash
                      sample_check sort_desc
                      (ChatApi (post_json [("message", JString "hello there")]))
                      sample_session))
  = owned_by 2 (chat_messages sample_session).
Proof.
  apply (rows_change_only_by_their_owner sample_polarity ascii_lower ascii_strip
           sample_hash sample_check sort_desc).
  intros user Huser. injection Huser as <-. discriminate.
Defined.

Lemma recent_messages_owned (uid : Z) (week_ago : datetime) (table : list ChatMessage) :
  recent_messages uid week_ago table
  = List.filter (fun msg => week_ago <=? timestamp msg) (owned_by uid table).
Proof.
  unfold recent_messages, owned_by.
  induction table as [|msg table IH]; cbn [List.filter]; [reflexivity |].
  destruct (user_id msg =? uid); cbn [andb List.filter]; rewrite IH; reflexivity.
Qed.

(** X18. What a user is shown depends on the stored messages only
    through the rows this user owns: in two states with the same logged-in
    user, the same rows of that user and the same clock and generator,
    the history, the chart, the dashboard and the timeline are the same,
    whatever the other users have stored. *)
Theorem views_show_own_rows_only
    (order_by_timestamp_desc : list ChatMessage -> list ChatMessage)
    (st1 st2 : app) (user : User.t) :
  current_user st1 = Some user ->
  current_user st2 = Some user ->
  owned_by (User.id user) (chat_messages st1)
  = owned_by (User.id user) (chat_messages st2) ->
  interp st1 = interp st2 ->
  fst (chat_history order_by_timestamp_desc st1)
  = fst (chat_history order_by_timestamp_desc st2) /\
  fst (analytics_sentiment st1) = fst (analytics_sentiment st2) /\
  fst (dashboard order_by_timestamp_desc st1)
  = fst (dashboard order_by_timestamp_desc st2) /\
  fst (analytics_timeline_route st1) = fst (analytics_timeline_route st2).
Proof.
  intros Huser1 Huser2 Hrows Hinterp.
  unfold chat_history, analytics_sentiment, dashboard, analytics_timeline_route.
  rewrite !(login_required_user _ _ _ Huser1), !(login_required_user _ _ _ Huser2).
  cbn [fst]. unfold run. rewrite Hrows, Hinterp.
  split; [reflexivity |].
  destruct (SentimentStats.calculate_statistics _ (interp st2)) as [[stats | e] w].
  - split; [reflexivity | split; [reflexivity |]].
    unfold analytics_timeline, timeline_data.
    unfold bind at 1 3. unfold utcnow at 1 2.
    rewrite !recent_messages_owned, Hrows.
    destruct (bind _ _ _) as [[data | e] w']; reflexivity.
  - split; [reflexivity | split; [reflexivity |]].
    unfold analytics_timeline, timeline_data.
    unfold bind at 1 3. unfold utcnow at 1 2.
    rewrite !recent_messages_owned, Hrows.
    destruct (bind _ _ _) as [[data | e'] w']; reflexivity.
Qed.

Lemma views_show_own_rows_only_witness :
  fst (analytics_timeline_route sample_session)
  = fst (analytics_timeline_route
           (set_chat_messages
              (chat_messages sample_session
               ++ [with_key 6 (record 2 "positive" sample_reference)])
              sample_session)).
Proof.
  apply (views_show_own_rows_only sort_desc sample_session
           (set_chat_messages
              (chat_messages sample_session
               ++ [with_key 6 (record 2 "positive" sample_reference)])
              sample_session)
           sample_user); reflexivity.
Defined.

(** X19. After [logout], from whatever state, nobody is logged in and
    the two tables are as before; each of the other protected routes then
    turns the request away, and [chat_api] stores nothing and reads
    neither the clock nor the generator. *)
Theorem logout_closes_the_protected_routes (polarity_of : string -> float)
    (lower strip : string -> string)
    (order_by_timestamp_desc : list ChatMessage -> list ChatMessage)
    (req : request) (st : app) :
  let st' := snd (logout st) in
  current_user st' = None /\
  users st' = users st /\
  chat_messages st' = chat_messages st /\
  fst (dashboard order_by_timestamp_desc st') = Unauthorized /\
  fst (chat st') = Unauthorized /\
  fst (chat_api polarity_of lower strip req st') = Unauthorized /\
  fst (chat_history order_by_timestamp_desc st') = Unauthorized /\
  fst (analytics_sentiment st') = Unauthorized /\
  fst (analytics_timeline_route st') = Unauthorized /\
  chat_messages (snd (chat_api polarity_of lower strip req st')) = chat_messages st /\
  interp (snd (chat_api polarity_of lower strip req st')) = interp st.
Proof.
  intros st'.
  assert (current_user st' = None /\ users st' = users st /\
          chat_messages st' = chat_messages st /\ interp st' = interp st)
    as (Huser & Hu & Hm & Hi).
  { subst st'. rewrite logout_state.
    destruct (current_user st) eqn:Huser; cbn; auto. }
  split; [exact Huser | split; [exact Hu | split; [exact Hm |]]].
  unfold dashboard, chat, chat_api, chat_history, analytics_sentiment,
    analytics_timeline_route.
  rewrite !(login_required_anonymous _ _ Huser). cbn [fst snd chat_messages interp flash].
  rewrite Hm, Hi. repeat split.
Qed.

(** ** [chat_history] *)

Lemma newest_first_app (older newer : list ChatMessage) :
  newest_first (newer ++ older)
  <-> newest_first newer /\ newest_first older /\
      forall x y, In x newer -> In y older -> timestamp y <= timestamp x.
Proof.
  induction newer as [|msg newer IH]; cbn [newest_first List.app].
  - split; [intros H; split; [exact I | split; [exact H |]]; intros x y [] | tauto].
  - rewrite IH, Forall_app. split.
    + intros ((Hnewer & Holder) & Hn & Ho & Hcross).
      split; [split; assumption |]. split; [exact Ho |].
      intros x y [<- | Hx] Hy.
      * revert y Hy. apply List.Forall_forall. exact Holder.
      * apply Hcross; assumption.
    + intros ((Hnewer & Hn) & Ho & Hcross).
      split; [split; [exact Hnewer |] |].
      * apply List.Forall_forall. intros y Hy. apply Hcross; [left; reflexivity | exact Hy].
      * split; [exact Hn | split; [exact Ho |]].
        intros x y Hx Hy. apply Hcross; [right; exact Hx | exact Hy].
Qed.

(** X20. When the ordered query returns the rows it is given, newest
    first, a logged-in user is answered the history: the user's own rows,
    fifty of them or all if there are fewer, the oldest of them first, and
    none of the rows left out is newer than one that is shown. *)
Theorem chat_history_shows_the_newest_fifty
    (order_by_timestamp_desc : list ChatMessage -> list ChatMessage)
    (st : app) (user : User.t) :
  (forall rows, Permutation (order_by_timestamp_desc rows) rows) ->
  (forall rows, newest_first (order_by_timestamp_desc rows)) ->
  current_user st = Some user ->
  let own := owned_by (User.id user) (chat_messages st) in
  exists shown hidden,
    chat_history order_by_timestamp_desc st = (Allowed (Success (map to_dict shown)), st) /\
    Permutation (shown ++ hidden) own /\
    length shown = Nat.min 50 (length own) /\
    newest_first (rev shown) /\
    (forall x y, In x shown -> In y hidden -> timestamp y <= timestamp x) /\
    (forall msg, In msg shown -> In msg (chat_messages st) /\ user_id msg = User.id user).
Proof.
  intros Hperm Hsorted Huser own.
  set (ordered := order_by_timestamp_desc own).
  exists (rev (firstn 50 ordered)), (skipn 50 ordered).
  assert (Permutation (rev (firstn 50 ordered) ++ skipn 50 ordered) own) as Hshown.
  { rewrite <- (Hperm own). fold ordered.
    rewrite <- (firstn_skipn 50 ordered) at 3.
    apply Permutation_app_tail. symmetry. apply Permutation_rev. }
  pose proof (Hsorted own) as Hordered. fold ordered in Hordered.
  rewrite <- (firstn_skipn 50 ordered) in Hordered.
  apply newest_first_app in Hordered as (Hfirst & _ & Hcross).
  split; [| split; [exact Hshown | split; [| split; [| split]]]].
  - unfold chat_history. rewrite (login_required_user _ _ _ Huser). reflexivity.
  - rewrite length_rev, length_firstn. unfold ordered.
    rewrite (Permutation_length (Hperm own)). reflexivity.
  - rewrite rev_involutive. exact Hfirst.
  - intros x y Hx Hy. apply Hcross; [| exact Hy]. apply in_rev. exact Hx.
  - intros msg Hin.
    assert (In msg own) as Hown.
    { apply (Permutation_in _ Hshown). apply in_or_app. left. exact Hin. }
    apply filter_In in Hown as [Htable Howner]. apply Z.eqb_eq in Howner. auto.
Qed.

Lemma insert_desc_permutation (msg : ChatMessage) (sorted : list ChatMessage) :
  Permutation (insert_desc msg sorted) (msg :: sorted).
Proof.
  induction sorted as [|head rest IH]; cbn [insert_desc]; [reflexivity |].
  destruct (timestamp head <=? timestamp msg); [reflexivity |].
  rewrite IH. apply perm_swap.
Qed.

Lemma sort_desc_permutation (rows : list ChatMessage) : Permutation (sort_desc rows) rows.
Proof.
  induction rows as [|msg rows IH]; cbn [sort_desc]; [reflexivity |].
  rewrite insert_desc_permutation, IH. reflexivity.
Qed.

Lemma insert_desc_newest_first (msg : ChatMessage) (sorted : list ChatMessage) :
  newest_first sorted -> newest_first (insert_desc msg sorted).
Proof.
  induction sorted as [|head rest IH]; cbn [insert_desc newest_first].
  - intros _. split; [constructor | exact I].
  - intros [Hhead Hrest].
    destruct (timestamp head <=? timestamp msg) eqn:Hle; cbn [newest_first].
    + apply Z.leb_le in Hle. split; [| split; assumption].
      constructor; [exact Hle |].
      revert Hhead. apply List.Forall_impl. intros later Hlater. lia.
    + apply Z.leb_gt in Hle. split; [| apply IH; exact Hrest].
      apply List.Forall_forall. intros later Hin.
      apply (Permutation_in _ (insert_desc_permutation msg rest)) in Hin.
      destruct Hin as [<- | Hin]; [lia |].
      revert later Hin. apply List.Forall_forall. exact Hhead.
Qed.

Lemma sort_desc_newest_first (rows : list ChatMessage) : newest_first (sort_desc rows).
Proof.
  induction rows as [|msg rows IH]; cbn [sort_desc]; [exact I |].
  apply insert_desc_newest_first. exact IH.
Qed.

Lemma chat_history_shows_the_newest_fifty_witness :
  exists shown hidden,
    chat_history sort_desc sample_session = (Allowed (Success (map to_dict shown)), sample_session) /\
    Permutation (shown ++ hidden) (owned_by 1 (chat_messages sample_session)) /\
    length shown = 4%nat.
Proof.
  destruct (chat_history_shows_the_newest_fifty sort_desc sample_session sample_user
              sort_desc_permutation sort_desc_newest_first eq_refl)
    as (shown & hidden & Hrun & Hperm & Hlen & _).
  exists shown, hidden. split; [exact Hrun | split; [exact Hperm | exact Hlen]].
Defined.

(** ** The calendar *)

(** The cycles of 400, 100, 4 and 1 years in an ordinal. *)
Lemma year_split (o : Z) :
  let n0 := o - 1 in
  let n400 := n0 / 146097 in
  let r := n0 mod 146097 in
  let n100 := r / 36524 in
  let r2 := r mod 36524 in
  let n4 := r2 / 1461 in
  let r3 := r2 mod 1461 in
  let n1 := r3 / 365 in
  let n := r3 mod 365 in
  o = n400 * 146097 + n100 * 36524 + n4 * 1461 + n1 * 365 + n + 1 /\
  0 <= n100 <= 4 /\ 0 <= n4 <= 24 /\ 0 <= n1 <= 4 /\ 0 <= n <= 364 /\
  (n100 = 4 -> n4 = 0 /\ n1 = 0 /\ n = 0) /\
  (n1 = 4 -> n = 0 /\ n4 <= 23).
Proof.
  intros n0 n400 r n100 r2 n4 r3 n1 n.
  pose proof (Z.div_mod n0 146097 ltac:(lia)) as H400.
  pose proof (Z.mod_pos_bound n0 146097 ltac:(lia)) as B400.
  pose proof (Z.div_mod r 36524 ltac:(lia)) as H100.
  pose proof (Z.mod_pos_bound r 36524 ltac:(lia)) as B100.
  pose proof (Z.div_mod r2 1461 ltac:(lia)) as H4.
  pose proof (Z.mod_pos_bound r2 1461 ltac:(lia)) as B4.
  pose proof (Z.div_mod r3 365 ltac:(lia)) as H1.
  pose proof (Z.mod_pos_bound r3 365 ltac:(lia)) as B1.
  fold n400 r in H400, B400. fold n100 r2 in H100, B100.
  fold n4 r3 in H4, B4. fold n1 n in H1, B1.
  clearbody n400 r n100 r2 n4 r3 n1 n. subst n0.
  lia.
Qed.

Ltac evaluate_calendar :=
  repeat match goal with
    | |- context [nth (Z.to_nat ?k) ?l 0] =>
        let v := eval vm_compute in (nth (Z.to_nat k) l 0) in
        change (nth (Z.to_nat k) l 0) with v
    | |- context [Z.ltb 2 ?k] =>
        let v := eval vm_compute in (Z.ltb 2 k) in change (Z.ltb 2 k) with v
    | |- context [Z.eqb ?k ?c] =>
        let v := eval vm_compute in (Z.eqb k c) in change (Z.eqb k c) with v
    end;
  cbv beta iota delta [andb orb].

(** The month and the day of the month of the day [n] of a year. *)
Lemma month_and_day (year n : Z) :
  0 <= n <= 364 ->
  let month := Z.shiftr (n + 50) 5 in
  let preceding := days_before_month year month in
  let '(m, d) :=
    if n <? preceding then
      (month - 1, n - (preceding - days_in_month year (month - 1)) + 1)
    else (month, n - preceding + 1) in
  days_before_month year m + d = n + 1 /\ 1 <= m <= 12 /\ 1 <= d <= 31.
Proof.
  intros Hn. cbv zeta. rewrite Z.shiftr_div_pow2 by lia.
  change (2 ^ 5) with 32.
  pose proof (Z.div_mod (n + 50) 32 ltac:(lia)) as Hdiv.
  pose proof (Z.mod_pos_bound (n + 50) 32 ltac:(lia)) as Hmod.
  set (month := (n + 50) / 32) in *. clearbody month.
  assert (month = 1 \/ month = 2 \/ month = 3 \/ month = 4 \/ month = 5 \/ month = 6 \/
          month = 7 \/ month = 8 \/ month = 9 \/ month = 10 \/ month = 11 \/ month = 12)
    as Hmonth by lia.
  unfold days_before_month, days_in_month.
  destruct (is_leap year);
    repeat (destruct Hmonth as [-> | Hmonth]); try subst month;
    evaluate_calendar;
    match goal with
    | |- context [n <? ?p] => destruct (Z.ltb_spec n p)
    end; evaluate_calendar; lia.
Qed.

(** [ord2ymd] is inverted by [ymd2ord], and its months and days are those
    of a calendar. *)
Lemma ymd2ord_ord2ymd (o : Z) :
  let '(y, m, d) := ord2ymd o in
  ymd2ord y m d = o /\ 1 <= m <= 12 /\ 1 <= d <= 31 /\
  (1 <= o <= 3652059 -> 1 <= y <= 9999).
Proof.
  pose proof (year_split o) as Hsplit. unfold ord2ymd. cbv zeta in *.
  set (n400 := (o - 1) / 146097) in *.
  set (r := (o - 1) mod 146097) in *.
  set (n100 := r / 36524) in *.
  set (r2 := r mod 36524) in *.
  set (n4 := r2 / 1461) in *.
  set (r3 := r2 mod 1461) in *.
  set (n1 := r3 / 365) in *.
  set (n := r3 mod 365) in *.
  clearbody n400 n100 n4 n1 n. clear r r2 r3.
  destruct Hsplit as (Ho & B100 & B4 & B1 & Bn & Hlast & Hleap).
  set (year := n400 * 400 + 1 + n100 * 100 + n4 * 4 + n1).
  destruct ((n1 =? 4) || (n100 =? 4)) eqn:Hend.
  - assert (n = 0 /\ ((n1 = 4 /\ n4 <= 23 /\ n100 <= 3) \/ (n100 = 4 /\ n4 = 0 /\ n1 = 0)))
      as (Hn & Hcase).
    { apply orb_true_iff in Hend as [H | H]; apply Z.eqb_eq in H.
      - destruct (Z.eq_dec n100 4) as [H4 | H4]; [lia |]. lia.
      - lia. }
    unfold ymd2ord, days_before_year. cbv zeta.
    pose proof (Z.div_mod (year - 1 - 1) 4 ltac:(lia)).
    pose proof (Z.mod_pos_bound (year - 1 - 1) 4 ltac:(lia)).
    pose proof (Z.div_mod (year - 1 - 1) 100 ltac:(lia)).
    pose proof (Z.mod_pos_bound (year - 1 - 1) 100 ltac:(lia)).
    pose proof (Z.div_mod (year - 1 - 1) 400 ltac:(lia)).
    pose proof (Z.mod_pos_bound (year - 1 - 1) 400 ltac:(lia)).
    assert (is_leap (year - 1) = true) as Hisleap.
    { unfold is_leap.
      pose proof (Z.div_mod (year - 1) 4 ltac:(lia)).
      pose proof (Z.mod_pos_bound (year - 1) 4 ltac:(lia)).
      pose proof (Z.div_mod (year - 1) 100 ltac:(lia)).
      pose proof (Z.mod_pos_bound (year - 1) 100 ltac:(lia)).
      pose proof (Z.div_mod (year - 1) 400 ltac:(lia)).
      pose proof (Z.mod_pos_bound (year - 1) 400 ltac:(lia)).
      destruct (Z.eqb_spec ((year - 1) mod 4) 0); [| subst year; lia].
      destruct (Z.eqb_spec ((year - 1) mod 100) 0); [| reflexivity].
      destruct (Z.eqb_spec ((year - 1) mod 400) 0); [reflexivity |].
      subst year; lia. }
    unfold days_before_month. rewrite Hisleap. evaluate_calendar.
    subst year. lia.
  - apply orb_false_iff in Hend as [H1 H100].
    apply Z.eqb_neq in H1, H100.
    pose proof (month_and_day year n Bn) as Hmd. cbv zeta in Hmd.
    set (month := Z.shiftr (n + 50) 5) in *.
    destruct (n <? days_before_month year month).
    + destruct Hmd as (Hsum & Hm & Hd).
      unfold ymd2ord, days_before_year. cbv zeta.
      pose proof (Z.div_mod (year - 1) 4 ltac:(lia)).
      pose proof (Z.mod_pos_bound (year - 1) 4 ltac:(lia)).
      pose proof (Z.div_mod (year - 1) 100 ltac:(lia)).
      pose proof (Z.mod_pos_bound (year - 1) 100 ltac:(lia)).
      pose proof (Z.div_mod (year - 1) 400 ltac:(lia)).
      pose proof (Z.mod_pos_bound (year - 1) 400 ltac:(lia)).
      subst year. lia.
    + destruct Hmd as (Hsum & Hm & Hd).
      unfold ymd2ord, days_before_year. cbv zeta.
      pose proof (Z.div_mod (year - 1) 4 ltac:(lia)).
      pose proof (Z.mod_pos_bound (year - 1) 4 ltac:(lia)).
      pose proof (Z.div_mod (year - 1) 100 ltac:(lia)).
      pose proof (Z.mod_pos_bound (year - 1) 100 ltac:(lia)).
      pose proof (Z.div_mod (year - 1) 400 ltac:(lia)).
      pose proof (Z.mod_pos_bound (year - 1) 400 ltac:(lia)).
      subst year. lia.
Qed.

Lemma digit_inj (a b : Z) : digit a = digit b -> a mod 10 = b mod 10.
Proof.
  unfold digit. intros H.
  pose proof (Z.mod_pos_bound a 10 ltac:(lia)) as Ha.
  pose proof (Z.mod_pos_bound b 10 ltac:(lia)) as Hb.
  apply (f_equal nat_of_ascii) in H.
  rewrite !nat_ascii_embedding in H by lia. lia.
Qed.

Lemma two_digits_inj (a b : Z) :
  0 <= a <= 99 -> 0 <= b <= 99 -> two_digits a = two_digits b -> a = b.
Proof.
  intros Ha Hb H. unfold two_digits in H. injection H as H1' H0'.
  apply digit_inj in H1', H0'.
  pose proof (Z.div_mod a 10 ltac:(lia)). pose proof (Z.div_mod b 10 ltac:(lia)).
  pose proof (Z.mod_pos_bound a 10 ltac:(lia)). pose proof (Z.mod_pos_bound b 10 ltac:(lia)).
  pose proof (Z.div_mod (a / 10) 10 ltac:(lia)). pose proof (Z.div_mod (b / 10) 10 ltac:(lia)).
  pose proof (Z.mod_pos_bound (a / 10) 10 ltac:(lia)).
  pose proof (Z.mod_pos_bound (b / 10) 10 ltac:(lia)).
  assert (a / 10 / 10 = 0) by (rewrite Z.div_div by lia; apply Z.div_small; lia).
  assert (b / 10 / 10 = 0) by (rewrite Z.div_div by lia; apply Z.div_small; lia).
  lia.
Qed.

Lemma four_digits_inj (a b : Z) :
  0 <= a <= 9999 -> 0 <= b <= 9999 -> four_digits a = four_digits b -> a = b.
Proof.
  intros Ha Hb H. unfold four_digits, two_digits in H. injection H as H3 H2 H1 H0.
  apply digit_inj in H3, H2, H1, H0.
  pose proof (Z.div_mod a 10 ltac:(lia)). pose proof (Z.div_mod b 10 ltac:(lia)).
  pose proof (Z.mod_pos_bound a 10 ltac:(lia)). pose proof (Z.mod_pos_bound b 10 ltac:(lia)).
  pose proof (Z.div_mod (a / 10) 10 ltac:(lia)). pose proof (Z.div_mod (b / 10) 10 ltac:(lia)).
  pose proof (Z.mod_pos_bound (a / 10) 10 ltac:(lia)).
  pose proof (Z.mod_pos_bound (b / 10) 10 ltac:(lia)).
  pose proof (Z.div_mod (a / 100) 10 ltac:(lia)). pose proof (Z.div_mod (b / 100) 10 ltac:(lia)).
  pose proof (Z.mod_pos_bound (a / 100) 10 ltac:(lia)).
  pose proof (Z.mod_pos_bound (b / 100) 10 ltac:(lia)).
  pose proof (Z.div_mod (a / 1000) 10 ltac:(lia)).
  pose proof (Z.div_mod (b / 1000) 10 ltac:(lia)).
  pose proof (Z.mod_pos_bound (a / 1000) 10 ltac:(lia)).
  pose proof (Z.mod_pos_bound (b / 1000) 10 ltac:(lia)).
  assert (a / 10 / 10 = a / 100) by (rewrite Z.div_div by lia; reflexivity).
  assert (b / 10 / 10 = b / 100) by (rewrite Z.div_div by lia; reflexivity).
  assert (a / 100 / 10 = a / 1000) by (rewrite Z.div_div by lia; reflexivity).
  assert (b / 100 / 10 = b / 1000) by (rewrite Z.div_div by lia; reflexivity).
  assert (a / 1000 / 10 = 0) by (rewrite Z.div_div by lia; apply Z.div_small; lia).
  assert (b / 1000 / 10 = 0) by (rewrite Z.div_div by lia; apply Z.div_small; lia).
  lia.
Qed.

Lemma toordinal_in_range (t : datetime) :
  in_datetime_range t -> 1 <= toordinal t <= 3652059.
Proof.
  unfold in_datetime_range, toordinal. intros [Hlo Hhi].
  assert (0 <= t / usec_per_day < 3652059); [| lia].
  split; [apply Z.div_pos; [exact Hlo | reflexivity] |].
  apply Z.div_lt_upper_bound; [reflexivity |]. lia.
Qed.

(** Within the range of [datetime], two instants are written as the same
    date only if they fall on the same day. *)
Lemma strftime_ymd_inj (t t' : datetime) :
  in_datetime_range t -> in_datetime_range t' ->
  strftime_ymd t = strftime_ymd t' -> toordinal t = toordinal t'.
Proof.
  intros Ht Ht' H. apply toordinal_in_range in Ht, Ht'.
  unfold strftime_ymd in H.
  pose proof (ymd2ord_ord2ymd (toordinal t)) as Hinv.
  pose proof (ymd2ord_ord2ymd (toordinal t')) as Hinv'.
  destruct (ord2ymd (toordinal t)) as [[y m] d].
  destruct (ord2ymd (toordinal t')) as [[y' m'] d'].
  destruct Hinv as (Ho & Hm & Hd & Hy). destruct Hinv' as (Ho' & Hm' & Hd' & Hy').
  specialize (Hy Ht). specialize (Hy' Ht'). rewrite <- Ho, <- Ho'.
  assert (four_digits y = four_digits y' /\ two_digits m = two_digits m'
          /\ two_digits d = two_digits d') as (Hyy & Hmm & Hdd).
  { unfold four_digits, two_digits in *. cbn [String.append] in H.
    injection H as H1 H2 H3 H4 H5 H6 H7 H8. repeat split; congruence. }
  apply four_digits_inj in Hyy; [| lia | lia].
  apply two_digits_inj in Hmm; [| lia | lia].
  apply two_digits_inj in Hdd; [| lia | lia].
  congruence.
Qed.

(** Seconds and microseconds do not change the date. *)
Lemma strftime_ymd_same_day (t t' : datetime) :
  toordinal t = toordinal t' -> strftime_ymd t = strftime_ymd t'.
Proof. intros H. rewrite !strftime_date_string, H. reflexivity. Qed.

(** ** The timeline and the calendar *)

Lemma count_where_filter {A} (p q : A -> bool) (xs : list A) :
  count_where p (List.filter q xs) = count_where (fun x => q x && p x) xs.
Proof.
  induction xs as [|x xs IH]; cbn [List.filter count_where]; [reflexivity |].
  destruct (q x); cbn [count_where andb]; rewrite IH; reflexivity.
Qed.

Lemma count_where_ext_in {A} (p q : A -> bool) (xs : list A) :
  Forall (fun x => p x = q x) xs -> count_where p xs = count_where q xs.
Proof.
  induction 1 as [|x xs Hx _ IH]; cbn [count_where]; [reflexivity |].
  rewrite Hx, IH. reflexivity.
Qed.

Lemma day_in_range (reference : datetime) (back : Z) :
  in_datetime_range (reference - timedelta_days 6) ->
  in_datetime_range reference ->
  0 <= back <= 6 ->
  in_datetime_range (reference - timedelta_days back).
Proof. unfold in_datetime_range, timedelta_days, usec_per_day. lia. Qed.

(** Within the range of [datetime], the rows the route counts under the
    date at index [i] are the user's rows stamped on that calendar day:
    the filter on the timestamp cuts none of them. *)
Lemma tally_rows_of_day (uid : Z) (table : list ChatMessage) (reference : datetime)
    (label : string) (i : Z) :
  in_datetime_range (reference - timedelta_days 6) ->
  in_datetime_range reference ->
  Forall (fun msg => in_datetime_range (timestamp msg)) table ->
  0 <= i <= 6 ->
  tally (recent_messages uid (reference - timedelta_days 7) table)
    (day_label reference i) label
  = rows_of_day uid label (toordinal reference - (6 - i)) table.
Proof.
  intros Hlow Hhigh Hrange Hi. unfold tally, recent_messages, rows_of_day.
  rewrite count_where_filter. apply count_where_ext_in.
  revert Hrange. apply List.Forall_impl. intros msg Hmsg.
  destruct (user_id msg =? uid); [| reflexivity]. cbn [andb].
  rewrite (andb_comm (String.eqb (strftime_ymd (timestamp msg)) (day_label reference i))).
  destruct (String.eqb (sentiment msg) label); [| apply andb_false_r]. cbn [andb].
  pose proof (day_in_range reference (6 - i) Hlow Hhigh ltac:(lia)) as Hday.
  unfold day_label.
  destruct (Z.eqb_spec (toordinal (timestamp msg)) (toordinal reference - (6 - i)))
    as [Heq | Hne].
  - rewrite <- (toordinal_minus_days reference (6 - i)) in Heq.
    rewrite (strftime_ymd_same_day _ _ Heq), String.eqb_refl, andb_true_r.
    apply Z.leb_le.
    rewrite (toordinal_minus_days reference (6 - i)) in Heq.
    unfold toordinal in Heq. unfold timedelta_days.
    pose proof (Z.div_mod (timestamp msg) usec_per_day ltac:(discriminate)) as H1.
    pose proof (Z.mod_pos_bound (timestamp msg) usec_per_day ltac:(reflexivity)) as H2.
    pose proof (Z.div_mod reference usec_per_day ltac:(discriminate)) as H3.
    pose proof (Z.mod_pos_bound reference usec_per_day ltac:(reflexivity)) as H4.
    unfold usec_per_day in *. lia.
  - replace (String.eqb _ _) with false; [apply andb_false_r |].
    symmetry. apply String.eqb_neq. intros Heq. apply Hne.
    rewrite <- (toordinal_minus_days reference (6 - i)).
    apply strftime_ymd_inj; assumption.
Qed.

Lemma day_label_inj (reference : datetime) (i j : Z) :
  in_datetime_range (reference - timedelta_days 6) ->
  in_datetime_range reference ->
  0 <= i <= 6 -> 0 <= j <= 6 ->
  day_label reference i = day_label reference j -> i = j.
Proof.
  intros Hlow Hhigh Hi Hj Heq. unfold day_label in Heq.
  apply strftime_ymd_inj in Heq; [| apply day_in_range; (assumption || lia) ..].
  rewrite !toordinal_minus_days in Heq. lia.
Qed.

(** X21. Within the range of [datetime], with the clock standing at the
    reference instant and known labels in the window, the seven dates of
    the timeline are distinct, and the counts at index [i] are the numbers
    of the user's rows of each label stamped on the calendar day [6 - i]
    days before the reference day: the rows are grouped by day, not by
    date string, and the filter at seven times 24 hours before the
    reference cuts none of the rows of the seven days shown. *)
Theorem timeline_counts_calendar_days (current_user_id : Z) (table : list ChatMessage)
    (w : world) (reference : datetime) :
  clock_stands w reference 8 ->
  in_datetime_range (reference - timedelta_days 6) ->
  in_datetime_range reference ->
  Forall (fun msg => in_datetime_range (timestamp msg)) table ->
  Forall (fun msg => known_label (sentiment msg) = true)
    (recent_messages current_user_id (reference - timedelta_days 7) table) ->
  exists data w',
    analytics_timeline current_user_id table w = (Success data, w') /\
    NoDup (dates data) /\
    positive_counts data
    = map (fun i => rows_of_day current_user_id "positive"
                      (toordinal reference - (6 - i)) table) [0; 1; 2; 3; 4; 5; 6] /\
    negative_counts data
    = map (fun i => rows_of_day current_user_id "negative"
                      (toordinal reference - (6 - i)) table) [0; 1; 2; 3; 4; 5; 6] /\
    neutral_counts data
    = map (fun i => rows_of_day current_user_id "neutral"
                      (toordinal reference - (6 - i)) table) [0; 1; 2; 3; 4; 5; 6].
Proof.
  intros Hclock Hlow Hhigh Hrange Hknown.
  eexists _, _. split.
  { unfold analytics_timeline.
    rewrite (timeline_data_run _ _ _ _ Hclock Hknown). reflexivity. }
  cbv zeta. cbn [dates positive_counts negative_counts neutral_counts].
  split.
  - apply NoDup_ListNoDup. apply NoDup_map_NoDup_ForallPairs.
    + intros i j Hi Hj Heq.
      apply (day_label_inj reference i j Hlow Hhigh); [| | exact Heq].
      * cbn in Hi. lia.
      * cbn in Hj. lia.
    + repeat (constructor; [cbn; lia |]). constructor.
  - cbn [map]. rewrite !tally_rows_of_day by (assumption || lia).
    repeat split; reflexivity.
Qed.

Lemma sample_table_in_range :
  Forall (fun msg => in_datetime_range (timestamp msg)) sample_table.
Proof.
  repeat (constructor; [unfold in_datetime_range; cbn; vm_compute; split; congruence |]).
  constructor.
Qed.

Lemma timeline_counts_calendar_days_witness :
  exists data w',
    analytics_timeline 1 sample_table (frozen sample_reference) = (Success data, w') /\
    NoDup (dates data) /\
    positive_counts data = [0; 0; 0; 1; 0; 0; 0]%nat.
Proof.
  destruct (timeline_counts_calendar_days 1 sample_table (frozen sample_reference)
              sample_reference)
    as (data & w' & Hrun & Hdates & Hpositive & _).
  - intros k _. reflexivity.
  - unfold in_datetime_range. vm_compute. split; congruence.
  - unfold in_datetime_range. vm_compute. split; congruence.
  - exact sample_table_in_range.
  - repeat (constructor; [reflexivity |]). constructor.
  - exists data, w'. split; [exact Hrun | split; [exact Hdates |]].
    rewrite Hpositive. reflexivity.
Defined.

Lemma rows_of_day_snoc (uid : Z) (label : string) (day : Z) (table : list ChatMessage)
    (msg : ChatMessage) :
  rows_of_day uid label day (table ++ [msg])
  = Nat.add (rows_of_day uid label day table)
      (if (user_id msg =? uid) && String.eqb (sentiment msg) label
          && (toordinal (timestamp msg) =? day) then 1%nat else 0%nat).
Proof.
  unfold rows_of_day. rewrite count_where_app. cbn [count_where]. lia.
Qed.

(** X22. Posting a message moves exactly one count of the timeline: with
    the clock standing at the reference instant, known labels and
    timestamps within the range of [datetime], the timeline served after
    an accepted message has the same dates as the one served before, and
    the same counts except that the count of the answered label on the
    last day, the reference day, is one more. *)
Theorem posted_message_is_counted_today (polarity_of : string -> float)
    (lower strip : string -> string) (req : request) (st st' : app) (user : User.t)
    (answer : chat_answer) (reference : datetime) :
  current_user st = Some user ->
  clock_stands (interp st) reference 9 ->
  in_datetime_range (reference - timedelta_days 6) ->
  in_datetime_range reference ->
  Forall (fun msg => in_datetime_range (timestamp msg)) (chat_messages st) ->
  labels_known st ->
  chat_api polarity_of lower strip req st = (Allowed (Success answer), st') ->
  exists data data',
    fst (analytics_timeline_route st) = Allowed (Success data) /\
    fst (analytics_timeline_route st') = Allowed (Success data') /\
    dates data' = dates data /\
    let today_plus (label : string) (counts : list nat) :=
      (firstn 6 counts
       ++ [if String.eqb (answer_sentiment answer) label
           then S (nth 6 counts 0%nat) else nth 6 counts 0%nat])%list in
    positive_counts data' = today_plus "positive" (positive_counts data) /\
    negative_counts data' = today_plus "negative" (negative_counts data) /\
    neutral_counts data' = today_plus "neutral" (neutral_counts data).
Proof.
  intros Huser Hclock Hlow Hhigh Hrange Hknown Hrun.
  pose proof (chat_api_cases polarity_of lower strip req st user Huser) as Hcases.
  rewrite Hrun in Hcases.
  destruct (json req) as [data0|]; [| discriminate].
  destruct (dict_get data0 "message" (JString "")) as [text|]; [| discriminate].
  destruct (is_empty (strip text)); [discriminate |].
  cbv zeta in Hcases. destruct Hcases as (base & w1 & Hdraw & _ & Heq).
  injection Heq as -> ->. cbn [answer_sentiment].
  destruct (random_choice_clock _ _ _ _ Hdraw) as [Hclock1 Hpos1].
  assert (clock (interp st) (clock_pos (interp st)) = reference) as Hnow.
  { rewrite <- (Hclock 0%nat) by lia. f_equal. lia. }
  rewrite Hnow.
  set (label := classify (polarity_of (strip text))).
  set (msg := {| id := next_key (map id (chat_messages st)); timestamp := reference |}).
  set (st' := set_chat_messages _ _).
  assert (current_user st' = Some user) as Huser' by exact Huser.
  assert (clock_stands (interp st) reference 8) as Hclock8
    by (intros k Hk; apply Hclock; lia).
  assert (clock_stands (interp st') reference 8) as Hclock'.
  { intros k Hk. subst st'. cbn [interp set_chat_messages set_interp tick clock clock_pos].
    rewrite Hclock1, Hpos1. rewrite <- (Hclock (S k)) by lia. f_equal. lia. }
  assert (forall uid week_ago table,
             Forall (fun m => known_label (sentiment m) = true) table ->
             Forall (fun m => known_label (sentiment m) = true)
               (recent_messages uid week_ago table)) as Hrecent.
  { intros uid week_ago table H. apply List.Forall_forall. intros m Hin.
    apply filter_In in Hin as [Hin _]. revert m Hin. apply List.Forall_forall. exact H. }
  assert (Forall (fun m => known_label (sentiment m) = true) (chat_messages st')) as Hknown'.
  { subst st'. cbn [chat_messages set_chat_messages]. apply Forall_app.
    split; [exact Hknown |]. constructor; [apply classify_known | constructor]. }
  assert (Forall (fun m => in_datetime_range (timestamp m)) (chat_messages st')) as Hrange'.
  { subst st'. cbn [chat_messages set_chat_messages]. apply Forall_app.
    split; [exact Hrange |]. constructor; [exact Hhigh | constructor]. }
  pose proof (timeline_data_run (User.id user) (chat_messages st') (interp st') reference
                Hclock' (Hrecent _ _ _ Hknown')) as Hafter.
  unfold analytics_timeline_route.
  rewrite (login_required_user _ _ _ Huser), (login_required_user _ _ _ Huser').
  unfold analytics_timeline. rewrite Hafter.
  match goal with
  | |- context [timeline_data ?u ?t ?w] =>
      rewrite (timeline_data_run u t w reference Hclock8 (Hrecent _ _ _ Hknown))
  end.
  cbn [fst]. eexists _, _. split; [reflexivity | split; [reflexivity |]].
  cbv zeta. cbn [dates positive_counts negative_counts neutral_counts].
  split; [reflexivity |].
  cbn [map firstn nth List.app].
  rewrite !tally_rows_of_day by (assumption || lia).
  subst st'. cbn [chat_messages set_chat_messages].
  rewrite !rows_of_day_snoc. cbn [user_id sentiment timestamp msg].
  rewrite Z.eqb_refl. cbn [andb].
  replace (toordinal reference =? toordinal reference - (6 - 0)) with false
    by (symmetry; apply Z.eqb_neq; lia).
  replace (toordinal reference =? toordinal reference - (6 - 1)) with false
    by (symmetry; apply Z.eqb_neq; lia).
  replace (toordinal reference =? toordinal reference - (6 - 2)) with false
    by (symmetry; apply Z.eqb_neq; lia).
  replace (toordinal reference =? toordinal reference - (6 - 3)) with false
    by (symmetry; apply Z.eqb_neq; lia).
  replace (toordinal reference =? toordinal reference - (6 - 4)) with false
    by (symmetry; apply Z.eqb_neq; lia).
  replace (toordinal reference =? toordinal reference - (6 - 5)) with false
    by (symmetry; apply Z.eqb_neq; lia).
  replace (toordinal reference =? toordinal reference - (6 - 6)) with true
    by (symmetry; apply Z.eqb_eq; lia).
  rewrite !andb_false_r, !andb_true_r, !Nat.add_0_r.
  repeat split; repeat f_equal; destruct (String.eqb label _); lia.
Qed.

Lemma posted_message_is_counted_today_witness :
  exists data data',
    fst (analytics_timeline_route sample_session) = Allowed (Success data) /\
    fst (analytics_timeline_route
           (snd (chat_api sample_polarity ascii_lower ascii_strip
                   (post_json [("message", JString "too bad")]) sample_session)))
    = Allowed (Success data') /\
    negative_counts data = [0; 0; 0; 0; 0; 0; 1]%nat /\
    negative_counts data' = [0; 0; 0; 0; 0; 0; 2]%nat.
Proof.
  destruct (posted_message_is_counted_today sample_polarity ascii_lower ascii_strip
              (post_json [("message", JString "too bad")]) sample_session
              (snd (chat_api sample_polarity ascii_lower ascii_strip
                      (post_json [("message", JString "too bad")]) sample_session))
              sample_user
              {| answer_response := nth 0 negative_responses "";
                 answer_sentiment := "negative";
                 answer_sentiment_score := (-0.7)%float;
                 answer_timestamp := "2024-10-31 12:00:00" |}
              sample_reference)
    as (data & data' & Hbefore & Hafter & _ & _ & Hnegative & _).
  - reflexivity.
  - intros k _. reflexivity.
  - unfold in_datetime_range. vm_compute. split; congruence.
  - unfold in_datetime_range. vm_compute. split; congruence.
  - repeat (constructor; [unfold in_datetime_range; vm_compute; split; congruence |]).
    constructor.
  - unfold labels_known. repeat (constructor; [reflexivity |]). constructor.
  - reflexivity.
  - exists data, data'. split; [exact Hbefore | split; [exact Hafter |]].
    vm_compute in Hbefore. injection Hbefore as <-.
    split; [reflexivity | exact Hnegative].
Defined.

(** ** Posting and reading back *)

Lemma newest_first_head (rows ordered : list ChatMessage) (msg : ChatMessage) :
  Permutation ordered (rows ++ [msg]) ->
  newest_first ordered ->
  Forall (fun row => timestamp row < timestamp msg) rows ->
  exists rest, ordered = msg :: rest /\ Permutation rest rows.
Proof.
  intros Hperm Hsorted Hnewer.
  destruct ordered as [|head rest].
  - apply Permutation_nil in Hperm. destruct rows; discriminate.
  - assert (In msg (head :: rest)) as Hmsg.
    { apply (Permutation_in _ (Permutation_sym Hperm)). apply in_or_app. right. left.
      reflexivity. }
    assert (In head (rows ++ [msg])) as Hhead
      by (apply (Permutation_in _ Hperm); left; reflexivity).
    assert (head = msg) as ->.
    { apply in_app_or in Hhead as [Hin | [Heq | []]]; [| symmetry; exact Heq].
      exfalso.
      assert (timestamp head < timestamp msg) as Hlt
        by exact (proj1 (List.Forall_forall _ _) Hnewer head Hin).
      destruct Hmsg as [Heq | Hin'].
      - subst head. lia.
      - destruct Hsorted as [Hhead _].
        assert (timestamp msg <= timestamp head)
          by exact (proj1 (List.Forall_forall _ _) Hhead msg Hin').
        lia. }
    exists rest. split; [reflexivity |].
    apply (Permutation_app_inv_r [msg]).
    change (Permutation ([msg] ++ rest) (rows ++ [msg])) in Hperm.
    rewrite <- Hperm. apply Permutation_app_comm.
Qed.

(** X23. What is posted can be read back: when the ordered query returns
    the rows it is given, newest first, and the clock reads a later
    instant than the timestamps of the user's rows, the history served
    after an accepted message ends with that message, with the stripped
    text that was posted and the response, the label, the score and the
    timestamp that were answered. *)
Theorem posted_message_ends_the_history (polarity_of : string -> float)
    (lower strip : string -> string)
    (order_by_timestamp_desc : list ChatMessage -> list ChatMessage)
    (req : request) (st st' : app) (user : User.t) (answer : chat_answer)
    (data : gmap string jvalue) (text : string) :
  (forall rows, Permutation (order_by_timestamp_desc rows) rows) ->
  (forall rows, newest_first (order_by_timestamp_desc rows)) ->
  current_user st = Some user ->
  json req = Some data ->
  dict_get data "message" (JString "") = JString text ->
  Forall (fun row => timestamp row < clock (interp st) (clock_pos (interp st)))
    (owned_by (User.id user) (chat_messages st)) ->
  chat_api polarity_of lower strip req st = (Allowed (Success answer), st') ->
  exists earlier last,
    fst (chat_history order_by_timestamp_desc st')
    = Allowed (Success (earlier ++ [last])%list) /\
    (length earlier
     = Nat.min 49 (length (owned_by (User.id user) (chat_messages st))))%nat /\
    MessageDict.message last = strip text /\
    MessageDict.response last = answer_response answer /\
    MessageDict.sentiment last = answer_sentiment answer /\
    MessageDict.sentiment_score last = answer_sentiment_score answer /\
    MessageDict.timestamp last = answer_timestamp answer.
Proof.
  intros Hperm Hsorted Huser Hjson Hmessage Hnewer Hrun.
  pose proof (chat_api_cases polarity_of lower strip req st user Huser) as Hcases.
  rewrite Hrun, Hjson, Hmessage in Hcases.
  destruct (is_empty (strip text)); [discriminate |].
  cbv zeta in Hcases. destruct Hcases as (base & w1 & _ & _ & Heq).
  injection Heq as -> ->.
  set (msg := {| id := next_key (map id (chat_messages st)); message := strip text |}).
  set (st' := set_chat_messages _ _).
  assert (current_user st' = Some user) as Huser' by exact Huser.
  unfold chat_history. rewrite (login_required_user _ _ _ Huser'). cbn [fst].
  subst st'. cbn [chat_messages set_chat_messages].
  rewrite owned_by_app. unfold owned_by at 2. cbn [List.filter]. fold msg.
  replace (user_id msg =? User.id user) with true by (symmetry; apply Z.eqb_refl).
  set (own := owned_by (User.id user) (chat_messages st)) in *.
  destruct (newest_first_head own (order_by_timestamp_desc (own ++ [msg])%list) msg
              (Hperm _) (Hsorted _) Hnewer) as (rest & -> & Hrest).
  change (firstn 50 (msg :: rest)) with (msg :: firstn 49 rest).
  cbn [rev]. rewrite map_app. cbn [map].
  eexists _, _. split; [reflexivity |].
  split; [rewrite length_map, length_rev, length_firstn, (Permutation_length Hrest);
          reflexivity |].
  repeat split; reflexivity.
Qed.

Lemma posted_message_ends_the_history_witness :
  exists earlier last,
    fst (chat_history sort_desc
           (snd (chat_api sample_polarity ascii_lower ascii_strip
                   (post_json [("message", JString " too bad ")]) sample_session)))
    = Allowed (Success (earlier ++ [last])%list) /\
    length earlier = 4%nat /\
    MessageDict.message last = "too bad" /\
    MessageDict.sentiment last = "negative".
Proof.
  destruct (posted_message_ends_the_history sample_polarity ascii_lower ascii_strip
              sort_desc (post_json [("message", JString " too bad ")]) sample_session
              (snd (chat_api sample_polarity ascii_lower ascii_strip
                      (post_json [("message", JString " too bad ")]) sample_session))
              sample_user
              {| answer_response := nth 0 negative_responses "";
                 answer_sentiment := "negative";
                 answer_sentiment_score := (-0.7)%float;
                 answer_timestamp := "2024-10-31 12:00:00" |}
              (list_to_map [("message", JString " too bad ")]) " too bad "
              sort_desc_permutation sort_desc_newest_first eq_refl eq_refl eq_refl)
    as (earlier & last & Hrun & Hlen & Hmessage & _ & Hlabel & _).
  - repeat (constructor; [vm_compute; reflexivity |]). constructor.
  - reflexivity.
  - exists earlier, last. split; [exact Hrun | split; [exact Hlen |]].
    split; [exact Hmessage | exact Hlabel].
Defined.

(** ** Scores, the dashboard and the redirect after login *)

Lemma analysis_well_scored (p : float) (msg : ChatMessage) :
  (-1 <=? p)%float = true -> (p <=? 1)%float = true ->
  sentiment msg = classify p ->
  sentiment_score msg = py_round p 4 ->
  well_scored msg.
Proof.
  intros Hlo Hhi Hlabel Hscore. unfold well_scored. rewrite Hlabel, Hscore.
  pose proof (leb_unit_interval_between _ Hlo Hhi) as Hrange.
  destruct (py_round_unit_interval _ Hrange) as (s & k & Hk & Hdecimal).
  destruct (decimal_float_in_unit_interval s k Hk) as (_ & Hge & Hle).
  rewrite <- Hdecimal in Hge, Hle.
  split; [exact Hge | split; [exact Hle |]].
  apply label_side_of_score; assumption.
Qed.

(** X24. The stored rows keep what the comments on the columns say: if
    the polarity of every text lies between -1.0 and 1.0 and every stored
    row has a score between -1 and 1 that lies on the side of the
    thresholds its label names, the same holds of every row stored after
    any sequence of requests to any routes. *)
Theorem stored_scores_match_their_labels (polarity_of : string -> float)
    (lower strip : string -> string)
    (generate_password_hash : string -> string -> string)
    (check_password_hash : string -> string -> bool)
    (order_by_timestamp_desc : list ChatMessage -> list ChatMessage)
    (calls : list call) (st : app) :
  (forall text,
      (-1 <=? polarity_of text)%float = true /\ (polarity_of text <=? 1)%float = true) ->
  Forall well_scored (chat_messages st) ->
  Forall well_scored
    (chat_messages (serve polarity_of lower strip generate_password_hash
                      check_password_hash order_by_timestamp_desc calls st)).
Proof.
  intros Hpolarity. revert st.
  induction calls as [|c calls IH]; intros st Hscored; [exact Hscored |].
  rewrite serve_cons. apply IH.
  destruct (handle_effect polarity_of lower strip generate_password_hash
              check_password_hash order_by_timestamp_desc c st)
    as [(_ & -> & _) | [(user & _ & _ & _ & _ & _ & -> & _)
                       | (user & msg & _ & -> & _ & _ & _ & _ & _ & text & Hlabel & Hscore)]];
    [exact Hscored | exact Hscored |].
  apply Forall_app. split; [exact Hscored |].
  constructor; [| constructor].
  destruct (Hpolarity text) as [Hlo Hhi].
  exact (analysis_well_scored _ _ Hlo Hhi Hlabel Hscore).
Qed.

Lemma sample_polarity_in_range (text : string) :
  (-1 <=? sample_polarity text)%float = true /\ (sample_polarity text <=? 1)%float = true.
Proof.
  unfold sample_polarity.
  destruct (contains (ascii_lower text) "good"); [split; reflexivity |].
  destruct (contains (ascii_lower text) "bad"); split; reflexivity.
Qed.

Lemma stored_scores_match_their_labels_witness :
  Forall well_scored
    (chat_messages
       (serve sample_polarity ascii_lower ascii_strip sample_hash sample_check sort_desc
          [Login (post_form [("username", "alice"); ("password", "secret1")]);
           ChatApi (post_json [("message", JString "not bad at all")]);
           ChatApi (post_json [("message", JString "good morning")])]
          (set_chat_messages [] sample_app))).
Proof.
  apply (stored_scores_match_their_labels sample_polarity ascii_lower ascii_strip
           sample_hash sample_check sort_desc).
  - exact sample_polarity_in_range.
  - constructor.
Defined.

(** X25. The dashboard and the history agree: whatever the order of the
    query, as long as both routes get the same one, the recent messages
    of the dashboard are the ten last entries of the history, or all if
    there are fewer, the newest first, and the total of the statistics is
    the number of the user's rows. *)
Theorem dashboard_shows_the_end_of_the_history
    (order_by_timestamp_desc : list ChatMessage -> list ChatMessage)
    (st : app) (user : User.t) :
  current_user st = Some user ->
  exists stats recent history,
    dashboard order_by_timestamp_desc st = (Allowed (RenderDashboard stats recent), st) /\
    chat_history order_by_timestamp_desc st = (Allowed (Success history), st) /\
    map to_dict recent = firstn 10 (rev history) /\
    SentimentStats.total stats = length (owned_by (User.id user) (chat_messages st)).
Proof.
  intros Huser.
  destruct (sentiment_views_never_fail order_by_timestamp_desc st user Huser)
    as (_ & stats & Hdashboard & Htotal).
  eexists stats, _, _. split; [exact Hdashboard |].
  split; [unfold chat_history; rewrite (login_required_user _ _ _ Huser); reflexivity |].
  split; [| exact Htotal].
  rewrite <- map_rev, rev_involutive, <- firstn_map, <- firstn_map.
  rewrite firstn_firstn. reflexivity.
Qed.

Lemma dashboard_shows_the_end_of_the_history_witness :
  exists stats recent history,
    dashboard sort_desc sample_session = (Allowed (RenderDashboard stats recent), sample_session) /\
    chat_history sort_desc sample_session = (Allowed (Success history), sample_session) /\
    map to_dict recent = firstn 10 (rev history) /\
    SentimentStats.total stats = 4%nat.
Proof.
  exact (dashboard_shows_the_end_of_the_history sort_desc sample_session sample_user
           eq_refl).
Defined.

(** X26. A successful login goes where the request says: when nobody is
    logged in and the posted name, stripped, and password are not empty,
    the first user of that name is stored with a hash the checker accepts
    for the password, [login] opens the session of that user and answers
    the redirect to the [next] argument of the request, whatever URL it
    holds, and to the dashboard only if there is none or it is empty. *)
Theorem login_redirects_to_next (strip : string -> string)
    (check_password_hash : string -> string -> bool) (req : request) (st : app)
    (user : User.t) :
  current_user st = None ->
  method req = POST ->
  strip (dict_get (form req) "username" "") <> "" ->
  dict_get (form req) "password" "" <> "" ->
  find_by_username (strip (dict_get (form req) "username" "")) (users st) = Some user ->
  check_password_hash (User.password_hash user) (dict_get (form req) "password" "") = true ->
  session_user_id (snd (login strip check_password_hash req st)) = Some (User.id user) /\
  (forall url,
      args req !! "next" = Some url -> url <> "" ->
      fst (login strip check_password_hash req st) = RedirectUrl url) /\
  (args req !! "next" = None \/ args req !! "next" = Some "" ->
   fst (login strip check_password_hash req st) = Redirect "main.dashboard").
Proof.
  intros Huser Hmethod Hname Hpassword Hfind Hcheck.
  apply is_empty_false in Hname, Hpassword.
  unfold login. rewrite Huser, Hmethod, Hname, Hpassword, Hfind. cbn [orb].
  unfold check_password. rewrite Hcheck.
  destruct (args req !! "next") as [next_page|].
  - destruct (is_empty next_page) eqn:Hempty; cbn [fst snd].
    + apply is_empty_true in Hempty. subst next_page.
      split; [reflexivity |]. split; [| reflexivity].
      intros url Hurl Hne. injection Hurl as <-. contradiction.
    + apply is_empty_false in Hempty.
      split; [reflexivity |]. split.
      * intros url Hurl _. injection Hurl as <-. reflexivity.
      * intros [Hnone | Hsome]; [discriminate |]. injection Hsome as ->. contradiction.
  - cbn [fst snd]. split; [reflexivity |]. split; [| reflexivity].
    intros url Hurl. discriminate.
Qed.

Lemma login_redirects_to_next_witness :
  fst (login ascii_strip sample_check
         {| method := POST;
            form := list_to_map [("username", " alice "); ("password", "secret1")];
            args := list_to_map [("next", "https://elsewhere.example/")];
            json := None |}
         sample_app)
  = RedirectUrl "https://elsewhere.example/".
Proof.
  apply (login_redirects_to_next ascii_strip sample_check
           {| method := POST;
              form := list_to_map [("username", " alice "); ("password", "secret1")];
              args := list_to_map [("next", "https://elsewhere.example/")];
              json := None |}
           sample_app sample_user);
    try reflexivity; discriminate.
Defined.

(** * The timeline, whatever the clock reads *)







